(** * x402-forge: payment verification, settlement proofs and task routing

    A shallow embedding of the JavaScript services of the repository
    (PaymentVerifier, PaymentProcessor, AgentMesh, TaskOrchestrator,
    ProofEngine, AgentWallet, x402Client, BridgeLayer) together with the
    properties their specification states about them and further
    properties of the code.

    Conventions.
    - A JavaScript [number] is an IEEE 754 binary64 value: Rocq's primitive
      [float].  Millisecond timestamps read from [Date.now()] are integers
      and are kept in [Z], except where the code stores them in an object
      or subtracts a property of an object from them: there they are
      numbers like any other.
    - A JavaScript string is a Rocq [string] (its UTF-8 bytes).
    - An [async] function that either resolves or rejects is a function
      into [outcome]; [await] is the bind of that monad and
      [try { } catch (error) { }] is [try_catch].
    - Effects on collaborators (the audit sink, the wallet, the agents) are
      threaded explicitly as a log of the calls made so far. *)

From Stdlib Require Import ZArith String Ascii List Lia Floats.
From stdpp Require Import base option list strings gmap pretty.
From Equations Require Import Equations.
Import ListNotations.

#[local] Open Scope string_scope.
#[local] Open Scope Z_scope.

(* ===================================================================== *)
(** ** JavaScript values and control flow *)
(* ===================================================================== *)

Module JS.

(** Primitive values.  Objects are property maps [gmap string jsval]. *)
Inductive jsval : Type :=
| JUndefined
| JNull
| JBool (b : bool)
| JNum (x : float)
| JStr (s : string).

(** [ToBoolean]: the falsy values are [undefined], [null], [false],
    [+0], [-0], [NaN] and the empty string. *)
Definition number_truthy (x : float) : bool :=
  negb (PrimFloat.eqb x 0 || PrimFloat.is_nan x).

Definition string_truthy (s : string) : bool :=
  match s with EmptyString => false | String _ _ => true end.

Definition truthy (v : jsval) : bool :=
  match v with
  | JUndefined | JNull => false
  | JBool b => b
  | JNum x => number_truthy x
  | JStr s => string_truthy s
  end.

(** [a === b] on primitives: same type and same value, where numbers
    compare as IEEE values ([NaN] differs from itself, [+0 === -0]). *)
Definition strict_eq (a b : jsval) : bool :=
  match a, b with
  | JUndefined, JUndefined => true
  | JNull, JNull => true
  | JBool x, JBool y => Bool.eqb x y
  | JNum x, JNum y => PrimFloat.eqb x y
  | JStr x, JStr y => String.eqb x y
  | _, _ => false
  end.

(** [a || b] *)
Definition or_else (a b : jsval) : jsval := if truthy a then a else b.

(** Reading a property of an object: an absent key reads [undefined]. *)
Definition get (o : gmap string jsval) (k : string) : jsval :=
  default JUndefined (o !! k).

(** *** Numbers *)

(** The integer a number denotes, when it denotes one.  A finite
    binary64 value is [(-1)^s * m * 2^e]. *)
Definition integer_value (x : float) : option Z :=
  match Prim2SF x with
  | S754_zero _ => Some 0
  | S754_finite s m e =>
    let magnitude :=
      if 0 <=? e then Some (Z.pos m * 2 ^ e)
      else if Z.pos m mod 2 ^ (- e) =? 0 then Some (Z.pos m / 2 ^ (- e))
      else None in
    (fun z => if s then - z else z) <$> magnitude
  | _ => None
  end.

(** [Number.isFinite(x)] *)
Definition finite (x : float) : bool :=
  match Prim2SF x with
  | S754_nan | S754_infinity _ => false
  | _ => true
  end.

(** What the runtime supplies and this development does not spell out:
    the shortest round-trip rendering of a number that is not a safe
    integer (an integer below 2^53 in magnitude, whose rendering is its
    plain decimal notation), and the two string-to-number conversions. *)
Class Host : Type := {
  render_number : float -> string;
  string_to_number : string -> float;
  parseFloat : string -> float
}.

Section WithHost.
Context `{Host}.

(** [Number::toString(x)] *)
Definition number_to_string (x : float) : string :=
  match Prim2SF x with
  | S754_nan => "NaN"
  | S754_infinity false => "Infinity"
  | S754_infinity true => "-Infinity"
  | _ =>
    match integer_value x with
    | Some z => if Z.abs z <? 2 ^ 53 then pretty z else render_number x
    | None => render_number x
    end
  end.

(** [ToNumber] and [ToString] on primitives *)
Definition to_number (v : jsval) : float :=
  match v with
  | JUndefined => nan
  | JNull => 0%float
  | JBool b => if b then 1%float else 0%float
  | JNum x => x
  | JStr s => string_to_number s
  end.

Definition to_string (v : jsval) : string :=
  match v with
  | JUndefined => "undefined"
  | JNull => "null"
  | JBool b => if b then "true" else "false"
  | JNum x => number_to_string x
  | JStr s => s
  end.

(** [a + b]: concatenation as soon as one side is a string. *)
Definition add (a b : jsval) : jsval :=
  match a, b with
  | JStr s, _ => JStr (s ++ to_string b)
  | _, JStr s => JStr (to_string a ++ s)
  | _, _ => JNum (to_number a + to_number b)
  end.

(** [a * b] always produces a number. *)
Definition mul (a b : jsval) : float := (to_number a * to_number b)%float.

(** [a < b]: two strings compare as strings, anything else as
    numbers. *)
Definition less_than (a b : jsval) : bool :=
  match a, b with
  | JStr s, JStr t => String.ltb s t
  | _, _ => PrimFloat.ltb (to_number a) (to_number b)
  end.

(** [a >= b] *)
Definition at_least (a b : jsval) : bool :=
  match a, b with
  | JStr s, JStr t => negb (String.ltb s t)
  | _, _ => PrimFloat.leb (to_number b) (to_number a)
  end.

(** [Number.prototype.toFixed(f)].  [nearest m e f] is the integer [n]
    for which [n / 10^f] is closest to [m * 2^e], the larger one on a
    tie. *)
Definition nearest (m : positive) (e : Z) (f : nat) : Z :=
  if 0 <=? e then Z.pos m * 2 ^ e * 10 ^ Z.of_nat f
  else (2 * Z.pos m * 10 ^ Z.of_nat f + 2 ^ (- e)) / 2 ^ (1 - e).

(** The decimal digits of [n], padded with zeros on the left to [f + 1]
    digits, with the point before the last [f] of them. *)
Definition fixed_digits (n : Z) (f : nat) : string :=
  let m := list_ascii_of_string (pretty n) in
  match f with
  | O => pretty n
  | _ =>
    let m := if (length m <=? f)%nat
             then (replicate (f + 1 - length m) "0"%char ++ m)%list else m in
    let k := length m in
    string_of_list_ascii (take (k - f) m) ++ "."
      ++ string_of_list_ascii (drop (k - f) m)
  end.

Definition toFixed (f : nat) (x : float) : string :=
  match Prim2SF x with
  | S754_nan | S754_infinity _ => number_to_string x
  | S754_zero _ => fixed_digits 0 f
  | S754_finite s m e =>
    let sign := if s then "-" else "" in
    if PrimFloat.leb 1e21 (abs x) then sign ++ number_to_string (abs x)
    else sign ++ fixed_digits (nearest m e f) f
  end.

(** [a - b] and [a / b] always produce numbers. *)
Definition sub (a b : jsval) : float := (to_number a - to_number b)%float.

Definition div (a b : jsval) : float := (to_number a / to_number b)%float.
End WithHost.

(** [s.split(separator)] for a separator of one character: the pieces
    between the occurrences of the separator, of which there is always at
    least one. *)
Fixpoint split (separator : ascii) (s : string) : list string :=
  match s with
  | EmptyString => [EmptyString]
  | String c rest =>
    if Ascii.eqb c separator then EmptyString :: split separator rest
    else
      match split separator rest with
      | piece :: pieces => String c piece :: pieces
      | [] => [String c EmptyString]
      end
  end.

(** [array[i]] for an array of strings: [undefined] out of range. *)
Definition element (pieces : list string) (i : nat) : jsval :=
  from_option JStr JUndefined (pieces !! i).

(** The completion of a call: it returns a value or throws an [Error]
    carrying [message]. *)
Inductive outcome (A : Type) : Type :=
| Returned (a : A)
| Thrown (message : string).
#[global] Arguments Returned {A} a.
#[global] Arguments Thrown {A} message.

Definition bind {A B} (m : outcome A) (k : A -> outcome B) : outcome B :=
  match m with
  | Returned a => k a
  | Thrown e => Thrown e
  end.

Definition try_catch {A} (body : outcome A) (handler : string -> outcome A)
  : outcome A :=
  match body with
  | Returned a => Returned a
  | Thrown e => handler e
  end.

Definition raised {A} (m : outcome A) : bool :=
  match m with Returned _ => false | Thrown _ => true end.

#[global] Instance outcome_ret : MRet outcome := @Returned.
#[global] Instance outcome_bind : MBind outcome := fun A B k m => bind m k.

(** A call that also acts on its collaborators: it is given the log of
    the actions performed so far and hands back the extended log with
    its completion.  Actions are never undone by a later [throw]. *)
Definition eff (E A : Type) : Type := list E -> outcome A * list E.

Definition pure {E A} (a : A) : eff E A := fun log => (Returned a, log).
Definition throw {E A} (message : string) : eff E A :=
  fun log => (Thrown message, log).
Definition await {E A} (m : outcome A) : eff E A := fun log => (m, log).
Definition perform {E} (e : E) : eff E unit :=
  fun log => (Returned tt, (log ++ [e])%list).

Definition andThen {E A B} (m : eff E A) (k : A -> eff E B) : eff E B :=
  fun log =>
    match m log with
    | (Returned a, log') => k a log'
    | (Thrown e, log') => (Thrown e, log')
    end.

Definition catch {E A} (body : eff E A) (handler : string -> eff E A)
  : eff E A :=
  fun log =>
    match body log with
    | (Returned a, log') => (Returned a, log')
    | (Thrown e, log') => handler e log'
    end.

(** Runs a call from the empty log. *)
Definition run {E A} (m : eff E A) : outcome A * list E := m [].

End JS.
Import JS.

Declare Scope eff_scope.
Delimit Scope eff_scope with eff.
Notation "'let*' x ':=' m 'in' k" := (andThen m (fun x => k))
  (at level 10, x name, m at level 100, k at level 200) : eff_scope.
Notation "m ';;' k" := (andThen m (fun _ => k))
  (at level 100, k at level 200, right associativity) : eff_scope.

(* ===================================================================== *)
(** ** src/utils/PaymentVerifier.js *)
(* ===================================================================== *)

Module PaymentVerifier.

(** What [fetchTransactionReceipt] resolves to.  [expiresAt] is [None]
    when the property is absent. *)
Record LedgerReceipt : Type := {
  amount : string;
  asset : string;
  from : string;
  to : string;
  status : string;
  blockNumber : Z;
  expiresAt : option Z;
  service : jsval;
  metadata : option (gmap string jsval);
  jobId : jsval
}.

Record VerifyOptions : Type := {
  txHash : string;
  expectedAmount : string;
  expectedAsset : string;
  timeout : Z
}.

(** The object [verify] resolves to: one constructor per object literal
    of the source, in source order, the last one being the handler of
    the [catch]. *)
Inductive Receipt : Type :=
| NotFound (txHash : string)
| AmountMismatch (expected received : string)
| AssetMismatch (expected received : string)
| NotConfirmed (status : string)
| Expired (expiresAt : option Z)
| Valid (txHash amount asset from to : string) (blockNumber : Z)
        (service : jsval) (metadata : option (gmap string jsval))
        (jobId : jsval)
| Failed (reason txHash : string).

Definition valid (r : Receipt) : bool :=
  match r with Valid _ _ _ _ _ _ _ _ _ => true | _ => false end.

Definition reason (r : Receipt) : option string :=
  match r with
  | NotFound _ => Some "Transaction not found"
  | AmountMismatch _ _ => Some "Amount mismatch"
  | AssetMismatch _ _ => Some "Asset mismatch"
  | NotConfirmed _ => Some "Transaction not confirmed"
  | Expired _ => Some "Payment expired"
  | Valid _ _ _ _ _ _ _ _ _ => None
  | Failed message _ => Some message
  end.

(** [receipt.metadata] and [receipt.jobId]; only the valid receipt has
    these properties. *)
Definition receipt_metadata (r : Receipt) : option (gmap string jsval) :=
  match r with Valid _ _ _ _ _ _ _ m _ => m | _ => None end.

Definition receipt_jobId (r : Receipt) : jsval :=
  match r with Valid _ _ _ _ _ _ _ _ j => j | _ => JUndefined end.

(** [receipt.expiresAt && Date.now() > receipt.expiresAt]: an absent
    [expiresAt] is [undefined] and a zero one is [0], both falsy, so
    that the comparison is made for a non-zero [expiresAt] only. *)
Definition expired (now : Z) (expiresAt : option Z) : bool :=
  match expiresAt with
  | None => false
  | Some t => negb (t =? 0) && (t <? now)
  end.

Section Verify.
(** The ledger lookup behind [fetchTransactionReceipt]: it resolves to
    a receipt, resolves to nothing ([None], a falsy value), or
    rejects. *)
Variable fetchTransactionReceipt : string -> outcome (option LedgerReceipt).
(** [Date.now()] at the expiry check. *)
Variable now : Z.

Definition verify (options : VerifyOptions) : outcome Receipt :=
  try_catch
    (receipt ← fetchTransactionReceipt (txHash options);
     match receipt with
     | None => Returned (NotFound (txHash options))
     | Some receipt =>
       if negb (String.eqb (amount receipt) (expectedAmount options)) then
         Returned (AmountMismatch (expectedAmount options) (amount receipt))
       else if negb (String.eqb (asset receipt) (expectedAsset options)) then
         Returned (AssetMismatch (expectedAsset options) (asset receipt))
       else if negb (String.eqb (status receipt) "confirmed") then
         Returned (NotConfirmed (status receipt))
       else if expired now (expiresAt receipt) then
         Returned (Expired (expiresAt receipt))
       else
         Returned (Valid (txHash options) (amount receipt) (asset receipt)
                         (from receipt) (to receipt) (blockNumber receipt)
                         (service receipt) (metadata receipt)
                         (jobId receipt))
     end)
    (fun message => Returned (Failed message (txHash options))).
End Verify.

(** The placeholder ledger of the source. *)
Definition placeholder_ledger (txHash : string) : outcome (option LedgerReceipt) :=
  Returned (Some {| amount := "0.5"; asset := "USDC"; from := "0x...";
                    to := "0x..."; status := "confirmed";
                    blockNumber := 12345678; expiresAt := None;
                    service := JStr "datafeed"; metadata := Some ∅;
                    jobId := JNull |}).

(** [verifySignature(payment, signature)]: the placeholder of the source
    accepts whatever it is given. *)
Definition verifySignature (payment : gmap string jsval) (signature : jsval)
  : bool := true.

Section TimeWindow.
Context `{Host}.
(** [Date.now()], here a number like the operand it is subtracted
    from. *)
Variable now : float.

(** [isWithinTimeWindow(receipt, windowMs = 300000)]: the default takes
    the place of an [undefined] argument only. *)
Definition isWithinTimeWindow (receipt : gmap string jsval) (windowMs : jsval)
  : bool :=
  let windowMs :=
    match windowMs with JUndefined => JNum 300000 | _ => windowMs end in
  let receiptTime := or_else (get receipt "timestamp") (get receipt "blockTime") in
  less_than (JNum (sub (JNum now) receiptTime)) windowMs.
End TimeWindow.

End PaymentVerifier.


(* ===================================================================== *)
(** ** src/services/PaymentProcessor.js *)
(* ===================================================================== *)

Module PaymentProcessor.

Record JobConfig : Type := {
  amount : string;
  asset : option string
}.

(** A job handle of the registry.  [run] tells how [job.run()] settles
    and after how many milliseconds; [None] when it never settles. *)
Record Job : Type := {
  run : option (Z * outcome jsval)
}.

Record AuditLogEntry : Type := {
  jobId : option jsval;
  txHash : string;
  status : string;
  timestamp : option Z;
  result : option jsval;
  error : option string
}.

Module Result.
(** The object [processPaymentRequest] resolves to. *)
Record t : Type := {
  success : bool;
  jobId : option jsval;
  result : option jsval;
  error : option string
}.
End Result.

(** The calls a processing attempt makes on its collaborators. *)
Inductive event : Type :=
| Verified (options : PaymentVerifier.VerifyOptions)
| JobFetched (jobId : jsval)
| ContextSet (jobId : jsval) (config : JobConfig) (startTime : Z)
| JobRun (jobId : jsval)
| Audited (entry : AuditLogEntry).

Definition audits (log : list event) : list AuditLogEntry :=
  omap (fun e => match e with Audited a => Some a | _ => None end) log.

(** [Promise.race([job.run(), <rejection after 300000 ms>])] *)
Definition race (job : Job) : outcome jsval :=
  match run job with
  | Some (elapsed, completion) =>
    if elapsed <? 300000 then completion else Thrown "Job timeout"
  | None => Thrown "Job timeout"
  end.

Section Processor.
Context `{Host}.
(** [this.verifier.verify], injected through the configuration. *)
Variable verify : PaymentVerifier.VerifyOptions -> outcome PaymentVerifier.Receipt.
(** [this.getJob]: the job registry. *)
Variable getJob : jsval -> outcome (option Job).
(** [this.timeout] *)
Variable timeout : Z.
(** [Date.now()] when the job context is set and when the audit
    entry is built. *)
Variables startTime auditTime : Z.

Definition logAudit (entry : AuditLogEntry) : eff event unit :=
  perform (Audited entry).

Definition executeJob (jobId : jsval) (config : JobConfig) : eff event jsval :=
  (let* job := (perform (JobFetched jobId) ;; await (getJob jobId)) in
   match job with
   | None => throw ("Job " ++ to_string jobId ++ " not found")
   | Some job =>
     perform (ContextSet jobId config startTime) ;;
     let* result := (perform (JobRun jobId) ;; await (race job)) in
     pure result
   end)%eff.

(** The argument of [this.verifier.verify]; [jobConfig.asset || 'USDC']
    falls back on an absent and on an empty asset. *)
Definition verifyOptions (txHash : string) (jobConfig : JobConfig)
  : PaymentVerifier.VerifyOptions :=
  {| PaymentVerifier.txHash := txHash;
     PaymentVerifier.expectedAmount := amount jobConfig;
     PaymentVerifier.expectedAsset :=
       match asset jobConfig with
       | Some a => if string_truthy a then a else "USDC"
       | None => "USDC"
       end;
     PaymentVerifier.timeout := timeout |}.

Definition processPaymentRequest (txHash : string) (jobConfig : JobConfig)
  : eff event Result.t :=
  let options := verifyOptions txHash jobConfig in
  catch
    (let* receipt := (perform (Verified options) ;; await (verify options)) in
     if negb (PaymentVerifier.valid receipt) then
       pure {| Result.success := false; Result.jobId := None;
               Result.result := None;
               Result.error := PaymentVerifier.reason receipt |}
     else
       let jobId :=
         or_else
           (match PaymentVerifier.receipt_metadata receipt with
            | Some metadata => get metadata "jobId"
            | None => JUndefined
            end)
           (PaymentVerifier.receipt_jobId receipt) in
       if negb (truthy jobId) then
         throw "No job ID found in payment metadata"
       else
         let* result := executeJob jobId jobConfig in
         logAudit {| jobId := Some jobId; txHash := txHash;
                     status := "completed"; timestamp := Some auditTime;
                     result := Some result; error := None |} ;;
         pure {| Result.success := true; Result.jobId := Some jobId;
                 Result.result := Some result; Result.error := None |})%eff
    (fun message =>
       (logAudit {| jobId := None; txHash := txHash; status := "failed";
                    timestamp := None; result := None;
                    error := Some message |} ;;
        throw message)%eff).
End Processor.

(** The job registry of the source: a placeholder that rejects. *)
Definition placeholder_registry (jobId : jsval) : outcome (option Job) :=
  Thrown "getJob not implemented".

End PaymentProcessor.

(* ===================================================================== *)
(** ** src/services/AgentMesh.js *)
(* ===================================================================== *)

Module AgentMesh.

Record AgentNode : Type := {
  id : string;
  endpoint : string;
  load : float;
  capabilities : list string;
  available : bool
}.

(** The fields the constructor sets, with its defaults applied:
    [config.nodes || []] and [config.routingStrategy || 'round-robin']. *)
Record Mesh : Type := {
  networkNodes : list AgentNode;
  routingStrategy : string
}.

Record Payment : Type := {
  amount : jsval;
  asset : jsval
}.

Module Split.
(** One element of [splits]: the argument of [executePayment]. *)
Record t : Type := {
  to : jsval;
  amount : string;
  asset : jsval;
  memo : string
}.
End Split.

Module Transfer.
(** [{ success: true, ...payment }] *)
Record t : Type := {
  success : bool;
  payment : Split.t
}.
End Transfer.

Module SplitResult.
Record t : Type := {
  originalAmount : jsval;
  splits : list Transfer.t;
  timestamp : Z
}.
End SplitResult.

Module Routing.
Record t : Type := {
  nodeId : string;
  taskId : jsval;
  result : jsval
}.
End Routing.

(** The calls the mesh makes on the outside world. *)
Inductive event : Type :=
| PaymentExecuted (split : Split.t)
| TaskSent (task : gmap string jsval) (node : AgentNode).

(** [Math.floor(x)] as an array index: [nodes[Math.floor(x)]] reads an
    element for an integer in range and [undefined] for anything else
    (a negative number, [NaN], an infinity). *)
Definition floor_index (x : float) : option nat :=
  match Prim2SF x with
  | S754_zero _ => Some O
  | S754_finite false m e =>
    Some (Z.to_nat (if 0 <=? e then Z.pos m * 2 ^ e else Z.pos m / 2 ^ (- e)))
  | _ => None
  end.

Definition of_nat (n : nat) : float := PrimFloat.of_uint63 (Uint63.of_Z (Z.of_nat n)).

(** [array.reduce(f)] without an initial value, on a non-empty array. *)
Definition reduce {A} (f : A -> A -> A) (first : A) (rest : list A) : A :=
  fold_left f rest first.

(** [(prev, curr) => curr.load < prev.load ? curr : prev] *)
Definition pick (prev curr : AgentNode) : AgentNode :=
  if PrimFloat.ltb (load curr) (load prev) then curr else prev.

Section Mesh.
Context `{Host}.
Variable this : Mesh.
(** The value [Math.random()] returns. *)
Variable random : float.
(** The answer of the node to [fetch(node.endpoint + '/tasks')]. *)
Variable sendTaskToNode : gmap string jsval -> AgentNode -> outcome jsval.
(** [Date.now()] *)
Variable now : Z.

Definition selectNode (task : gmap string jsval) : option AgentNode :=
  match networkNodes this with
  | [] => None
  | first :: rest =>
    if String.eqb (routingStrategy this) "round-robin" then
      i ← floor_index (random * of_nat (length (networkNodes this)));
      networkNodes this !! i
    else if String.eqb (routingStrategy this) "load-based" then
      Some (reduce pick first rest)
    else Some first
  end.

Definition routeTask (task : gmap string jsval) : eff event Routing.t :=
  match selectNode task with
  | None => throw "No available nodes for task routing"
  | Some selectedNode =>
    (let* result := (perform (TaskSent task selectedNode) ;;
                     await (sendTaskToNode task selectedNode)) in
     pure {| Routing.nodeId := id selectedNode;
             Routing.taskId := get task "id";
             Routing.result := result |})%eff
  end.

Definition executePayment (payment : Split.t) : eff event Transfer.t :=
  (perform (PaymentExecuted payment) ;;
   pure {| Transfer.success := true; Transfer.payment := payment |})%eff.

(** [recipients.reduce((sum, r) => sum + r.share, 0)] *)
Definition totalShares (recipients : list (gmap string jsval)) : jsval :=
  fold_left (fun sum r => add sum (get r "share")) recipients (JNum 0).

Definition split_of (payment : Payment) (recipient : gmap string jsval) : Split.t :=
  {| Split.to := get recipient "address";
     Split.amount :=
       toFixed 6 (PrimFloat.div
                    (mul (amount payment) (get recipient "share")) 100);
     Split.asset := asset payment;
     Split.memo := "Payment split: " ++ to_string (get recipient "share") ++ "%" |}.

(** [Promise.all(splits.map(split => this.executePayment(split)))]:
    every call is made, in order, before any is awaited; the join
    rejects with the first rejection, if there is one. *)
Fixpoint all {A B} (f : A -> eff event B) (l : list A) : eff event (list B) :=
  fun log =>
    match l with
    | [] => (Returned [], log)
    | x :: l' =>
      let (y, log1) := f x log in
      let (ys, log2) := all f l' log1 in
      (match y, ys with
       | Returned y, Returned ys => Returned (y :: ys)
       | Thrown e, _ => Thrown e
       | Returned _, Thrown e => Thrown e
       end, log2)
    end.

Definition splitPayment (payment : Payment) (recipients : list (gmap string jsval))
  : eff event SplitResult.t :=
  if negb (strict_eq (totalShares recipients) (JNum 100)) then
    throw "Payment shares must total 100%"
  else
    let splits := map (split_of payment) recipients in
    (let* results := all executePayment splits in
     pure {| SplitResult.originalAmount := amount payment;
             SplitResult.splits := results;
             SplitResult.timestamp := now |})%eff.
End Mesh.

Module Coordination.
(** The object [coordinateTask] resolves to. *)
Record t : Type := {
  taskId : jsval;
  workflow : jsval;
  agents : list Routing.t;
  completed : bool
}.
End Coordination.

Section Coordinate.
Context `{Host}.
Variable this : Mesh.
(** The value [Math.random()] returns in the routing of the subtask of a
    given index. *)
Variable random : nat -> float.
Variable sendTaskToNode : gmap string jsval -> AgentNode -> outcome jsval.

(** [{ ...task, agentId: agent.id, step: index + 1, budget: agentBudget }].
    The map holds the properties of the task whose value is a primitive;
    its [agents] array is kept beside it. *)
Definition subtask (task : gmap string jsval) (agentBudget : float)
    (index : nat) (agent : gmap string jsval) : gmap string jsval :=
  <["budget" := JNum agentBudget]>
    (<["step" := JNum (of_nat index + 1)]>
       (<["agentId" := get agent "id"]> task)).

(** [budget / agents.length] *)
Definition agentBudget (task : gmap string jsval)
    (agents : list (gmap string jsval)) : float :=
  div (get task "budget") (JNum (of_nat (length agents))).

Definition coordinateTask (task : gmap string jsval)
    (agents : list (gmap string jsval)) : eff event Coordination.t :=
  (let* coordinationResults :=
     all (fun '(index, agent) =>
            routeTask this (random index) sendTaskToNode
                      (subtask task (agentBudget task agents) index agent))
         (imap pair agents) in
   pure {| Coordination.taskId := get task "id";
           Coordination.workflow := get task "workflow";
           Coordination.agents := coordinationResults;
           Coordination.completed := true |})%eff.
End Coordinate.

End AgentMesh.

(* ===================================================================== *)
(** ** TaskOrchestrator *)
(* ===================================================================== *)

Module TaskOrchestrator.

Module RenderConfig.
Record t : Type := {
  chartType : jsval;
  data : jsval;
  format : jsval
}.
End RenderConfig.

(** The argument of [wallet.pay] in [requestRenderService]. *)
Record PaymentRequest : Type := {
  to : string;
  amount : string;
  asset : string;
  memo : string;
  jobId : string;
  service : string;
  format : jsval;
  quality : string
}.

(** What [wallet.pay] resolves to: the transaction with its [hash], its
    [metadata] and the [wait] operation. *)
Record PaymentTx : Type := {
  hash : jsval;
  metadata : gmap string jsval;
  wait : float -> outcome (gmap string jsval)
}.

Module Notification.
(** The payload of [notifyRenderAgent]. *)
Record t : Type := {
  txHash : jsval;
  jobId : jsval;
  data : jsval;
  chartType : jsval;
  format : jsval
}.
End Notification.

Record Response : Type := {
  ok : bool;
  statusText : string;
  json : outcome jsval
}.

Module Result.
Record t : Type := {
  success : bool;
  txHash : jsval;
  jobId : jsval
}.
End Result.

Inductive event : Type :=
| Paid (request : PaymentRequest)
| Waited (confirmations : float)
| Notified (payload : Notification.t).

Definition notifications (log : list event) : list Notification.t :=
  omap (fun e => match e with Notified p => Some p | _ => None end) log.

Section Orchestrator.
Context `{Host}.
(** [this.wallet.pay], injected through the configuration. *)
Variable pay : PaymentRequest -> outcome PaymentTx.
(** [config.confirmations || 2] *)
Variable defaultConfirmations : float.
(** [crypto.randomUUID()] *)
Variable randomUUID : string.
(** [fetch('https://forge.network/render/notify', ...)] *)
Variable fetch : Notification.t -> outcome Response.

Definition notifyRenderAgent (payload : Notification.t) : eff event jsval :=
  (let* response := (perform (Notified payload) ;; await (fetch payload)) in
   if negb (ok response) then
     throw ("Agent notification failed: " ++ statusText response)
   else await (json response))%eff.

(** The payload [requestRenderService] notifies the render agent with. *)
Definition notification (paymentTx : PaymentTx) (config : RenderConfig.t)
  : Notification.t :=
  {| Notification.txHash := hash paymentTx;
     Notification.jobId := get (metadata paymentTx) "jobId";
     Notification.data := RenderConfig.data config;
     Notification.chartType := RenderConfig.chartType config;
     Notification.format := RenderConfig.format config |}.

(** The payment [requestRenderService] asks the wallet to make. *)
Definition renderPayment (config : RenderConfig.t) : PaymentRequest :=
  {| to := "forge.network/render"; amount := "3.5"; asset := "USDC";
     memo := "Render " ++ to_string (RenderConfig.chartType config)
             ++ " chart for analytics v3";
     jobId := randomUUID; service := "render";
     format := RenderConfig.format config; quality := "high" |}.

Definition requestRenderService (config : RenderConfig.t) : eff event Result.t :=
  let request := renderPayment config in
  catch
    (let* paymentTx := (perform (Paid request) ;; await (pay request)) in
     let* receipt := (perform (Waited defaultConfirmations) ;;
                      await (wait paymentTx defaultConfirmations)) in
     if strict_eq (get receipt "status") (JStr "confirmed") then
       notifyRenderAgent (notification paymentTx config) ;;
       pure {| Result.success := true;
               Result.txHash := hash paymentTx;
               Result.jobId := get (metadata paymentTx) "jobId" |}
     else throw "Payment confirmation failed")%eff
    (fun message => throw message).
End Orchestrator.

End TaskOrchestrator.

(* ===================================================================== *)
(** ** src/sdk/x402Client.js: AgentWallet *)
(* ===================================================================== *)

Module AgentWallet.

Record WaitOptions : Type := {
  confirmations : option float;
  timeout : option Z
}.

(** [{ status: 'confirmed', ...receipt }]: the own properties of
    [receipt] are copied over the object literal, so that a [status] of
    the receipt replaces the literal's. *)
Definition spread_over_confirmed (receipt : gmap string jsval) : gmap string jsval :=
  receipt ∪ {[ "status" := JStr "confirmed" ]}.

Section Wallet.
Context `{Host}.
(** [this.getTransactionReceipt(txHash)] asked at a given time: the
    ledger's receipt, nothing yet ([None]), or a rejection. *)
Variable getTransactionReceipt : string -> Z -> outcome (option (gmap string jsval)).
(** The time one round of the loop takes beyond the 2000 ms of its
    timer: the ledger round trip and the lateness of the timer. *)
Variable lag : Z -> N.

(** One test of [while (Date.now() - startTime < maxWait)] and the
    body it guards, at time [now]. *)
Equations? poll (txHash : string) (confirmations : float) (maxWait startTime now : Z)
  : outcome (gmap string jsval) by wf (Z.to_nat (startTime + maxWait - now)) lt :=
poll txHash confirmations maxWait startTime now with Z_lt_dec (now - startTime) maxWait := {
  | right _ => Thrown "Transaction confirmation timeout"
  | left _ with getTransactionReceipt txHash now := {
    | Thrown message => Thrown message
    | Returned (Some receipt) with at_least (get receipt "confirmations") (JNum confirmations) := {
      | true => Returned (spread_over_confirmed receipt)
      | false => poll txHash confirmations maxWait startTime (now + 2000 + Z.of_N (lag now)) }
    | Returned None => poll txHash confirmations maxWait startTime (now + 2000 + Z.of_N (lag now)) } }.
Proof. all: lia. Qed.

(** [Date.now()] when the wait starts. *)
Variable startTime : Z.

(** [options.confirmations || 1] and [options.timeout || 120000] *)
Definition requiredConfirmations (options : WaitOptions) : float :=
  match confirmations options with
  | Some c => if number_truthy c then c else 1%float
  | None => 1%float
  end.

Definition maxWait (options : WaitOptions) : Z :=
  match timeout options with
  | Some t => if t =? 0 then 120000 else t
  | None => 120000
  end.

Definition waitForConfirmation (txHash : string) (options : WaitOptions)
  : outcome (gmap string jsval) :=
  poll txHash (requiredConfirmations options) (maxWait options)
       startTime startTime.
End Wallet.

End AgentWallet.

(* ===================================================================== *)
(** ** ProofEngine *)
(* ===================================================================== *)

Module ProofEngine.

(** Values that are serialized or read back from a proof: primitives,
    arrays, and objects with their members in enumeration order. *)
#[warnings="-register-all"]
Inductive value : Type :=
| Prim (v : jsval)
| Arr (elements : list value)
| Obj (members : list (string * value)).

(** [object.key] *)
Fixpoint member (key : string) (members : list (string * value)) : value :=
  match members with
  | [] => Prim JUndefined
  | (k, v) :: rest => if String.eqb k key then v else member key rest
  end.

(** [object.key = v] on an existing member *)
Fixpoint assign (key : string) (v : value) (members : list (string * value))
  : list (string * value) :=
  match members with
  | [] => [(key, v)]
  | (k, w) :: rest =>
    if String.eqb k key then (k, v) :: rest else (k, w) :: assign key v rest
  end.

Definition value_truthy (v : value) : bool :=
  match v with Prim p => truthy p | _ => true end.

Fixpoint join (separator : string) (parts : list string) : string :=
  match parts with
  | [] => ""
  | [part] => part
  | part :: rest => part ++ separator ++ join separator rest
  end.

(** *** JSON.stringify *)

Definition double_quote : ascii := "034"%char.

Definition hex_digit (n : N) : ascii :=
  match n with
  | 0%N => "0" | 1%N => "1" | 2%N => "2" | 3%N => "3" | 4%N => "4"
  | 5%N => "5" | 6%N => "6" | 7%N => "7" | 8%N => "8" | 9%N => "9"
  | 10%N => "a" | 11%N => "b" | 12%N => "c" | 13%N => "d" | 14%N => "e"
  | _ => "f"
  end%char.

(** [QuoteJSONString] on one character.  Bytes from 0x80 on belong to the
    UTF-8 encoding of a character outside ASCII and are kept. *)
Definition escape (c : ascii) : string :=
  match N_of_ascii c with
  | 8%N => "\b"
  | 9%N => "\t"
  | 10%N => "\n"
  | 12%N => "\f"
  | 13%N => "\r"
  | 34%N => String "\" (String double_quote "")
  | 92%N => "\\"
  | n =>
    if (n <? 32)%N then
      "\u00" ++ String (hex_digit (n / 16)) (String (hex_digit (n mod 16)) "")
    else String c ""
  end.

Fixpoint escape_all (s : string) : string :=
  match s with
  | EmptyString => ""
  | String c rest => escape c ++ escape_all rest
  end.

Definition quote (s : string) : string :=
  String double_quote (escape_all s ++ String double_quote "").

Section Serialize.
Context `{Host}.

(** The serialization of a primitive; [None] where [JSON.stringify]
    yields [undefined]. *)
Definition stringify_prim (v : jsval) : option string :=
  match v with
  | JUndefined => None
  | JNull => Some "null"
  | JBool b => Some (if b then "true" else "false")
  | JNum x => Some (if finite x then number_to_string x else "null")
  | JStr s => Some (quote s)
  end.

(** An [undefined] element of an array is written [null]; a member of an
    object whose value is [undefined] is left out. *)
Fixpoint stringify (v : value) : option string :=
  match v with
  | Prim p => stringify_prim p
  | Arr elements =>
    Some ("[" ++ join ","
            ((fix each (l : list value) : list string :=
                match l with
                | [] => []
                | e :: l' => default "null" (stringify e) :: each l'
                end) elements) ++ "]")
  | Obj members =>
    Some ("{" ++ join ","
            ((fix each (l : list (string * value)) : list string :=
                match l with
                | [] => []
                | (k, v) :: l' =>
                  match stringify v with
                  | Some s => (quote k ++ ":" ++ s) :: each l'
                  | None => each l'
                  end
                end) members) ++ "}")
  end.

(** The members an object contributes to its serialization. *)
Fixpoint stringify_members (members : list (string * value)) : list string :=
  match members with
  | [] => []
  | (k, v) :: rest =>
    match stringify v with
    | Some s => (quote k ++ ":" ++ s) :: stringify_members rest
    | None => stringify_members rest
    end
  end.

(** [JSON.stringify(data)] for an object [data]: always a string. *)
Definition stringify_object (members : list (string * value)) : string :=
  default "" (stringify (Obj members)).

(** [String(v)] and the primitive a value compares as. *)
Fixpoint value_to_string (v : value) : string :=
  match v with
  | Prim p => to_string p
  | Arr elements =>
    join "," (map (fun e => match e with
                            | Prim JUndefined | Prim JNull => ""
                            | _ => value_to_string e
                            end) elements)
  | Obj _ => "[object Object]"
  end.

Definition to_primitive (v : value) : jsval :=
  match v with
  | Prim p => p
  | _ => JStr (value_to_string v)
  end.

End Serialize.

(** *** The engine *)

Record Transaction : Type := {
  hash : value;
  timestamp : value;
  amount : value;
  asset : value;
  from : value;
  to : value;
  metadata : value;
  signer : value
}.

Module Proof.
Record t : Type := {
  hash : string;
  signature : option string;
  algorithm : string;
  timestamp : Z;
  data : list (string * value)
}.
End Proof.

Module TimeRange.
Record t : Type := {
  start : value;
  end_ : value
}.
End TimeRange.

Module Summary.
Record t : Type := {
  totalTransactions : nat;
  totalAmount : float;
  assets : gmap string float;
  services : gmap string float;
  timeRange : TimeRange.t
}.
End Summary.

(** The fields the constructor sets: [config.algorithm || 'sha256'] and
    whether a [proofStorage] is configured. *)
Record Engine : Type := {
  algorithm : string;
  proofStorage : option (Proof.t -> outcome unit)
}.

Inductive event : Type :=
| Stored (proof : Proof.t).

Section Engine.
Context `{Host}.
Variable this : Engine.
(** The lowercase hexadecimal rendering of the SHA-256 digest of the
    UTF-8 bytes of a string:
    [crypto.subtle.digest('SHA-256', encoder.encode(s))]. *)
Variable sha256 : string -> string.
(** [Date.now()] *)
Variable now : Z.

Definition hashProof (data : list (string * value)) : outcome string :=
  let jsonString := stringify_object data in
  if String.eqb (algorithm this) "sha256" then Returned (sha256 jsonString)
  else Thrown ("Unsupported algorithm: " ++ algorithm this).

Definition signProof (data : list (string * value)) (signer : value)
  : outcome string :=
  hash ← hashProof data;
  Returned ("sig_" ++ substring 0 16 hash).

Definition verifySignature (data : list (string * value)) (signature : string)
  : outcome bool :=
  Returned true.

(** The snapshot [generateProof] takes of a transaction. *)
Definition snapshot (transaction : Transaction) : list (string * value) :=
  [("txHash", hash transaction);
   ("timestamp", timestamp transaction);
   ("amount", amount transaction);
   ("asset", asset transaction);
   ("from", from transaction);
   ("to", to transaction);
   ("metadata", metadata transaction)].

Definition generateProof (transaction : Transaction) : eff event Proof.t :=
  let proofData := snapshot transaction in
  (let* hash := await (hashProof proofData) in
   let* signature :=
     (if value_truthy (signer transaction)
      then let* s := await (signProof proofData (signer transaction)) in pure (Some s)
      else pure None) in
   let proof :=
     {| Proof.hash := hash; Proof.signature := signature;
        Proof.algorithm := algorithm this; Proof.timestamp := now;
        Proof.data := proofData |} in
   match proofStorage this with
   | Some store => perform (Stored proof) ;; await (store proof)
   | None => pure tt
   end ;;
   pure proof)%eff.

Definition verifyProof (proof : Proof.t) : outcome bool :=
  computedHash ← hashProof (Proof.data proof);
  if negb (String.eqb computedHash (Proof.hash proof)) then Returned false
  else
    match Proof.signature proof with
    | Some signature =>
      if string_truthy signature then
        signatureValid ← verifySignature (Proof.data proof) signature;
        if negb signatureValid then Returned false else Returned true
      else Returned true
    | None => Returned true
    end.

(** [(table[key] || 0) + x] stored back under [key] *)
Definition accumulate (table : gmap string float) (key : string) (x : float)
  : gmap string float :=
  let current :=
    match table !! key with
    | Some y => if number_truthy y then y else 0%float
    | None => 0%float
    end in
  <[key := (current + x)%float]> table.

(** The body of the [forEach] in [generateAuditSummary]. *)
Definition record_proof (summary : Summary.t) (proof : Proof.t) : Summary.t :=
  let amount := member "amount" (Proof.data proof) in
  let asset := member "asset" (Proof.data proof) in
  let service := member "service" (Proof.data proof) in
  let timestamp := member "timestamp" (Proof.data proof) in
  let parsed := parseFloat (value_to_string amount) in
  let range := Summary.timeRange summary in
  let start :=
    if less_than (to_primitive timestamp) (to_primitive (TimeRange.start range))
    then timestamp else TimeRange.start range in
  let end_ :=
    if less_than (to_primitive (TimeRange.end_ range)) (to_primitive timestamp)
    then timestamp else TimeRange.end_ range in
  {| Summary.totalTransactions := Summary.totalTransactions summary;
     Summary.totalAmount := (Summary.totalAmount summary + parsed)%float;
     Summary.assets :=
       accumulate (Summary.assets summary) (value_to_string asset) parsed;
     Summary.services :=
       if value_truthy service
       then accumulate (Summary.services summary) (value_to_string service) 1%float
       else Summary.services summary;
     Summary.timeRange := {| TimeRange.start := start; TimeRange.end_ := end_ |} |}.

Definition generateAuditSummary (proofs : list Proof.t) : Summary.t :=
  fold_left record_proof proofs
    {| Summary.totalTransactions := length proofs;
       Summary.totalAmount := 0%float;
       Summary.assets := ∅;
       Summary.services := ∅;
       Summary.timeRange :=
         {| TimeRange.start := Prim (JNum infinity);
            TimeRange.end_ := Prim (JNum 0%float) |} |}.

End Engine.

End ProofEngine.


(* ===================================================================== *)
(** ** TaskOrchestrator.requestDataProcessing *)
(* ===================================================================== *)

Module DataProcessing.

Module Config.
Record t : Type := {
  dataSource : jsval;
  operation : jsval;
  outputFormat : jsval
}.
End Config.

(** The argument of [wallet.pay] in [requestDataProcessing]. *)
Record PaymentRequest : Type := {
  to : string;
  amount : string;
  asset : string;
  memo : string;
  jobId : string;
  service : string;
  operation : jsval;
  outputFormat : jsval
}.

Inductive event : Type :=
| Paid (request : PaymentRequest)
| Waited (confirmations : float).

Section Orchestrator.
Context `{Host}.
(** [this.wallet.pay], injected through the configuration. *)
Variable pay : PaymentRequest -> outcome TaskOrchestrator.PaymentTx.
(** [config.confirmations || 2] *)
Variable defaultConfirmations : float.
(** [crypto.randomUUID()] *)
Variable randomUUID : string.

(** The payment [requestDataProcessing] asks the wallet to make. *)
Definition processingPayment (config : Config.t) : PaymentRequest :=
  {| to := "forge.network/process"; amount := "2.0"; asset := "USDC";
     memo := "Process " ++ to_string (Config.operation config)
             ++ " on " ++ to_string (Config.dataSource config);
     jobId := randomUUID; service := "process";
     operation := Config.operation config;
     outputFormat := Config.outputFormat config |}.

Definition requestDataProcessing (config : Config.t)
  : eff event TaskOrchestrator.Result.t :=
  let request := processingPayment config in
  (let* paymentTx := (perform (Paid request) ;; await (pay request)) in
   let* receipt := (perform (Waited defaultConfirmations) ;;
                    await (TaskOrchestrator.wait paymentTx defaultConfirmations)) in
   if strict_eq (get receipt "status") (JStr "confirmed") then
     pure {| TaskOrchestrator.Result.success := true;
             TaskOrchestrator.Result.txHash := TaskOrchestrator.hash paymentTx;
             TaskOrchestrator.Result.jobId :=
               get (TaskOrchestrator.metadata paymentTx) "jobId" |}
   else throw "Processing payment failed")%eff.
End Orchestrator.

End DataProcessing.

(* ===================================================================== *)
(** ** src/sdk/x402Client.js: AgentWallet.pay and its helpers *)
(* ===================================================================== *)

Module WalletPayments.
Import ProofEngine.

(** [deriveAddress(privateKey)]: the placeholder of the source. *)
Definition deriveAddress (privateKey : string) : string :=
  "0x" ++ substring 0 40 privateKey.

(** [s.replace(/-/g, '')] *)
Fixpoint strip_dashes (s : string) : string :=
  match s with
  | EmptyString => EmptyString
  | String c rest =>
    if Ascii.eqb c "-" then strip_dashes rest else String c (strip_dashes rest)
  end.

(** [getTransactionReceipt(txHash)]: the placeholder of the source
    reports one confirmation, whenever it is asked. *)
Definition placeholder_ledger (txHash : string) (now : Z)
  : outcome (option (gmap string jsval)) :=
  Returned (Some {[ "hash" := JStr txHash; "confirmations" := JNum 1;
                    "blockNumber" := JNum 12345678;
                    "status" := JStr "confirmed" ]}).

(** The argument of [pay]. *)
Record Payment : Type := {
  to : value;
  amount : value;
  asset : value;
  memo : value;
  metadata : value
}.

(** What [pay] resolves to: [{ hash: txHash, ...transaction, wait }].
    [wait] is given the time at which it is called. *)
Record PaymentTx : Type := {
  hash : string;
  transaction : list (string * value);
  wait : Z -> AgentWallet.WaitOptions -> outcome (gmap string jsval)
}.

Section Wallet.
Context `{Host}.
(** [config.privateKey] *)
Variable privateKey : string.
Variable getTransactionReceipt : string -> Z -> outcome (option (gmap string jsval)).
Variable lag : Z -> N.

(** [this.address], set by the constructor. *)
Definition address : string := deriveAddress privateKey.

(** The transaction [pay] builds, [timestamp] being [Date.now()]. *)
Definition build (payment : Payment) (timestamp : float) : list (string * value) :=
  [("from", Prim (JStr address));
   ("to", to payment);
   ("amount", amount payment);
   ("asset", if value_truthy (asset payment) then asset payment
             else Prim (JStr "USDC"));
   ("memo", if value_truthy (memo payment) then memo payment
            else Prim (JStr ""));
   ("metadata", if value_truthy (metadata payment) then metadata payment
                else Obj []);
   ("timestamp", Prim (JNum timestamp))].

Definition signTransaction (transaction : list (string * value)) : string :=
  stringify_object transaction ++ "_signed".

(** [randomUUID] is what [crypto.randomUUID()] returns. *)
Definition broadcastTransaction (signedTx randomUUID : string) : string :=
  "0x" ++ strip_dashes randomUUID.

Definition pay (payment : Payment) (timestamp : float) (randomUUID : string)
  : outcome PaymentTx :=
  let transaction := build payment timestamp in
  let signedTx := signTransaction transaction in
  let txHash := broadcastTransaction signedTx randomUUID in
  Returned
    {| hash := txHash;
       transaction := transaction;
       wait := fun startTime options =>
                 AgentWallet.waitForConfirmation getTransactionReceipt lag
                   startTime txHash options |}.

(** [getBalance(asset = 'USDC')]: the placeholder of the source. *)
Definition getBalance (asset : jsval) : string := "0".
End Wallet.

(** *** A TaskOrchestrator whose wallet is an AgentWallet *)

(** The members of an object whose value is a primitive; like [member],
    the first member of a key is the one that counts. *)
Fixpoint primitive_members (members : list (string * value)) : gmap string jsval :=
  match members with
  | [] => ∅
  | (key, Prim p) :: rest => <[key := p]> (primitive_members rest)
  | (key, _) :: rest => delete key (primitive_members rest)
  end.

Section Orchestrated.
Context `{Host}.
Variable privateKey : string.
Variable getTransactionReceipt : string -> Z -> outcome (option (gmap string jsval)).
Variable lag : Z -> N.
(** [Date.now()] in [pay] and at the start of the wait, and the
    identifier [broadcastTransaction] draws. *)
Variable payTime : float.
Variable waitTime : Z.
Variable broadcastUUID : string.

(** The payment object [requestRenderService] hands to [pay]. *)
Definition payment_of (request : TaskOrchestrator.PaymentRequest) : Payment :=
  {| to := Prim (JStr (TaskOrchestrator.to request));
     amount := Prim (JStr (TaskOrchestrator.amount request));
     asset := Prim (JStr (TaskOrchestrator.asset request));
     memo := Prim (JStr (TaskOrchestrator.memo request));
     metadata :=
       Obj [("jobId", Prim (JStr (TaskOrchestrator.jobId request)));
            ("service", Prim (JStr (TaskOrchestrator.service request)));
            ("params",
             Obj [("format", Prim (TaskOrchestrator.format request));
                  ("quality", Prim (JStr (TaskOrchestrator.quality request)))])] |}.

(** [this.wallet.pay] as [requestRenderService] uses it: it reads
    [paymentTx.hash] and [paymentTx.metadata.jobId] and calls
    [paymentTx.wait({ confirmations })]. *)
Definition wallet_pay (request : TaskOrchestrator.PaymentRequest)
  : outcome TaskOrchestrator.PaymentTx :=
  paymentTx ← pay privateKey getTransactionReceipt lag (payment_of request)
                  payTime broadcastUUID;
  Returned
    {| TaskOrchestrator.hash := JStr (hash paymentTx);
       TaskOrchestrator.metadata :=
         match member "metadata" (transaction paymentTx) with
         | Obj members => primitive_members members
         | _ => ∅
         end;
       TaskOrchestrator.wait := fun confirmations =>
         wait paymentTx waitTime
              {| AgentWallet.confirmations := Some confirmations;
                 AgentWallet.timeout := None |} |}.
End Orchestrated.

End WalletPayments.

(* ===================================================================== *)
(** ** src/sdk/x402Client.js: x402Client *)
(* ===================================================================== *)

Module x402Client.

(** The fields the constructor sets; [wallet] is [None] when none is
    configured, [defaultTimeout] is [config.timeout || 30000]. *)
Record Client : Type := {
  baseURL : string;
  wallet : option (gmap string jsval);
  defaultTimeout : Z
}.

(** The options of [fetch]: [payment], [deadline] and, of the rest, what
    the code or the network reads. *)
Record Options : Type := {
  payment : jsval;
  deadline : jsval;
  headers : option (gmap string jsval);
  method : jsval;
  body : jsval
}.

(** What the global [fetch] is called with. *)
Module Request.
Record t : Type := {
  url : string;
  method : jsval;
  body : jsval;
  headers : gmap string jsval
}.
End Request.

Record Response : Type := {
  ok : bool;
  statusText : string;
  json : outcome (gmap string jsval)
}.

(** The job object [getJob] resolves to; [run] is what [job.run()]
    settles to.  Its [setContext] stores the context in the body the job
    was built from, which nothing reads afterwards. *)
Record Job : Type := {
  id : jsval;
  type : jsval;
  config : jsval;
  status : jsval;
  run : outcome (gmap string jsval)
}.

Section Client.
Context `{Host}.
Variable this : Client.
(** The network: how the global [fetch] settles on a request and after
    how many milliseconds, or [None] when it never does.  Its own
    rejections are not aborts. *)
Variable network : Request.t -> option (Z * outcome Response).
(** [Date.now()] where the default deadline is set and in
    [getAuthToken]. *)
Variables now tokenTime : Z.

Definition getAuthToken : string := "auth_token_" ++ pretty tokenTime.

(** The [headers] object [fetch] builds. *)
Definition build_headers (options : Options) : gmap string jsval :=
  let headers :=
    <["Content-Type" := JStr "application/json"]> (default ∅ (headers options)) in
  let headers :=
    if truthy (payment options) then
      <["X-402-Deadline" :=
          JStr (if truthy (deadline options) then to_string (deadline options)
                else pretty (now + 30000))]>
        (<["X-402-Payment" := payment options]> headers)
    else headers in
  match wallet this with
  | Some wallet =>
    if truthy (get wallet "address")
    then <["Authorization" := JStr ("Bearer " ++ getAuthToken)]> headers
    else headers
  | None => headers
  end.

Definition request_of (url : string) (options : Options) : Request.t :=
  {| Request.url := url;
     Request.method := method options;
     Request.body := body options;
     Request.headers := build_headers options |}.

(** The timer aborts the request after [defaultTimeout] ms; an abort is
    rethrown as ['Request timeout'], any other rejection as it is. *)
Definition fetch (url : string) (options : Options) : outcome Response :=
  match network (request_of url options) with
  | Some (elapsed, completion) =>
    if elapsed <? defaultTimeout this then completion
    else Thrown "Request timeout"
  | None => Thrown "Request timeout"
  end.

(** [{ method }] and [{ method, body }] *)
Definition plain (method : string) (body : jsval) : Options :=
  {| payment := JUndefined; deadline := JUndefined; headers := None;
     method := JStr method; body := body |}.

Definition getJob (jobId : jsval) : outcome Job :=
  response ← fetch (baseURL this ++ "/jobs/" ++ to_string jobId)
                   (plain "GET" JUndefined);
  if negb (ok response) then
    Thrown ("Failed to get job: " ++ statusText response)
  else
    jobData ← json response;
    Returned
      {| id := get jobData "id";
         type := get jobData "type";
         config := get jobData "config";
         status := get jobData "status";
         run :=
           runResponse ← fetch (baseURL this ++ "/jobs/" ++ to_string jobId ++ "/run")
                               (plain "POST" JUndefined);
           json runResponse |}.

(** [logAudit(entry)], [entry] being given by its serialization
    [JSON.stringify(entry)]. *)
Definition logAudit (entry : string) : outcome (gmap string jsval) :=
  response ← fetch (baseURL this ++ "/audit") (plain "POST" (JStr entry));
  json response.
End Client.

End x402Client.

(* ===================================================================== *)
(** ** BridgeLayer *)
(* ===================================================================== *)

Module BridgeLayer.

(** The object [verifyRequest] resolves to: one constructor per object
    it returns, in source order.  [Refused] is the verification of the
    chain, returned as it is. *)
Inductive Result : Type :=
| MissingHeader
| Refused (verification : gmap string jsval)
| MultiSigFailed
| Accepted (payment verification : gmap string jsval).

Definition valid (r : Result) : jsval :=
  match r with
  | MissingHeader | MultiSigFailed => JBool false
  | Refused verification => get verification "valid"
  | Accepted _ _ => JBool true
  end.

Definition reason (r : Result) : jsval :=
  match r with
  | MissingHeader => JStr "Missing X-402-Payment header"
  | MultiSigFailed => JStr "Multi-sig verification failed"
  | Refused verification => get verification "reason"
  | Accepted _ _ => JUndefined
  end.

Module Settlement.
(** The object [automateSettlement] resolves to. *)
Record t : Type := {
  success : bool;
  txHash : jsval;
  receipt : gmap string jsval;
  latency : float
}.
End Settlement.

(** The calls the bridge makes on the chain and on its gas optimizer. *)
Inductive event : Type :=
| OnChainVerified (payment : gmap string jsval)
| MultiSigVerified (payment : gmap string jsval)
| GasEstimated (payment : gmap string jsval)
| SettlementExecuted (settlement : gmap string jsval)
| SettlementAwaited (txHash : jsval).

Section Bridge.
Context `{Host}.
(** [Date.now()] when the header is parsed. *)
Variable now : float.

Definition parsePaymentHeader (header : string) : gmap string jsval :=
  let pieces := split " " header in
  let amount := element pieces 0 in
  let asset := element pieces 1 in
  {[ "amount" := JNum (parseFloat (to_string amount));
     "asset" := or_else asset (JStr "USDC");
     "timestamp" := JNum now ]}.

(** [verifyOnChain(payment)]: it resolves to a verification, of which
    the primitive-valued properties are kept, and leaves the payment as
    it is.  The one of the source accepts every payment. *)
Variable verifyOnChain : gmap string jsval -> outcome (gmap string jsval).
Variable verifyMultiSig : gmap string jsval -> outcome bool.

(** The headers of the request.  A header that is not a string has no
    [split]. *)
Definition verifyRequest (headers : gmap string jsval) : eff event Result :=
  let paymentHeader := get headers "X-402-Payment" in
  if negb (truthy paymentHeader) then pure MissingHeader
  else
    match paymentHeader with
    | JStr header =>
      let payment := parsePaymentHeader header in
      (let* verification := (perform (OnChainVerified payment) ;;
                             await (verifyOnChain payment)) in
       if negb (truthy (get verification "valid")) then
         pure (Refused verification)
       else if truthy (get payment "requiresMultiSig") then
         let* multiSigValid := (perform (MultiSigVerified payment) ;;
                                await (verifyMultiSig payment)) in
         if negb multiSigValid then pure MultiSigFailed
         else pure (Accepted payment verification)
       else pure (Accepted payment verification))%eff
    | _ => throw "header.split is not a function"
    end.

(** [this.gasOptimizer.estimate], [None] when no optimizer is
    configured. *)
Variable gasOptimizer : option (gmap string jsval -> outcome jsval).
(** [Date.now()] in [executeSettlement] and in [waitForSettlement]. *)
Variables executionTime confirmationTime : float.

(** The placeholders of the source. *)
Definition executeSettlement (settlement : gmap string jsval)
  : eff event (gmap string jsval) :=
  (perform (SettlementExecuted settlement) ;;
   pure {[ "hash" := JStr "0x..."; "timestamp" := JNum executionTime ]})%eff.

Definition waitForSettlement (txHash : jsval) : eff event (gmap string jsval) :=
  (perform (SettlementAwaited txHash) ;;
   pure {[ "hash" := txHash; "confirmed" := JBool true;
           "timestamp" := JNum confirmationTime ]})%eff.

Definition automateSettlement (payment : gmap string jsval)
  : eff event Settlement.t :=
  catch
    (let* gasEstimate :=
       match gasOptimizer with
       | Some estimate => perform (GasEstimated payment) ;; await (estimate payment)
       | None => throw "Cannot read properties of undefined (reading 'estimate')"
       end in
     let* settlementTx :=
       executeSettlement (<["gasEstimate" := gasEstimate]> payment) in
     let* receipt := waitForSettlement (get settlementTx "hash") in
     pure {| Settlement.success := true;
             Settlement.txHash := get settlementTx "hash";
             Settlement.receipt := receipt;
             Settlement.latency :=
               sub (get receipt "timestamp") (get payment "timestamp") |})%eff
    (fun message => throw message).
End Bridge.

(** The chain and the multi-signature check of the source: placeholders
    that accept. *)
Definition placeholder_chain (payment : gmap string jsval)
  : outcome (gmap string jsval) :=
  Returned {[ "valid" := JBool true ]}.

Definition placeholder_multisig (payment : gmap string jsval) : outcome bool :=
  Returned true.

End BridgeLayer.
(* ===================================================================== *)
(** * The vocabulary of the properties, and the inputs of the examples *)
(* ===================================================================== *)

(** A runtime whose unspecified conversions are constant: the concrete
    runs below never reach them. *)
Definition plain_host : Host :=
  {| render_number := fun _ => "";
     string_to_number := fun _ => nan;
     parseFloat := fun _ => nan |}.

Module NumberSpec.

Definition is_digit (c : ascii) : bool :=
  ((48 <=? N_of_ascii c) && (N_of_ascii c <=? 57))%N.

(** A decimal rendering with exactly [f] digits after the point. *)
Definition fixed_point (f : nat) (s : string) : Prop :=
  exists (negative : bool) (whole fraction : list ascii),
    s = (if negative then "-" else "") ++ string_of_list_ascii whole ++ "."
        ++ string_of_list_ascii fraction
    /\ whole <> []
    /\ Forall (fun c => is_digit c = true) whole
    /\ Forall (fun c => is_digit c = true) fraction
    /\ length fraction = f.

End NumberSpec.

Module PaymentVerifierSpec.
Import PaymentVerifier.

(** The terms a ledger receipt has to meet, as the specification words
    them. *)
Record meets_terms (options : VerifyOptions) (receipt : LedgerReceipt) : Prop := {
  same_amount : amount receipt = expectedAmount options;
  same_asset : asset receipt = expectedAsset options;
  confirmed : status receipt = "confirmed"
}.

(** No non-zero [expiresAt] of the receipt lies before [now]. *)
Definition unexpired (now : Z) (receipt : LedgerReceipt) : Prop :=
  forall t, expiresAt receipt = Some t -> t <> 0 -> now <= t.

(** [verify] resolves to the invalid receipt [r], whose reason is
    [why]. *)
Definition rejects (result : outcome Receipt) (r : Receipt) (why : string) : Prop :=
  result = Returned r /\ valid r = false /\ reason r = Some why.

(** The example of the specification. *)
Definition example_options : VerifyOptions :=
  {| txHash := "0xabc"; expectedAmount := "0.5"; expectedAsset := "USDC";
     timeout := 60000 |}.

(** The ledger receipt of the example, with an expiry. *)
Definition example_receipt (expiresAt : option Z) : LedgerReceipt :=
  {| amount := "0.5"; asset := "USDC"; from := "0xfrom"; to := "0xto";
     status := "confirmed"; blockNumber := 12345678; expiresAt := expiresAt;
     service := JStr "datafeed"; metadata := None; jobId := JStr "job-1" |}.

End PaymentVerifierSpec.

Module PaymentProcessorSpec.
Import PaymentProcessor.

Definition example_config : JobConfig :=
  {| amount := "0.5"; asset := None |}.

(** A verifier that accepts the payment and binds it to job [job-1]
    through the metadata of the receipt. *)
Definition accepting_verifier (options : PaymentVerifier.VerifyOptions)
  : outcome PaymentVerifier.Receipt :=
  Returned (PaymentVerifier.Valid (PaymentVerifier.txHash options) "0.5" "USDC"
              "0xfrom" "0xto" 12345678 (JStr "datafeed")
              (Some {[ "jobId" := JStr "job-1" ]}) JNull).

(** A registry whose jobs complete after one second. *)
Definition quick_registry (jobId : jsval) : outcome (option Job) :=
  Returned (Some {| run := Some (1000, Returned (JStr "done")) |}).

End PaymentProcessorSpec.

Module AgentMeshSpec.
Import AgentMesh.

(** The payment and the recipients of the example of the specification,
    as the specification writes them. *)
Definition example_payment : Payment :=
  {| amount := JNum 100; asset := JStr "USDC" |}.

Definition spec_recipients : list (gmap string jsval) :=
  [ {[ "to" := JStr "A"; "share" := JNum 60 ]};
    {[ "to" := JStr "B"; "share" := JNum 40 ]} ].

(** The same recipients under the key the code reads. *)
Definition address_recipients : list (gmap string jsval) :=
  [ {[ "address" := JStr "A"; "share" := JNum 60 ]};
    {[ "address" := JStr "B"; "share" := JNum 40 ]} ].

Definition transfer (to : jsval) (amount : string) (asset : jsval) (memo : string)
  : Transfer.t :=
  {| Transfer.success := true;
     Transfer.payment := {| Split.to := to; Split.amount := amount;
                            Split.asset := asset; Split.memo := memo |} |}.

(** A mesh whose only node is flagged unavailable. *)
Definition busy_node : AgentNode :=
  {| id := "node-1"; endpoint := "https://node-1.example"; load := 95;
     capabilities := ["render"]; available := false |}.

Definition busy_mesh : Mesh :=
  {| networkNodes := [busy_node]; routingStrategy := "round-robin" |}.

(** A mesh that routes by load; its second node carries the least. *)
Definition idle_node : AgentNode :=
  {| id := "node-2"; endpoint := "https://node-2.example"; load := 10;
     capabilities := ["render"]; available := true |}.

Definition loaded_mesh : Mesh :=
  {| networkNodes := [busy_node; idle_node; busy_node];
     routingStrategy := "load-based" |}.

(** Recipients whose shares total 90. *)
Definition short_recipients : list (gmap string jsval) :=
  [ {[ "address" := JStr "A"; "share" := JNum 60 ]};
    {[ "address" := JStr "B"; "share" := JNum 30 ]} ].

End AgentMeshSpec.

Module TaskOrchestratorSpec.
Import TaskOrchestrator.

(** The payment was made and its confirmation wait returned a receipt
    whose status is ['confirmed']. *)
Definition confirmed (pay : PaymentRequest -> outcome PaymentTx)
    (confirmations : float) (request : PaymentRequest) : Prop :=
  exists paymentTx receipt,
    pay request = Returned paymentTx
    /\ wait paymentTx confirmations = Returned receipt
    /\ get receipt "status" = JStr "confirmed".

Definition example_config : RenderConfig.t :=
  {| RenderConfig.chartType := JStr "bar";
     RenderConfig.data := JStr "[1,2,3]";
     RenderConfig.format := JStr "png" |}.

(** A wallet whose payment is broadcast and whose confirmation wait runs
    into its timeout. *)
Definition stalled_wallet (request : PaymentRequest) : outcome PaymentTx :=
  Returned {| hash := JStr "0xfeed";
              metadata := {[ "jobId" := JStr (jobId request) ]};
              wait := fun _ => Thrown "Transaction confirmation timeout" |}.

Definition accepting_agent (payload : Notification.t) : outcome Response :=
  Returned {| ok := true; statusText := "OK"; json := Returned JNull |}.

End TaskOrchestratorSpec.

Module AgentWalletSpec.
Import AgentWallet.

(** The instants at which the loop of [waitForConfirmation] asks the
    ledger: the start, and 2000 ms plus the lag after each round. *)
Fixpoint poll_time (lag : Z -> N) (startTime : Z) (n : nat) : Z :=
  match n with
  | O => startTime
  | S n' =>
    let t := poll_time lag startTime n' in t + 2000 + Z.of_N (lag t)
  end.

(** The ledger's answer does not end the wait: there is no receipt yet,
    or one with too few confirmations. *)
Definition pending `{Host} (required : float)
    (answer : outcome (option (gmap string jsval))) : Prop :=
  answer = Returned None
  \/ exists receipt,
       answer = Returned (Some receipt)
       /\ at_least (get receipt "confirmations") (JNum required) = false.

(** A ledger that reports the transaction as still pending although it
    has the confirmations asked for. *)
Definition pending_receipt : gmap string jsval :=
  {[ "hash" := JStr "0xabc"; "confirmations" := JNum 3;
     "blockNumber" := JNum 12345678; "status" := JStr "pending" ]}.

(** The placeholder receipt of the source without its status. *)
Definition bare_receipt : gmap string jsval :=
  {[ "hash" := JStr "0xabc"; "confirmations" := JNum 1;
     "blockNumber" := JNum 12345678 ]}.

Definition default_options : WaitOptions :=
  {| confirmations := None; timeout := None |}.

End AgentWalletSpec.

Module ProofEngineSpec.
Import ProofEngine.

(** The value of a lowercase hexadecimal digit. *)
Definition hex_value (c : ascii) : option N :=
  let n := N_of_ascii c in
  if ((48 <=? n) && (n <=? 57))%N then Some (n - 48)%N
  else if ((97 <=? n) && (n <=? 102))%N then Some (n - 87)%N
  else None.

(** The reader of one character of the inside of a quoted string: the
    inverse of [escape]. *)
Definition unescape (s : string) : option (ascii * string) :=
  match s with
  | EmptyString => None
  | String "\" EmptyString => None
  | String "\" (String c rest) =>
    match c with
    | "b" => Some ("008", rest)
    | "t" => Some ("009", rest)
    | "n" => Some ("010", rest)
    | "f" => Some ("012", rest)
    | "r" => Some ("013", rest)
    | "034" => Some ("034", rest)
    | "\" => Some ("\", rest)
    | "u" =>
      match rest with
      | String "0" (String "0" (String h (String l rest'))) =>
        match hex_value h, hex_value l with
        | Some a, Some b => Some (ascii_of_N (16 * a + b), rest')
        | _, _ => None
        end
      | _ => None
      end
    | _ => None
    end
  | String c rest => Some (c, rest)
  end%char.

(** [join "," (before ++ part :: after)] is [lead before], then [part],
    then [trail after]. *)
Definition lead (parts : list string) : string :=
  fold_right (fun part rest => part ++ "," ++ rest) "" parts.

Definition trail (parts : list string) : string :=
  fold_right (fun part rest => "," ++ part ++ rest) "" parts.

Fixpoint total_length (parts : list string) : nat :=
  match parts with
  | [] => 0
  | part :: rest => String.length part + total_length rest
  end.

(** The proof with its data snapshot replaced: what a mutation of
    [proof.data] after generation leaves behind. *)
Definition with_data (proof : Proof.t) (data : list (string * value)) : Proof.t :=
  {| Proof.hash := Proof.hash proof;
     Proof.signature := Proof.signature proof;
     Proof.algorithm := Proof.algorithm proof;
     Proof.timestamp := Proof.timestamp proof;
     Proof.data := data |}.

(** The hash does not collide on two given serializations. *)
Definition collision_free (sha256 : string -> string) (a b : string) : Prop :=
  sha256 a = sha256 b -> a = b.

(** The engine with its defaults. *)
Definition default_engine : Engine :=
  {| algorithm := "sha256"; proofStorage := None |}.

(** A stand-in for the hash in the concrete runs: it is injective. *)
Definition toy_hash (s : string) : string := "h:" ++ s.

(** A signed transaction. *)
Definition example_transaction : Transaction :=
  {| hash := Prim (JStr "0xabc");
     timestamp := Prim (JNum 1700000000000);
     amount := Prim (JStr "0.5");
     asset := Prim (JStr "USDC");
     from := Prim (JStr "0xfrom");
     to := Prim (JStr "0xto");
     metadata := Obj [("jobId", Prim (JStr "job-1"))];
     signer := Obj [("address", Prim (JStr "0xfrom"))] |}.

(** A transaction whose amount was read from a malformed payment header:
    [parseFloat] gave [NaN]. *)
Definition malformed_transaction : Transaction :=
  {| hash := Prim (JStr "0xabc");
     timestamp := Prim (JNum 1700000000000);
     amount := Prim (JNum nan);
     asset := Prim (JStr "USDC");
     from := Prim (JStr "0xfrom");
     to := Prim (JStr "0xto");
     metadata := Prim JUndefined;
     signer := Prim JUndefined |}.

End ProofEngineSpec.

(* ===================================================================== *)
(** * Further vocabulary *)
(* ===================================================================== *)

Module SharesSpec.
Import AgentMesh.

(** A share the sum of the shares cannot absorb: a missing one
    ([undefined]), a string, or [NaN]. *)
Definition unusable (share : jsval) : Prop :=
  share = JUndefined
  \/ (exists s, share = JStr s)
  \/ (exists x, share = JNum x /\ is_nan x = true).

(** The sum so far is a string or [NaN]. *)
Definition spoilt (sum : jsval) : Prop :=
  match sum with
  | JStr _ => True
  | JNum x => is_nan x = true
  | _ => False
  end.

(** Shares written as strings, numerically 60 and 40. *)
Definition quoted_recipients : list (gmap string jsval) :=
  [ {[ "address" := JStr "A"; "share" := JStr "60" ]};
    {[ "address" := JStr "B"; "share" := JStr "40" ]} ].

End SharesSpec.

Module CoordinationSpec.
Import AgentMesh.

Section Routed.
Context `{Host}.
Variable this : Mesh.
Variable sendTaskToNode : gmap string jsval -> AgentNode -> outcome jsval.

(** How the routing of one task completes, and the message it sends. *)
Definition routed (random : float) (task : gmap string jsval) : outcome Routing.t :=
  match selectNode this random task with
  | None => Thrown "No available nodes for task routing"
  | Some node =>
    result ← sendTaskToNode task node;
    Returned {| Routing.nodeId := id node; Routing.taskId := get task "id";
                Routing.result := result |}
  end.

Definition sent (random : float) (task : gmap string jsval) : option event :=
  TaskSent task <$> selectNode this random task.
End Routed.

End CoordinationSpec.

Module MeshExamples.
Import AgentMesh AgentMeshSpec.

(** A second node as idle as [idle_node]. *)
Definition spare_node : AgentNode :=
  {| id := "node-3"; endpoint := "https://node-3.example"; load := 10;
     capabilities := ["render"]; available := true |}.

Definition tied_mesh : Mesh :=
  {| networkNodes := [busy_node; idle_node; spare_node];
     routingStrategy := "load-based" |}.

(** A node whose load was never reported. *)
Definition silent_node : AgentNode :=
  {| id := "node-0"; endpoint := "https://node-0.example"; load := nan;
     capabilities := []; available := true |}.

Definition silent_mesh : Mesh :=
  {| networkNodes := [silent_node; idle_node];
     routingStrategy := "load-based" |}.

Definition empty_mesh : Mesh :=
  {| networkNodes := []; routingStrategy := "round-robin" |}.

(** A task for two agents with a budget of 10. *)
Definition example_task : gmap string jsval :=
  {[ "id" := JStr "task-1"; "workflow" := JStr "render-then-publish";
     "budget" := JNum 10 ]}.

Definition example_agents : list (gmap string jsval) :=
  [ {[ "id" := JStr "agent-a" ]}; {[ "id" := JStr "agent-b" ]} ].

(** Nodes that answer with the step they were given. *)
Definition echo (task : gmap string jsval) (node : AgentNode) : outcome jsval :=
  Returned (get task "step").

End MeshExamples.

Module ProcessingSpec.
Import PaymentProcessor.

(** [receipt.metadata?.jobId || receipt.jobId] *)
Definition job_of (receipt : PaymentVerifier.Receipt) : jsval :=
  or_else
    (match PaymentVerifier.receipt_metadata receipt with
     | Some metadata => get metadata "jobId"
     | None => JUndefined
     end)
    (PaymentVerifier.receipt_jobId receipt).

(** The audit entry of a failed attempt. *)
Definition failure (txHash message : string) : AuditLogEntry :=
  {| jobId := None; txHash := txHash; status := "failed"; timestamp := None;
     result := None; error := Some message |}.

(** The audit entry of a completed attempt. *)
Definition completion (txHash : string) (j : jsval) (auditTime : Z) (r : jsval)
  : AuditLogEntry :=
  {| jobId := Some j; txHash := txHash; status := "completed";
     timestamp := Some auditTime; result := Some r; error := None |}.

(** The job took more than its time limit, or never settled. *)
Definition overdue (job : Job) : Prop :=
  match run job with
  | Some (elapsed, _) => 300000 < elapsed
  | None => True
  end.

(** A registry whose job never settles. *)
Definition stuck_registry (jobId : jsval) : outcome (option Job) :=
  Returned (Some {| run := None |}).

End ProcessingSpec.

Module WalletSpec.
Import AgentWallet WalletPayments.

(** A wait for two confirmations, as the orchestrator asks by
    default. *)
Definition two_confirmations : WaitOptions :=
  {| confirmations := Some 2%float; timeout := None |}.

(** A ledger that fails when asked for the second time. *)
Definition failing_ledger (startTime : Z) (txHash : string) (now : Z)
  : outcome (option (gmap string jsval)) :=
  if now =? startTime then Returned None else Thrown "ledger unavailable".

End WalletSpec.

Module OrchestratorExamples.
Import TaskOrchestrator.

(** A wallet whose payments are confirmed at once. *)
Definition confirmed_tx (jobId : string) : PaymentTx :=
  {| hash := JStr "0xfeed";
     metadata := {[ "jobId" := JStr jobId ]};
     wait := fun _ => Returned {[ "status" := JStr "confirmed" ]} |}.

Definition prompt_wallet (request : PaymentRequest) : outcome PaymentTx :=
  Returned (confirmed_tx (jobId request)).

Definition prompt_processing_wallet (request : DataProcessing.PaymentRequest)
  : outcome PaymentTx :=
  Returned (confirmed_tx (DataProcessing.jobId request)).

(** An agent that refuses the notification. *)
Definition refusing_agent (payload : Notification.t) : outcome Response :=
  Returned {| ok := false; statusText := "Service Unavailable";
              json := Returned JNull |}.

Definition processing_config : DataProcessing.Config.t :=
  {| DataProcessing.Config.dataSource := JStr "sales.csv";
     DataProcessing.Config.operation := JStr "aggregate";
     DataProcessing.Config.outputFormat := JStr "json" |}.

End OrchestratorExamples.

Module ClientSpec.
Import x402Client.

(** The headers the caller passed: [fetchOptions.headers], none when
    the property is absent. *)
Definition given (options : Options) : gmap string jsval :=
  default ∅ (headers options).

(** The client has a wallet with an address. *)
Definition authorized (this : Client) : bool :=
  match wallet this with
  | Some wallet => truthy (get wallet "address")
  | None => false
  end.

(** The singleton [x402] of the source, [X402_API_URL] not being
    set. *)
Definition x402 : Client :=
  {| baseURL := "https://api.x402.org"; wallet := None; defaultTimeout := 30000 |}.

(** A paid request whose caller sets a content type of its own. *)
Definition paid_options : Options :=
  {| payment := JStr "0.5 USDC"; deadline := JUndefined;
     headers := Some {[ "Content-Type" := JStr "text/plain";
                        "Accept" := JStr "application/json" ]};
     method := JStr "POST"; body := JStr "{}" |}.

(** A server that answers a job lookup with 404 after 120 ms. *)
Definition missing_job (request : Request.t) : option (Z * outcome Response) :=
  Some (120, Returned {| ok := false; statusText := "Not Found";
                         json := Returned ∅ |}).

End ClientSpec.

Module BridgeSpec.
Import BridgeLayer.

(** No space occurs in the string. *)
Fixpoint spaceless (s : string) : bool :=
  match s with
  | EmptyString => true
  | String c rest => negb (Ascii.eqb c " ") && spaceless rest
  end.

(** The payment a header denotes when its first word is [amount] and
    its second word [asset]. *)
Definition denoted `{Host} (now : float) (amount asset : string)
  : gmap string jsval :=
  {[ "amount" := JNum (parseFloat amount);
     "asset" := JStr (if string_truthy asset then asset else "USDC");
     "timestamp" := JNum now ]}.

(** A runtime whose [parseFloat] reads the amount of the examples. *)
Definition reading_host : Host :=
  {| render_number := fun _ => "";
     string_to_number := fun _ => nan;
     parseFloat := fun s => if String.eqb s "0.5" then 0.5%float else nan |}.

(** A gas optimizer that cannot estimate. *)
Definition failing_optimizer (payment : gmap string jsval) : outcome jsval :=
  Thrown "gas price unavailable".

End BridgeSpec.

Module EngineSpec.
Import ProofEngine.

(** The proof with another signature, algorithm and timestamp. *)
Definition relabelled (proof : Proof.t) (signature : option string)
    (algorithm : string) (timestamp : Z) : Proof.t :=
  {| Proof.hash := Proof.hash proof;
     Proof.signature := signature;
     Proof.algorithm := algorithm;
     Proof.timestamp := timestamp;
     Proof.data := Proof.data proof |}.





(** An engine configured for an algorithm it does not implement. *)
Definition md5_engine : Engine :=
  {| algorithm := "md5"; proofStorage := None |}.

(** An engine whose store is full. *)
Definition full_store (proof : Proof.t) : outcome unit := Thrown "store is full".

Definition storing_engine : Engine :=
  {| algorithm := "sha256"; proofStorage := Some full_store |}.

End EngineSpec.

Module EngineExamples.
Import ProofEngine ProofEngineSpec.

(** A proof of the example transaction, as [generateProof] makes it. *)
Definition example_proof : Proof.t :=
  {| Proof.hash := toy_hash "snapshot";
     Proof.signature := None;
     Proof.algorithm := "sha256";
     Proof.timestamp := 1700000000001;
     Proof.data := snapshot example_transaction |}.

End EngineExamples.
(* ===================================================================== *)
(** * Properties *)
(* ===================================================================== *)

(* ===================================================================== *)
(** ** Numbers: decimal renderings and the order of binary64 values *)
(* ===================================================================== *)

Module NumberFacts.
Import NumberSpec.

Lemma pretty_N_char_digit x : is_digit (pretty_N_char x) = true.
Proof. unfold pretty_N_char. repeat case_match; reflexivity. Qed.

Lemma pretty_N_go_digits x : 
  forall s, exists d,
    list_ascii_of_string (pretty_N_go x s) = (d ++ list_ascii_of_string s)%list
    /\ Forall (fun c => is_digit c = true) d
    /\ ((0 < x)%N -> d <> []).
Proof.
  induction (N.lt_wf_0 x) as [x _ IH]. intros s.
  destruct (N.eq_dec x 0%N) as [-> | Hx].
  - exists []. rewrite pretty_N_go_0. repeat split; [constructor | lia].
  - assert (0 < x)%N as Hpos by lia.
    rewrite pretty_N_go_step by assumption.
    destruct (IH (x `div` 10)%N (N.div_lt x 10 Hpos eq_refl)
                 (String (pretty_N_char (x `mod` 10)) s)) as (d & Hd & Hall & _).
    exists (d ++ [pretty_N_char (x `mod` 10)])%list. split; [| split].
    + rewrite Hd. simpl. now rewrite <- app_assoc.
    + apply Forall_app. split; [assumption |].
      constructor; [apply pretty_N_char_digit | constructor].
    + intros _ E. now apply app_eq_nil in E as [_ [=]].
Qed.

Lemma pretty_nonneg_digits (n : Z) :
  0 <= n ->
  Forall (fun c => is_digit c = true) (list_ascii_of_string (pretty n))
  /\ list_ascii_of_string (pretty n) <> [].
Proof.
  intros Hn. destruct n as [|p|p]; [| | lia].
  - split; [repeat constructor | discriminate].
  - unfold pretty, pretty_Z, pretty, pretty_positive, pretty, pretty_N.
    destruct (decide (N.pos p = 0%N)); [discriminate |].
    destruct (pretty_N_go_digits (N.pos p) "") as (d & Hd & Hall & Hne).
    rewrite Hd. simpl. rewrite app_nil_r. split; [assumption | apply Hne; lia].
Qed.


Lemma fixed_digits_format (n : Z) (f : nat) :
  0 <= n -> exists whole fraction : list ascii,
    fixed_digits n (S f) = string_of_list_ascii whole ++ "."
                           ++ string_of_list_ascii fraction
    /\ whole <> []
    /\ Forall (fun c => is_digit c = true) whole
    /\ Forall (fun c => is_digit c = true) fraction
    /\ length fraction = S f.
Proof.
  intros Hn. destruct (pretty_nonneg_digits n Hn) as [Hall Hne].
  unfold fixed_digits.
  set (m := list_ascii_of_string (pretty n)) in *.
  set (padded := if (length m <=? S f)%nat
                 then (replicate (S f + 1 - length m) "0"%char ++ m)%list
                 else m).
  assert (Hpadded : Forall (fun c => is_digit c = true) padded
                    /\ (S f < length padded)%nat).
  { unfold padded. destruct (Nat.leb_spec (length m) (S f)).
    - split.
      + apply Forall_app. split; [| assumption].
        apply Forall_replicate. reflexivity.
      + rewrite length_app, length_replicate. lia.
    - split; [assumption | lia]. }
  destruct Hpadded as [Hdigits Hlen].
  exists (take (length padded - S f) padded), (drop (length padded - S f) padded).
  split; [reflexivity |]. repeat split.
  - intros E. apply (f_equal (@length ascii)) in E.
    rewrite length_take in E. simpl in E. lia.
  - now apply Forall_take.
  - now apply Forall_drop.
  - rewrite length_drop. lia.
Qed.

Lemma nearest_nonneg m e f : 0 <= nearest m e f.
Proof.
  unfold nearest.
  assert (0 <= 10 ^ Z.of_nat f) by (apply Z.pow_nonneg; lia).
  destruct (0 <=? e) eqn:He.
  - assert (0 <= 2 ^ e) by (apply Z.pow_nonneg; lia). nia.
  - apply Z.leb_gt in He.
    assert (0 <= 2 ^ (- e)) by (apply Z.pow_nonneg; lia).
    apply Z.div_pos; [nia | apply Z.pow_pos_nonneg; lia].
Qed.

(** [nearest m e f] is within one half of [m * 2^e * 10^f], and is the
    upper neighbour when that lies half-way between two integers. *)
Lemma nearest_spec m e f :
  e < 0 ->
  2 * nearest m e f * 2 ^ (- e) - 2 ^ (- e)
  <= 2 * Z.pos m * 10 ^ Z.of_nat f
  < 2 * nearest m e f * 2 ^ (- e) + 2 ^ (- e).
Proof.
  intros He. unfold nearest. rewrite (proj2 (Z.leb_gt 0 e) He).
  assert (Hpow : 2 ^ (1 - e) = 2 * 2 ^ (- e)).
  { replace (1 - e) with (Z.succ (- e)) by lia. apply Z.pow_succ_r. lia. }
  assert (Hpos : 0 < 2 ^ (- e)) by (apply Z.pow_pos_nonneg; lia).
  rewrite Hpow.
  pose proof (Z.div_mod (2 * Z.pos m * 10 ^ Z.of_nat f + 2 ^ (- e))
                        (2 * 2 ^ (- e)) ltac:(lia)) as Hdiv.
  pose proof (Z.mod_pos_bound (2 * Z.pos m * 10 ^ Z.of_nat f + 2 ^ (- e))
                              (2 * 2 ^ (- e)) ltac:(lia)) as Hmod.
  nia.
Qed.

Lemma nearest_exact m e f :
  0 <= e -> nearest m e f = Z.pos m * 2 ^ e * 10 ^ Z.of_nat f.
Proof. intros He. unfold nearest. now rewrite (proj2 (Z.leb_le 0 e) He). Qed.

(** [toFixed] writes a finite number below 10^21 in magnitude with exactly
    the requested number of decimals. *)
Lemma toFixed_format `{Host} (f : nat) (x : float) :
  finite x = true -> PrimFloat.leb 1e21 (abs x) = false ->
  fixed_point (S f) (toFixed (S f) x).
Proof.
  unfold finite, toFixed, fixed_point.
  destruct (Prim2SF x) as [s|s| |s m e]; try discriminate; intros _ Hsmall.
  - destruct (fixed_digits_format 0 f ltac:(lia)) as (w & fr & -> & Hrest).
    exists false, w, fr. split; [reflexivity | exact Hrest].
  - rewrite Hsmall.
    destruct (fixed_digits_format (nearest m e (S f)) f (nearest_nonneg _ _ _))
      as (w & fr & -> & Hrest).
    exists s, w, fr. split; [reflexivity | exact Hrest].
Qed.

(** The order of binary64 values. *)
Ltac order_cases :=
  repeat match goal with
         | |- context [Z.compare ?x ?y] => destruct (Z.compare_spec x y)
         | H : context [Z.compare ?x ?y] |- _ => destruct (Z.compare_spec x y)
         | |- context [Pos.compare ?x ?y] => destruct (Pos.compare_spec x y)
         | H : context [Pos.compare ?x ?y] |- _ => destruct (Pos.compare_spec x y)
         end;
  simpl in *; try discriminate; try reflexivity; try lia.

Lemma SFltb_trans a b c :
  SFltb a b = true -> SFltb b c = true -> SFltb a c = true.
Proof.
  unfold SFltb, SFcompare.
  destruct a as [[]|[]| |[] ma ea], b as [[]|[]| |[] mb eb],
    c as [[]|[]| |[] mc ec];
    simpl; try discriminate; try reflexivity;
    rewrite ?Pos.compare_cont_spec; simpl; intros Hab Hbc; order_cases.
Qed.

Lemma SFltb_irrefl a : SFltb a a = false.
Proof.
  unfold SFltb, SFcompare.
  destruct a as [[]|[]| |[] ma ea]; simpl; try reflexivity;
    rewrite Z.compare_refl, Pos.compare_cont_refl; reflexivity.
Qed.

Lemma SFltb_false_leb a b :
  a <> S754_nan -> b <> S754_nan -> SFltb a b = false -> SFleb b a = true.
Proof.
  unfold SFltb, SFleb, SFcompare.
  destruct a as [[]|[]| |[] ma ea], b as [[]|[]| |[] mb eb];
    simpl; try discriminate; try reflexivity; try congruence;
    rewrite ?Pos.compare_cont_spec; simpl; intros _ _ Hab; order_cases.
Qed.

Lemma ltb_trans (x y z : float) :
  PrimFloat.ltb x y = true -> PrimFloat.ltb y z = true -> PrimFloat.ltb x z = true.
Proof. rewrite !FloatAxioms.ltb_spec. apply SFltb_trans. Qed.

Lemma ltb_irrefl (x : float) : PrimFloat.ltb x x = false.
Proof. rewrite FloatAxioms.ltb_spec. apply SFltb_irrefl. Qed.

Lemma not_nan_Prim2SF (x : float) : is_nan x = false -> Prim2SF x <> S754_nan.
Proof.
  unfold is_nan. rewrite FloatAxioms.eqb_spec. unfold SFeqb. intros Hx E.
  rewrite E in Hx. discriminate.
Qed.

Lemma ltb_false_leb (x y : float) :
  is_nan x = false -> is_nan y = false ->
  PrimFloat.ltb x y = false -> PrimFloat.leb y x = true.
Proof.
  rewrite FloatAxioms.ltb_spec, FloatAxioms.leb_spec. intros Hx Hy.
  apply SFltb_false_leb; now apply not_nan_Prim2SF.
Qed.

End NumberFacts.


(* ===================================================================== *)
(** ** Strings *)
(* ===================================================================== *)

Module StringFacts.

Lemma chars_app (a b : string) :
  list_ascii_of_string (a ++ b)
  = (list_ascii_of_string a ++ list_ascii_of_string b)%list.
Proof. induction a as [|c a IH]; simpl; [reflexivity | now rewrite IH]. Qed.

Lemma chars_inj (a b : string) :
  list_ascii_of_string a = list_ascii_of_string b -> a = b.
Proof.
  intros E. rewrite <- (string_of_list_ascii_of_string a),
    <- (string_of_list_ascii_of_string b). now rewrite E.
Qed.

Lemma app_assoc (a b c : string) : (a ++ b) ++ c = a ++ (b ++ c).
Proof.
  induction a as [|x a IH]; [reflexivity |].
  change (String x ((a ++ b) ++ c) = String x (a ++ (b ++ c))). now rewrite IH.
Qed.

Lemma app_nil_r (a : string) : a ++ "" = a.
Proof.
  induction a as [|x a IH]; [reflexivity |].
  change (String x (a ++ "") = String x a). now rewrite IH.
Qed.

Lemma app_inv_tail (a b t : string) : a ++ t = b ++ t -> a = b.
Proof.
  intros E. apply chars_inj. apply (f_equal list_ascii_of_string) in E.
  rewrite !chars_app in E. now apply List.app_inv_tail in E.
Qed.

Lemma app_inv_head (h a b : string) : h ++ a = h ++ b -> a = b.
Proof. apply String.app_inj. Qed.

Lemma length_app (a b : string) :
  String.length (a ++ b) = (String.length a + String.length b)%nat.
Proof. induction a as [|x a IH]; simpl; [reflexivity | now rewrite IH]. Qed.

End StringFacts.

(* ===================================================================== *)
(** ** PaymentVerifier.verify *)
(* ===================================================================== *)

Module PaymentVerifierFacts.
Import PaymentVerifier PaymentVerifierSpec.

Lemma expired_false_iff now receipt :
  expired now (expiresAt receipt) = false <-> unexpired now receipt.
Proof.
  unfold expired, unexpired. destruct (expiresAt receipt) as [t|].
  - rewrite andb_false_iff, negb_false_iff, Z.eqb_eq, Z.ltb_ge. split.
    + intros Hcase u [= <-] Hu. destruct Hcase; [contradiction | assumption].
    + intros Hall. destruct (Z.eq_dec t 0); [left | right]; auto.
  - split; [intros _ u [=] | reflexivity].
Qed.

Lemma neq_eqb (s t : string) : s <> t -> String.eqb s t = false.
Proof. apply String.eqb_neq. Qed.

Section Facts.
Variable fetchTransactionReceipt : string -> outcome (option LedgerReceipt).
Variable now : Z.
Variable options : VerifyOptions.

#[local] Abbreviation result := (verify fetchTransactionReceipt now options).

Lemma verify_found receipt :
  fetchTransactionReceipt (txHash options) = Returned (Some receipt) ->
  result =
    Returned
      (if negb (String.eqb (amount receipt) (expectedAmount options)) then
         AmountMismatch (expectedAmount options) (amount receipt)
       else if negb (String.eqb (asset receipt) (expectedAsset options)) then
         AssetMismatch (expectedAsset options) (asset receipt)
       else if negb (String.eqb (status receipt) "confirmed") then
         NotConfirmed (status receipt)
       else if expired now (expiresAt receipt) then Expired (expiresAt receipt)
       else Valid (txHash options) (amount receipt) (asset receipt)
                  (from receipt) (to receipt) (blockNumber receipt)
                  (service receipt) (metadata receipt) (jobId receipt)).
Proof.
  intros Hfetch. unfold verify. rewrite Hfetch. simpl.
  repeat (match goal with |- context [if ?b then _ else _] => destruct b end;
          try reflexivity).
Qed.

(** C1, as amended: for every answer of the ledger, [verify] resolves to
    a receipt with [valid = true] exactly when the ledger receipt exists,
    its amount and asset equal the expected strings, its status is
    ['confirmed'] and no non-zero [expiresAt] it carries is earlier than
    the current time.  Each failing condition yields the invalid receipt of
    its reason with the values attached, the expiry being looked at only
    after amount, asset and status passed; on success [from], [to] and
    [blockNumber] are those of the ledger receipt. *)
Theorem verify_valid_iff ledger :
  fetchTransactionReceipt (txHash options) = Returned ledger ->
  ((exists r, result = Returned r /\ valid r = true) <->
   (exists receipt,
      ledger = Some receipt /\ meets_terms options receipt /\ unexpired now receipt))
  /\ (ledger = None ->
      rejects result (NotFound (txHash options)) "Transaction not found")
  /\ (forall receipt, ledger = Some receipt ->
      (amount receipt <> expectedAmount options ->
       rejects result (AmountMismatch (expectedAmount options) (amount receipt))
               "Amount mismatch")
      /\ (amount receipt = expectedAmount options ->
          asset receipt <> expectedAsset options ->
          rejects result (AssetMismatch (expectedAsset options) (asset receipt))
                  "Asset mismatch")
      /\ (amount receipt = expectedAmount options ->
          asset receipt = expectedAsset options ->
          status receipt <> "confirmed" ->
          rejects result (NotConfirmed (status receipt))
                  "Transaction not confirmed")
      /\ (meets_terms options receipt -> ~ unexpired now receipt ->
          rejects result (Expired (expiresAt receipt)) "Payment expired")
      /\ (meets_terms options receipt -> unexpired now receipt ->
          result =
            Returned (Valid (txHash options) (amount receipt) (asset receipt)
                            (from receipt) (to receipt) (blockNumber receipt)
                            (service receipt) (metadata receipt) (jobId receipt)))).
Proof.
  intros Hfetch. unfold rejects.
  assert (Hvalid : forall receipt, ledger = Some receipt ->
            meets_terms options receipt -> unexpired now receipt ->
            result =
              Returned (Valid (txHash options) (amount receipt) (asset receipt)
                              (from receipt) (to receipt) (blockNumber receipt)
                              (service receipt) (metadata receipt)
                              (jobId receipt))).
  { intros receipt -> [Ha Hs Hc] He. rewrite (verify_found receipt Hfetch).
    rewrite Ha, Hs, Hc, !String.eqb_refl. simpl.
    apply expired_false_iff in He. rewrite He. now rewrite <- Ha, <- Hs. }
  split; [| split].
  - split.
    + intros (r & Hr & Hv). destruct ledger as [receipt|].
      * exists receipt. split; [reflexivity |].
        rewrite (verify_found receipt Hfetch) in Hr. injection Hr as <-.
        destruct (String.eqb_spec (amount receipt) (expectedAmount options));
          [| discriminate].
        destruct (String.eqb_spec (asset receipt) (expectedAsset options));
          [| discriminate].
        destruct (String.eqb_spec (status receipt) "confirmed"); [| discriminate].
        simpl in Hv.
        destruct (expired now (expiresAt receipt)) eqn:E; [discriminate |].
        split; [constructor; assumption | now apply expired_false_iff].
      * unfold verify in Hr. rewrite Hfetch in Hr. simpl in Hr.
        injection Hr as <-. discriminate.
    + intros (receipt & Hl & Hterms & Hexp).
      eexists. split; [exact (Hvalid receipt Hl Hterms Hexp) | reflexivity].
  - intros ->. unfold verify. rewrite Hfetch. repeat split.
  - intros receipt Hl. split; [| split; [| split; [| split]]].
    + intros Ha. subst ledger. rewrite (verify_found receipt Hfetch).
      rewrite (neq_eqb _ _ Ha). repeat split.
    + intros Ha Hs. subst ledger. rewrite (verify_found receipt Hfetch).
      rewrite Ha, String.eqb_refl, (neq_eqb _ _ Hs). repeat split.
    + intros Ha Hs Hc. subst ledger. rewrite (verify_found receipt Hfetch).
      rewrite Ha, Hs, !String.eqb_refl, (neq_eqb _ _ Hc). repeat split.
    + intros [Ha Hs Hc] He. subst ledger. rewrite (verify_found receipt Hfetch).
      rewrite Ha, Hs, Hc, !String.eqb_refl. simpl.
      destruct (expired now (expiresAt receipt)) eqn:E; [repeat split |].
      apply expired_false_iff in E. contradiction.
    + now apply Hvalid.
Qed.

(** C4, as amended: [verify] never raises.  Every outcome that is not the
    valid receipt is a structured receipt with [valid = false] and a
    reason, and a rejection of the ledger lookup itself is caught and
    turned into such a receipt, carrying the error's message as reason
    and the transaction hash. *)
Theorem verify_never_raises :
  exists r,
    result = Returned r
    /\ (valid r = false -> exists why, reason r = Some why)
    /\ (forall message,
          fetchTransactionReceipt (txHash options) = Thrown message ->
          r = Failed message (txHash options)).
Proof.
  unfold verify.
  destruct (fetchTransactionReceipt (txHash options)) as [[receipt|]|message];
    simpl.
  - repeat (match goal with |- context [if ?b then _ else _] => destruct b end);
      (eexists; split; [reflexivity |]; split;
       [simpl; intros; try discriminate; eexists; reflexivity | intros ? [=]]).
  - eexists; split; [reflexivity |]; split;
      [intros _; eexists; reflexivity | intros ? [=]].
  - eexists; split; [reflexivity |]; split;
      [intros _; eexists; reflexivity | intros ? [= <-]; reflexivity].
Qed.

End Facts.

(** The example of the specification, on the placeholder ledger of the
    source: the receipt is valid and [from], [to] and [blockNumber] are
    the ledger's. *)
Lemma verify_valid_iff_witness :
  placeholder_ledger (txHash example_options)
  = Returned (Some {| amount := "0.5"; asset := "USDC"; from := "0x...";
                      to := "0x..."; status := "confirmed";
                      blockNumber := 12345678; expiresAt := None;
                      service := JStr "datafeed"; metadata := Some ∅;
                      jobId := JNull |})
  /\ verify placeholder_ledger 1700000000000 example_options
     = Returned (Valid "0xabc" "0.5" "USDC" "0x..." "0x..." 12345678
                       (JStr "datafeed") (Some ∅) JNull).
Proof.
  split; [reflexivity |].
  destruct (verify_valid_iff placeholder_ledger 1700000000000 example_options
              _ eq_refl) as (_ & _ & Hcases).
  destruct (Hcases _ eq_refl) as (_ & _ & _ & _ & Hok).
  apply Hok.
  - constructor; reflexivity.
  - intros t [=].
Defined.

(** The second example of the specification: the ledger amount is
    ["0.4"] where ["0.5"] is expected. *)
Lemma verify_amount_mismatch_example :
  let short :=
    {| amount := "0.4"; asset := "USDC"; from := "0xfrom"; to := "0xto";
       status := "confirmed"; blockNumber := 12345678; expiresAt := None;
       service := JStr "datafeed"; metadata := None; jobId := JNull |} in
  let outcome := verify (fun _ => Returned (Some short)) 1700000000000
                        example_options in
  outcome = Returned (AmountMismatch "0.5" "0.4")
  /\ (r ← outcome; Returned (valid r, reason r))
     = Returned (false, Some "Amount mismatch").
Proof. split; reflexivity. Qed.

(** C1 as stated fails on a receipt whose [expiresAt] is [0]: the receipt
    carries an expiry that is earlier than the current time and is valid
    all the same. *)
Lemma verify_zero_expiry_counterexample :
  (exists r,
     verify (fun _ => Returned (Some (example_receipt (Some 0)))) 1700000000000
            example_options = Returned r
     /\ valid r = true)
  /\ ~ (forall t, expiresAt (example_receipt (Some 0)) = Some t ->
                  1700000000000 <= t).
Proof.
  split.
  - eexists. split; reflexivity.
  - intros Hall. specialize (Hall 0 eq_refl). lia.
Qed.

(** C4 as stated fails when the ledger lookup rejects: the error does not
    reach the caller, who gets an invalid receipt. *)
Lemma verify_fetch_fault_counterexample :
  verify (fun _ => Thrown "ledger unreachable") 1700000000000 example_options
  = Returned (Failed "ledger unreachable" "0xabc")
  /\ raised (verify (fun _ => Thrown "ledger unreachable") 1700000000000
                    example_options) = false.
Proof. split; reflexivity. Qed.

End PaymentVerifierFacts.

(* ===================================================================== *)
(** ** PaymentProcessor.processPaymentRequest *)
(* ===================================================================== *)

Module PaymentProcessorFacts.
Import PaymentProcessor PaymentProcessorSpec.

(** Exhibits the actions before the last one of a concrete log. *)
Ltac last_is_audit :=
  first [ eexists [_], _; split; [reflexivity |]
        | eexists [_; _], _; split; [reflexivity |]
        | eexists [_; _; _], _; split; [reflexivity |]
        | eexists [_; _; _; _], _; split; [reflexivity |] ].

Section Facts.
Context `{Host}.
Variable verify : PaymentVerifier.VerifyOptions -> outcome PaymentVerifier.Receipt.
Variable getJob : jsval -> outcome (option Job).
Variable timeout : Z.
Variables startTime auditTime : Z.
Variable txHash : string.
Variable jobConfig : JobConfig.

#[local] Abbreviation options := (verifyOptions timeout txHash jobConfig).
#[local] Abbreviation attempt :=
  (JS.run (processPaymentRequest verify getJob timeout startTime auditTime
          txHash jobConfig)).

(** C2, as amended: an attempt whose verification resolves to an invalid
    receipt answers [{ success: false, error: reason }] and writes no
    audit entry.  Every other attempt writes exactly one audit entry, as
    its last action: with status ['completed'], the job id and the result
    when the attempt succeeds, which it does only after the verification
    and the run of the job; with status ['failed'] and the message of the
    error when the attempt raises, the error being raised again. *)
Theorem processPaymentRequest_audit :
  (forall receipt,
     verify options = Returned receipt ->
     PaymentVerifier.valid receipt = false ->
     attempt =
       (Returned {| Result.success := false; Result.jobId := None;
                    Result.result := None;
                    Result.error := PaymentVerifier.reason receipt |},
        [Verified options]))
  /\ ((forall receipt,
         verify options = Returned receipt ->
         PaymentVerifier.valid receipt = true) ->
      exists earlier entry,
        attempt.2 = (earlier ++ [Audited entry])%list
        /\ audits attempt.2 = [entry]
        /\ PaymentProcessor.txHash entry = txHash
        /\ match attempt.1 with
           | Returned r =>
             Result.success r = true
             /\ status entry = "completed"
             /\ jobId entry = Result.jobId r
             /\ result entry = Result.result r
             /\ (exists j,
                   Result.jobId r = Some j
                   /\ earlier = [Verified options; JobFetched j;
                                 ContextSet j jobConfig startTime; JobRun j])
           | Thrown message =>
             status entry = "failed" /\ error entry = Some message
           end).
Proof.
  split.
  - intros receipt Hv Hinvalid.
    unfold JS.run, processPaymentRequest, catch, andThen, perform, await.
    simpl. rewrite Hv, Hinvalid. reflexivity.
  - intros Hvalid.
    unfold JS.run, processPaymentRequest, catch, andThen, perform, await.
    simpl. destruct (verify options) as [receipt|message] eqn:Hv.
    + rewrite (Hvalid receipt eq_refl). simpl.
      set (j := or_else _ _).
      destruct (truthy j) eqn:Hj; simpl.
      * unfold executeJob, andThen, perform, await. simpl.
        destruct (getJob j) as [[job|]|message]; simpl.
        -- destruct (race job) as [outcome|message]; simpl.
           ++ last_is_audit. repeat split. exists j. split; reflexivity.
           ++ last_is_audit. repeat split.
        -- last_is_audit. repeat split.
        -- last_is_audit. repeat split.
      * last_is_audit. repeat split.
    + last_is_audit. repeat split.
Qed.

End Facts.

(** An accepted payment whose job completes: the one audit entry is the
    last action and records the completion. *)
Lemma processPaymentRequest_audit_witness :
  (forall receipt,
     accepting_verifier (verifyOptions 60000 "0xabc" example_config)
     = Returned receipt ->
     PaymentVerifier.valid receipt = true)
  /\ exists entry,
       audits (JS.run (processPaymentRequest (H := plain_host) accepting_verifier
                         quick_registry 60000 5 7 "0xabc" example_config)).2
       = [entry]
       /\ status entry = "completed"
       /\ jobId entry = Some (JStr "job-1").
Proof.
  assert (Hvalid : forall receipt,
            accepting_verifier (verifyOptions 60000 "0xabc" example_config)
            = Returned receipt ->
            PaymentVerifier.valid receipt = true)
    by (intros receipt [= <-]; reflexivity).
  split; [exact Hvalid |].
  destruct (processPaymentRequest_audit (H := plain_host) accepting_verifier
              quick_registry 60000 5 7 "0xabc" example_config)
    as (_ & Haudit).
  destruct (Haudit Hvalid) as (earlier & entry & _ & Haudits & _ & Hcase).
  exists entry. split; [exact Haudits |].
  change ((JS.run (processPaymentRequest (H := plain_host) accepting_verifier
                     quick_registry 60000 5 7 "0xabc" example_config)).1)
    with (Returned (A := Result.t)
            {| Result.success := true; Result.jobId := Some (JStr "job-1");
               Result.result := Some (JStr "done"); Result.error := None |})
    in Hcase.
  destruct Hcase as (_ & Hstatus & Hjob & _). split; assumption.
Defined.

(** C2 as stated fails when the verification resolves to an invalid
    receipt, here that of [PaymentVerifier.verify] on a ledger that does
    not know the transaction: the attempt is answered and nothing is
    audited. *)
Lemma invalid_receipt_not_audited_counterexample :
  let attempt :=
    JS.run (processPaymentRequest (H := plain_host)
           (PaymentVerifier.verify (fun _ => Returned None) 1700000000000)
           (fun _ => Thrown "getJob not implemented") 60000 0 0 "0xabc"
           {| amount := "0.5"; asset := Some "USDC" |}) in
  attempt.1 = Returned {| Result.success := false; Result.jobId := None;
                          Result.result := None;
                          Result.error := Some "Transaction not found" |}
  /\ audits attempt.2 = [].
Proof. split; reflexivity. Qed.

End PaymentProcessorFacts.

(* ===================================================================== *)
(** ** AgentMesh: routing and payment splits *)
(* ===================================================================== *)

Module AgentMeshFacts.
Import AgentMesh AgentMeshSpec NumberSpec.

Lemma all_executePayment (splits : list Split.t) (log : list event) :
  all executePayment splits log =
    (Returned (map (fun s => {| Transfer.success := true; Transfer.payment := s |})
                   splits),
     (log ++ map PaymentExecuted splits)%list).
Proof.
  revert log. induction splits as [|s splits IH]; intros log; simpl.
  - now rewrite app_nil_r.
  - unfold executePayment at 1, andThen, perform, pure. simpl.
    rewrite IH. now rewrite <- app_assoc.
Qed.

(** The [reduce] of the load-based policy keeps a node that none of the
    nodes seen so far undercuts. *)
Lemma fold_pick (rest : list AgentNode) : forall acc,
  let selected := fold_left pick rest acc in
  (selected = acc \/ In selected rest)
  /\ (forall x, PrimFloat.ltb x (load acc) = false ->
                PrimFloat.ltb x (load selected) = false)
  /\ (forall n, In n rest -> PrimFloat.ltb (load n) (load selected) = false).
Proof.
  induction rest as [|curr rest IH]; intros acc; simpl.
  - repeat split; [left; reflexivity | auto | contradiction].
  - destruct (IH (pick acc curr)) as (Hin & Hmono & Hrest).
    assert (Hstep : forall x, PrimFloat.ltb x (load acc) = false ->
                              PrimFloat.ltb x (load (pick acc curr)) = false).
    { intros x Hx. unfold pick.
      destruct (PrimFloat.ltb (load curr) (load acc)) eqn:Hlt; [| exact Hx].
      destruct (PrimFloat.ltb x (load curr)) eqn:Hxc; [| reflexivity].
      rewrite (NumberFacts.ltb_trans _ _ _ Hxc Hlt) in Hx. discriminate. }
    repeat split.
    + destruct Hin as [-> | Hin]; [| right; right; exact Hin].
      unfold pick. destruct (PrimFloat.ltb (load curr) (load acc));
        [right; left; reflexivity | left; reflexivity].
    + intros x Hx. apply Hmono, Hstep, Hx.
    + intros n [<- | Hn]; [| apply Hrest, Hn].
      apply Hmono. unfold pick.
      destruct (PrimFloat.ltb (load curr) (load acc)) eqn:Hlt;
        [apply NumberFacts.ltb_irrefl | exact Hlt].
Qed.

Section Facts.
Context `{Host}.
Variable this : Mesh.
Variable random : float.
Variable sendTaskToNode : gmap string jsval -> AgentNode -> outcome jsval.
Variable now : Z.

(** C6, as amended: the available flag of the nodes is not consulted.
    Under ['round-robin'] the selected node is the configured node at
    index [Math.floor(Math.random() * length)], whatever its flag; under
    ['load-based'] it is a configured node whose load no node undercuts,
    hence one of lowest load when no load is [NaN]; under any other policy
    it is the first node; whichever the policy, a selected node is one of
    the configured nodes.  When there are no nodes, [routeTask] raises
    ['No available nodes for task routing'] and contacts nobody; when a
    node is selected, the task is sent to that node and to no other. *)
Theorem selectNode_policy (task : gmap string jsval) :
  (forall node, selectNode this random task = Some node ->
                In node (networkNodes this))
  /\ (routingStrategy this = "round-robin" ->
      selectNode this random task =
        (i ← floor_index (random * of_nat (length (networkNodes this)));
         networkNodes this !! i))
  /\ (routingStrategy this = "load-based" -> networkNodes this <> [] ->
      exists node,
        selectNode this random task = Some node
        /\ forall other, In other (networkNodes this) ->
             PrimFloat.ltb (load other) (load node) = false
             /\ (is_nan (load other) = false -> is_nan (load node) = false ->
                 PrimFloat.leb (load node) (load other) = true))
  /\ (routingStrategy this <> "round-robin" ->
      routingStrategy this <> "load-based" ->
      selectNode this random task = head (networkNodes this))
  /\ (forall log,
        match selectNode this random task with
        | None =>
          routeTask this random sendTaskToNode task log
          = (Thrown "No available nodes for task routing", log)
        | Some node =>
          routeTask this random sendTaskToNode task log
          = (r ← sendTaskToNode task node;
             Returned {| Routing.nodeId := id node;
                         Routing.taskId := get task "id";
                         Routing.result := r |},
             (log ++ [TaskSent task node])%list)
        end)
  /\ (networkNodes this = [] ->
      forall log,
        routeTask this random sendTaskToNode task log
        = (Thrown "No available nodes for task routing", log)).
Proof.
  assert (Hload : routingStrategy this = "load-based" ->
                  forall first rest, networkNodes this = first :: rest ->
                  selectNode this random task = Some (fold_left pick rest first)).
  { intros Hs first rest Hn. unfold selectNode. rewrite Hn, Hs. reflexivity. }
  split; [| split; [| split; [| split; [| split]]]].
  - intros node. unfold selectNode.
    destruct (networkNodes this) as [|first rest] eqn:Hn; [discriminate |].
    destruct (String.eqb (routingStrategy this) "round-robin").
    + destruct (floor_index _) as [i|]; [| discriminate]. simpl.
      intros Hi. apply (proj1 (list_elem_of_In (first :: rest) node)).
      eapply list_elem_of_lookup_2, Hi.
    + destruct (String.eqb (routingStrategy this) "load-based").
      * intros [= <-]. unfold reduce.
        destruct (fold_pick rest first) as ([Heq | Hin] & _).
        -- left. symmetry. exact Heq.
        -- right. exact Hin.
      * intros [= <-]. left. reflexivity.
  - intros Hs. unfold selectNode. rewrite Hs. simpl.
    destruct (networkNodes this) as [|first rest]; [| reflexivity].
    destruct (floor_index _); reflexivity.
  - intros Hs Hne. destruct (networkNodes this) as [|first rest] eqn:Hn;
      [contradiction |].
    exists (fold_left pick rest first). split; [now apply Hload |].
    destruct (fold_pick rest first) as (_ & Hmono & Hrest).
    assert (Hlow : forall other, In other (first :: rest) ->
              PrimFloat.ltb (load other) (load (fold_left pick rest first)) = false).
    { intros other [<- | Hin]; [| now apply Hrest].
      apply Hmono, NumberFacts.ltb_irrefl. }
    intros other Hother. split; [now apply Hlow |].
    intros Ho Hn'. apply NumberFacts.ltb_false_leb; auto.
  - intros Hrr Hlb. unfold selectNode.
    destruct (networkNodes this) as [|first rest]; [reflexivity |].
    apply String.eqb_neq in Hrr, Hlb. now rewrite Hrr, Hlb.
  - intros log. unfold routeTask.
    destruct (selectNode this random task) as [node|]; [| reflexivity].
    unfold andThen, perform, await, pure. simpl.
    destruct (sendTaskToNode task node); reflexivity.
  - intros Hn log. unfold routeTask, selectNode. now rewrite Hn.
Qed.

(** C3: a recipients list whose shares do not total exactly 100 makes
    [splitPayment] raise before any transfer is executed, so that none of
    the set is; a list whose shares total exactly 100 raises no error and
    a transfer is executed for every recipient, in order.  The total is
    the sum the code forms, [recipients.reduce((sum, r) => sum + r.share,
    0)], compared with [!== 100]. *)
Theorem splitPayment_all_or_nothing
    (payment : Payment) (recipients : list (gmap string jsval)) (log : list event) :
  (strict_eq (totalShares recipients) (JNum 100) = false ->
   splitPayment now payment recipients log
   = (Thrown "Payment shares must total 100%", log))
  /\ (strict_eq (totalShares recipients) (JNum 100) = true ->
      exists result,
        splitPayment now payment recipients log
        = (Returned result,
           (log ++ map (fun r => PaymentExecuted (split_of payment r))
                       recipients)%list)
        /\ length (SplitResult.splits result) = length recipients).
Proof.
  unfold splitPayment. split; intros ->; simpl; [reflexivity |].
  unfold andThen, pure. rewrite all_executePayment, !map_map.
  eexists. split; [reflexivity |].
  simpl. now rewrite length_map.
Qed.

(** C7, as amended: for every payment and recipients list that
    [splitPayment] accepts, the transfer of each recipient has the amount
    [(payment.amount * share / 100).toFixed(6)], the asset of the payment
    and the recipient's [address] as its [to]; the amount is written with
    exactly 6 decimals whenever the quotient is finite and below 10^21 in
    magnitude.  In particular the payment [{amount: 100, asset: "USDC"}]
    split over [{address: "A", share: 60}] and [{address: "B", share: 40}]
    yields [60.000000] to A and [40.000000] to B, each in USDC. *)
Theorem splitPayment_amounts
    (payment : Payment) (recipients : list (gmap string jsval)) (log : list event) :
  (forall result log',
     splitPayment now payment recipients log = (Returned result, log') ->
     SplitResult.splits result =
       map (fun r =>
              transfer (get r "address")
                       (toFixed 6 (mul (amount payment) (get r "share") / 100))
                       (asset payment)
                       ("Payment split: " ++ to_string (get r "share") ++ "%"))
           recipients
     /\ forall r, In r recipients ->
          let quotient := (mul (amount payment) (get r "share") / 100)%float in
          finite quotient = true ->
          PrimFloat.leb 1e21 (abs quotient) = false ->
          fixed_point 6 (toFixed 6 quotient))
  /\ splitPayment now example_payment address_recipients log
     = (Returned
          {| SplitResult.originalAmount := JNum 100;
             SplitResult.splits :=
               [transfer (JStr "A") "60.000000" (JStr "USDC") "Payment split: 60%";
                transfer (JStr "B") "40.000000" (JStr "USDC") "Payment split: 40%"];
             SplitResult.timestamp := now |},
        (log ++ [PaymentExecuted
                   {| Split.to := JStr "A"; Split.amount := "60.000000";
                      Split.asset := JStr "USDC";
                      Split.memo := "Payment split: 60%" |};
                 PaymentExecuted
                   {| Split.to := JStr "B"; Split.amount := "40.000000";
                      Split.asset := JStr "USDC";
                      Split.memo := "Payment split: 40%" |}])%list).
Proof.
  split.
  - intros result log'. unfold splitPayment.
    destruct (negb _); [discriminate |].
    unfold andThen, pure. rewrite all_executePayment. intros [= <- _].
    split.
    + simpl. rewrite map_map. reflexivity.
    + intros r _. cbv zeta. intros Hfinite Hsmall.
      now apply NumberFacts.toFixed_format.
  - unfold splitPayment.
    assert (Htotal : negb (strict_eq (totalShares address_recipients) (JNum 100))
                     = false) by (vm_compute; reflexivity).
    rewrite Htotal. unfold andThen, pure. rewrite all_executePayment.
    vm_compute. reflexivity.
Qed.

End Facts.

(** Routing by load picks the node with the least load. *)
Lemma selectNode_policy_witness :
  routingStrategy loaded_mesh = "load-based"
  /\ networkNodes loaded_mesh <> []
  /\ exists node,
       selectNode loaded_mesh 0.5 ∅ = Some node
       /\ id node = "node-2"
       /\ PrimFloat.ltb (load busy_node) (load node) = false.
Proof.
  split; [reflexivity |]. split; [discriminate |].
  destruct (selectNode_policy loaded_mesh 0.5 (fun _ _ => Returned JNull) ∅)
    as (_ & _ & Hload & _).
  destruct (Hload eq_refl ltac:(discriminate)) as (node & Hselected & Hlowest).
  exists node. split; [exact Hselected |]. split.
  - vm_compute in Hselected. now injection Hselected as <-.
  - apply Hlowest. left. reflexivity.
Defined.

(** Shares of 60 and 30 are refused before anything is paid; shares of
    60 and 40 are paid out, both of them. *)
Lemma splitPayment_all_or_nothing_witness :
  strict_eq (totalShares (H := plain_host) short_recipients) (JNum 100) = false
  /\ splitPayment (H := plain_host) 0 example_payment short_recipients []
     = (Thrown "Payment shares must total 100%", [])
  /\ strict_eq (totalShares (H := plain_host) address_recipients) (JNum 100) = true
  /\ length (splitPayment (H := plain_host) 0 example_payment
                          address_recipients []).2 = 2%nat.
Proof.
  assert (Hshort : strict_eq (totalShares (H := plain_host) short_recipients)
                             (JNum 100) = false) by (vm_compute; reflexivity).
  assert (Hfull : strict_eq (totalShares (H := plain_host) address_recipients)
                            (JNum 100) = true) by (vm_compute; reflexivity).
  destruct (splitPayment_all_or_nothing (H := plain_host) 0 example_payment
              short_recipients []) as (Hrefused & _).
  destruct (splitPayment_all_or_nothing (H := plain_host) 0 example_payment
              address_recipients []) as (_ & Hpaid).
  split; [exact Hshort |]. split; [exact (Hrefused Hshort) |].
  split; [exact Hfull |].
  destruct (Hpaid Hfull) as (result & -> & _). reflexivity.
Defined.

(** The share of the first recipient of the example is written with 6
    decimals. *)
Lemma splitPayment_amounts_witness :
  let r : gmap string jsval := {[ "address" := JStr "A"; "share" := JNum 60 ]} in
  let quotient :=
    (mul (H := plain_host) (amount example_payment) (get r "share") / 100)%float in
  finite quotient = true
  /\ PrimFloat.leb 1e21 (abs quotient) = false
  /\ toFixed (H := plain_host) 6 quotient = "60.000000"
  /\ fixed_point 6 (toFixed (H := plain_host) 6 quotient).
Proof.
  intros r quotient.
  assert (Hfinite : finite quotient = true) by (vm_compute; reflexivity).
  assert (Hsmall : PrimFloat.leb 1e21 (abs quotient) = false)
    by (vm_compute; reflexivity).
  split; [exact Hfinite |]. split; [exact Hsmall |].
  split; [vm_compute; reflexivity |].
  destruct (splitPayment_amounts (H := plain_host) 0 example_payment
              address_recipients []) as (Hamounts & Hrun).
  destruct (Hamounts _ _ Hrun) as (_ & Hformat).
  exact (Hformat r (or_introl eq_refl) Hfinite Hsmall).
Defined.

(** C6 as stated fails on a mesh whose only node is flagged unavailable:
    round-robin selects it. *)
Lemma unavailable_node_selected_counterexample :
  selectNode busy_mesh 0.25 ∅ = Some busy_node
  /\ available busy_node = false.
Proof. split; vm_compute; reflexivity. Qed.

(** A rendering with decimals contains a point. *)
Lemma fixed_point_has_point (f : nat) (s : string) :
  fixed_point f s -> In "."%char (list_ascii_of_string s).
Proof.
  intros (negative & whole & fraction & -> & _).
  rewrite !StringFacts.chars_app. apply in_or_app. right.
  apply in_or_app. right. left. reflexivity.
Qed.

(** C7 as stated fails on its own example: the recipients of the
    specification carry their address under [to], which the code does not
    read, and the transfers go to [undefined].  Nor is every amount
    written with 6 decimals: an amount of [NaN], as [parseFloat] yields on
    a malformed payment header, is split into transfers of ["NaN"]. *)
Lemma spec_recipients_counterexample :
  (splitPayment (H := plain_host) 0 example_payment spec_recipients []).1
  = Returned
      {| SplitResult.originalAmount := JNum 100;
         SplitResult.splits :=
           [transfer JUndefined "60.000000" (JStr "USDC") "Payment split: 60%";
            transfer JUndefined "40.000000" (JStr "USDC") "Payment split: 40%"];
         SplitResult.timestamp := 0 |}
  /\ JUndefined <> JStr "A"
  /\ (splitPayment (H := plain_host) 0
        {| amount := JNum nan; asset := JStr "USDC" |}
        [ {[ "address" := JStr "A"; "share" := JNum 100 ]} ] []).1
     = Returned
         {| SplitResult.originalAmount := JNum nan;
            SplitResult.splits :=
              [transfer (JStr "A") "NaN" (JStr "USDC") "Payment split: 100%"];
            SplitResult.timestamp := 0 |}
  /\ ~ fixed_point 6 "NaN".
Proof.
  split; [vm_compute; reflexivity |]. split; [discriminate |].
  split; [vm_compute; reflexivity |].
  intros Hfixed. apply fixed_point_has_point in Hfixed. simpl in Hfixed.
  intuition discriminate.
Qed.

End AgentMeshFacts.

(* ===================================================================== *)
(** ** TaskOrchestrator.requestRenderService *)
(* ===================================================================== *)

Module TaskOrchestratorFacts.
Import TaskOrchestrator TaskOrchestratorSpec.

Lemma strict_eq_string (v : jsval) (s : string) :
  strict_eq v (JStr s) = true <-> v = JStr s.
Proof.
  destruct v; simpl; try (split; [discriminate | intros [=]]).
  rewrite String.eqb_eq. split; [now intros -> | now intros [=]].
Qed.

Section Facts.
Context `{Host}.
Variable pay : PaymentRequest -> outcome PaymentTx.
Variable defaultConfirmations : float.
Variable randomUUID : string.
Variable fetch : Notification.t -> outcome Response.
Variable config : RenderConfig.t.

#[local] Abbreviation request := (renderPayment randomUUID config).
#[local] Abbreviation attempt :=
  (JS.run (requestRenderService pay defaultConfirmations randomUUID fetch config)).

(** C8: the agent is notified only after the confirmation wait of the
    payment returned a receipt with status ['confirmed'].  In every
    execution in which it did not (the payment failed, the wait raised,
    as it does on a confirmation timeout, or the receipt has another
    status) the operation raises and no notification is made; wherever a
    notification is made, it is the action that follows the payment and
    the confirmed wait. *)
(** The actions an attempt performs and how it completes, by cases on
    what the wallet and the agent answer. *)
Lemma requestRenderService_run :
  attempt =
    match pay request with
    | Thrown message => (Thrown message, [Paid request])
    | Returned paymentTx =>
      match wait paymentTx defaultConfirmations with
      | Thrown message =>
        (Thrown message, [Paid request; Waited defaultConfirmations])
      | Returned receipt =>
        if strict_eq (get receipt "status") (JStr "confirmed") then
          (response ← fetch (notification paymentTx config);
           _ ← (if negb (ok response)
                then Thrown ("Agent notification failed: " ++ statusText response)
                else json response);
           Returned {| Result.success := true;
                       Result.txHash := hash paymentTx;
                       Result.jobId := get (metadata paymentTx) "jobId" |},
           [Paid request; Waited defaultConfirmations;
            Notified (notification paymentTx config)])
        else
          (Thrown "Payment confirmation failed",
           [Paid request; Waited defaultConfirmations])
      end
    end.
Proof.
  unfold JS.run, requestRenderService, catch, andThen, perform, await, throw.
  simpl. destruct (pay request) as [paymentTx|message]; simpl; [| reflexivity].
  destruct (wait paymentTx defaultConfirmations) as [receipt|message]; simpl;
    [| reflexivity].
  destruct (strict_eq (get receipt "status") (JStr "confirmed")); [| reflexivity].
  unfold notifyRenderAgent, andThen, perform, await, throw, pure. simpl.
  destruct (fetch (notification paymentTx config)) as [response|message];
    simpl; [| reflexivity].
  destruct (negb (ok response)); simpl; [reflexivity |].
  destruct (json response); reflexivity.
Qed.

(** C8: the agent is notified only after the confirmation wait of the
    payment returned a receipt with status ['confirmed'].  In every
    execution in which it did not (the payment failed, the wait raised,
    as it does on a confirmation timeout, or the receipt has another
    status) the operation raises and no notification is made; wherever a
    notification is made, it is the action that follows the payment and
    the confirmed wait. *)
Theorem notify_only_after_confirmation :
  (~ confirmed pay defaultConfirmations request ->
   raised attempt.1 = true /\ notifications attempt.2 = [])
  /\ (forall paymentTx message,
        pay request = Returned paymentTx ->
        wait paymentTx defaultConfirmations = Thrown message ->
        attempt = (Thrown message, [Paid request; Waited defaultConfirmations]))
  /\ (forall paymentTx receipt,
        pay request = Returned paymentTx ->
        wait paymentTx defaultConfirmations = Returned receipt ->
        get receipt "status" <> JStr "confirmed" ->
        attempt = (Thrown "Payment confirmation failed",
                   [Paid request; Waited defaultConfirmations]))
  /\ (forall payload,
        In (Notified payload) attempt.2 ->
        confirmed pay defaultConfirmations request
        /\ attempt.2 = [Paid request; Waited defaultConfirmations;
                        Notified payload]).
Proof.
  rewrite requestRenderService_run. unfold confirmed.
  destruct (pay request) as [paymentTx|message] eqn:Hpay;
    [destruct (wait paymentTx defaultConfirmations) as [receipt|message] eqn:Hwait;
     [destruct (strict_eq (get receipt "status") (JStr "confirmed")) eqn:Hstatus;
      [apply strict_eq_string in Hstatus
      |assert (Hne : get receipt "status" <> JStr "confirmed")
         by (intros E; apply strict_eq_string in E; congruence)] |] |];
    (split; [| split; [| split]]).
  all: try (intros Hnot; split; reflexivity).
  all: try (intros Hnot; exfalso; apply Hnot; eauto; fail).
  all: try (intros ? ? [= <-] Hw; rewrite Hwait in Hw; congruence).
  all: try (intros ? ? [= <-] Hw Hs; rewrite Hwait in Hw;
            first [reflexivity | congruence]).
  all: try (intros ? ? [=]; fail).
  all: try (intros payload Hin; simpl in Hin; intuition congruence).
  all: try (intros payload Hin; simpl in Hin;
            destruct Hin as [[=] | [[=] | [[= <-] | []]]];
            split; [eauto | reflexivity]).
Qed.

End Facts.

(** A payment whose confirmation wait times out: the operation raises the
    timeout and the agent hears nothing. *)
Lemma notify_only_after_confirmation_witness :
  ~ confirmed stalled_wallet 2 (renderPayment (H := plain_host) "uuid-1" example_config)
  /\ JS.run (requestRenderService (H := plain_host) stalled_wallet 2 "uuid-1"
               accepting_agent example_config)
     = (Thrown "Transaction confirmation timeout",
        [Paid (renderPayment (H := plain_host) "uuid-1" example_config);
         Waited 2]).
Proof.
  split.
  - intros (paymentTx & receipt & [= <-] & [=] & _).
  - destruct (notify_only_after_confirmation (H := plain_host) stalled_wallet 2
                "uuid-1" accepting_agent example_config)
      as (_ & Htimeout & _).
    eapply Htimeout; reflexivity.
Defined.

End TaskOrchestratorFacts.

(* ===================================================================== *)
(** ** AgentWallet.waitForConfirmation *)
(* ===================================================================== *)

Module AgentWalletFacts.
Import AgentWallet AgentWalletSpec.

Lemma spread_status (receipt : gmap string jsval) :
  (forall status, receipt !! "status" = Some status ->
                  spread_over_confirmed receipt !! "status" = Some status)
  /\ (receipt !! "status" = None ->
      spread_over_confirmed receipt !! "status" = Some (JStr "confirmed"))
  /\ (forall key, key <> "status" ->
                  spread_over_confirmed receipt !! key = receipt !! key).
Proof.
  unfold spread_over_confirmed. repeat split.
  - intros status Hs. now apply lookup_union_Some_l.
  - intros Hs. rewrite lookup_union_r by assumption. apply lookup_singleton_eq.
  - intros key Hk. rewrite lookup_union, lookup_singleton_ne by congruence.
    destruct (receipt !! key); reflexivity.
Qed.

Section Facts.
Context `{Host}.
Variable getTransactionReceipt : string -> Z -> outcome (option (gmap string jsval)).
Variable lag : Z -> N.
Variable txHash : string.

#[local] Abbreviation answer t := (getTransactionReceipt txHash t).

Lemma poll_unfold required maxWait startTime now :
  poll getTransactionReceipt lag txHash required maxWait startTime now =
    if now - startTime <? maxWait then
      match answer now with
      | Thrown message => Thrown message
      | Returned (Some receipt) =>
        if at_least (get receipt "confirmations") (JNum required)
        then Returned (spread_over_confirmed receipt)
        else poll getTransactionReceipt lag txHash required maxWait startTime
                  (now + 2000 + Z.of_N (lag now))
      | Returned None =>
        poll getTransactionReceipt lag txHash required maxWait startTime
             (now + 2000 + Z.of_N (lag now))
      end
    else Thrown "Transaction confirmation timeout".
Proof.
  funelim (poll getTransactionReceipt lag txHash required maxWait startTime now);
    clear Heqcall;
    repeat match goal with
           | Hlt : ?a < ?b |- context [?a <? ?b] =>
             rewrite (proj2 (Z.ltb_lt a b) Hlt)
           | Hge : ~ ?a < ?b |- context [?a <? ?b] =>
             rewrite (proj2 (Z.ltb_ge a b) (proj1 (Z.nlt_ge a b) Hge))
           | Heq : getTransactionReceipt ?x ?t = _
             |- context [getTransactionReceipt ?x ?t] => rewrite Heq
           | Heq : at_least ?a ?b = _ |- context [at_least ?a ?b] => rewrite Heq
           end; reflexivity.
Qed.

Lemma poll_time_shift (t : Z) (n : nat) :
  poll_time lag t (S n) = poll_time lag (t + 2000 + Z.of_N (lag t)) n.
Proof. induction n as [|n IH]; [reflexivity |]. simpl in *. now rewrite IH. Qed.

Lemma poll_time_increasing (t : Z) (i n : nat) :
  (i <= n)%nat -> poll_time lag t i <= poll_time lag t n.
Proof. induction 1 as [|n _ IH]; simpl; lia. Qed.

(** While the ledger's answers are pending, the loop moves on to the
    next instant. *)
Lemma poll_skip required maxWait startTime (t : Z) (n : nat) :
  (forall i, (i < n)%nat -> pending required (answer (poll_time lag t i))) ->
  poll_time lag t n - startTime < maxWait ->
  poll getTransactionReceipt lag txHash required maxWait startTime t
  = poll getTransactionReceipt lag txHash required maxWait startTime
         (poll_time lag t n).
Proof.
  revert t. induction n as [|n IH]; intros t Hpending Hwindow; [reflexivity |].
  rewrite poll_time_shift in *.
  rewrite <- IH; [| | assumption].
  - rewrite (poll_unfold _ _ _ t).
    assert (Ht : t - startTime < maxWait).
    { pose proof (poll_time_increasing t 0 (S n) ltac:(lia)) as Hle.
      rewrite poll_time_shift in Hle. simpl in Hle. lia. }
    rewrite (proj2 (Z.ltb_lt _ _) Ht).
    destruct (Hpending O ltac:(lia)) as [Hnone | (receipt & Hsome & Hfew)];
      simpl in *.
    + now rewrite Hnone.
    + now rewrite Hsome, Hfew.
  - intros i Hi. rewrite <- poll_time_shift. apply Hpending. lia.
Qed.

Lemma poll_returned required maxWait startTime now result :
  poll getTransactionReceipt lag txHash required maxWait startTime now
  = Returned result ->
  exists (n : nat) receipt,
    (forall i, (i < n)%nat -> pending required (answer (poll_time lag now i)))
    /\ poll_time lag now n - startTime < maxWait
    /\ answer (poll_time lag now n) = Returned (Some receipt)
    /\ at_least (get receipt "confirmations") (JNum required) = true
    /\ result = spread_over_confirmed receipt.
Proof.
  funelim (poll getTransactionReceipt lag txHash required maxWait startTime now);
    try discriminate; intros Hr.
  - destruct (H0 _ Hr) as (n & receipt & Hpending & Hwindow & Hanswer & Hrest).
    exists (S n), receipt. rewrite poll_time_shift.
    split; [| split; [| split]]; try assumption.
    intros [|i] Hi; [left; assumption |].
    rewrite poll_time_shift. apply Hpending. lia.
  - injection Hr as <-. exists O, receipt. simpl.
    split; [| split; [| split; [| split]]]; try assumption; try reflexivity.
    intros i Hi. lia.
  - destruct (H0 _ Hr) as (n & receipt' & Hpending & Hwindow & Hanswer & Hrest).
    exists (S n), receipt'. rewrite poll_time_shift.
    split; [| split; [| split]]; try assumption.
    intros [|i] Hi; [right; eauto |].
    rewrite poll_time_shift. apply Hpending. lia.
Qed.

Variable startTime : Z.
Variable options : WaitOptions.

#[local] Abbreviation required := (requiredConfirmations options).

(** C10: [waitForConfirmation] returns exactly when a poll made within
    the window, all polls before it being pending, finds a receipt with
    the confirmations asked for, and what it returns is that receipt's
    own properties spread over [{status: 'confirmed'}]: a receipt that
    carries a [status] keeps its own status, whatever it is, and only a
    receipt without a [status] property comes back with status
    ['confirmed']; every other property is the receipt's. *)
Theorem waitForConfirmation_status :
  (forall (n : nat) receipt,
     (forall i, (i < n)%nat ->
                pending required (answer (poll_time lag startTime i))) ->
     poll_time lag startTime n - startTime < maxWait options ->
     answer (poll_time lag startTime n) = Returned (Some receipt) ->
     at_least (get receipt "confirmations") (JNum required) = true ->
     waitForConfirmation getTransactionReceipt lag startTime txHash options
     = Returned (spread_over_confirmed receipt))
  /\ (forall result,
        waitForConfirmation getTransactionReceipt lag startTime txHash options
        = Returned result ->
        exists (n : nat) receipt,
          (forall i, (i < n)%nat ->
                     pending required (answer (poll_time lag startTime i)))
          /\ poll_time lag startTime n - startTime < maxWait options
          /\ answer (poll_time lag startTime n) = Returned (Some receipt)
          /\ at_least (get receipt "confirmations") (JNum required) = true
          /\ result = spread_over_confirmed receipt)
  /\ (forall receipt : gmap string jsval,
        (forall status, receipt !! "status" = Some status ->
                        spread_over_confirmed receipt !! "status" = Some status)
        /\ (receipt !! "status" = None ->
            spread_over_confirmed receipt !! "status" = Some (JStr "confirmed"))
        /\ (forall key, key <> "status" ->
                        spread_over_confirmed receipt !! key = receipt !! key)).
Proof.
  unfold waitForConfirmation. repeat split.
  - intros n receipt Hpending Hwindow Hanswer Henough.
    rewrite (poll_skip _ _ _ _ n) by assumption.
    rewrite poll_unfold. rewrite (proj2 (Z.ltb_lt _ _) Hwindow).
    rewrite Hanswer, Henough.
    reflexivity.
  - intros result. apply poll_returned.
  - now apply spread_status.
  - now apply spread_status.
  - now apply spread_status.
Qed.

End Facts.

(** A receipt that has the confirmations asked for and says ['pending']
    comes back saying ['pending']; one without a status comes back
    ['confirmed']. *)
Lemma waitForConfirmation_status_witness :
  at_least (H := plain_host) (get pending_receipt "confirmations")
           (JNum (requiredConfirmations default_options)) = true
  /\ waitForConfirmation (H := plain_host) (fun _ _ => Returned (Some pending_receipt))
       (fun _ => 0%N) 1700000000000 "0xabc" default_options
     = Returned (spread_over_confirmed pending_receipt)
  /\ spread_over_confirmed pending_receipt !! "status" = Some (JStr "pending")
  /\ spread_over_confirmed bare_receipt !! "status" = Some (JStr "confirmed").
Proof.
  destruct (waitForConfirmation_status (H := plain_host)
              (fun _ _ => Returned (Some pending_receipt)) (fun _ => 0%N)
              "0xabc" 1700000000000 default_options)
    as (Hreturns & _ & Hspread).
  assert (Henough : at_least (H := plain_host) (get pending_receipt "confirmations")
                      (JNum (requiredConfirmations default_options)) = true)
    by (vm_compute; reflexivity).
  split; [exact Henough |]. split; [| split].
  - apply (Hreturns O pending_receipt).
    + intros i Hi. lia.
    + vm_compute. reflexivity.
    + reflexivity.
    + exact Henough.
  - apply (proj1 (Hspread pending_receipt)). vm_compute. reflexivity.
  - apply (proj1 (proj2 (Hspread bare_receipt))). vm_compute. reflexivity.
Defined.

End AgentWalletFacts.

(* ===================================================================== *)
(** ** ProofEngine: proofs and audit summaries *)
(* ===================================================================== *)

Module ProofEngineFacts.
Import ProofEngine ProofEngineSpec.

(** *** Quoted strings can be read back *)

Lemma unescape_escape (c : ascii) (rest : string) :
  unescape (escape c ++ rest) = Some (c, rest).
Proof. destruct c as [[] [] [] [] [] [] [] []]; reflexivity. Qed.

Lemma escape_not_empty (c : ascii) : (0 < String.length (escape c))%nat.
Proof. destruct c as [[] [] [] [] [] [] [] []]; simpl; lia. Qed.

Lemma escape_all_inj (s s' t : string) :
  escape_all s ++ t = escape_all s' ++ t -> s = s'.
Proof.
  revert s'. induction s as [|c s IH]; intros [|c' s'] E; simpl in E.
  - reflexivity.
  - apply (f_equal String.length) in E.
    rewrite !StringFacts.length_app in E.
    pose proof (escape_not_empty c'). simpl in E. lia.
  - apply (f_equal String.length) in E.
    rewrite !StringFacts.length_app in E.
    pose proof (escape_not_empty c). simpl in E. lia.
  - rewrite !StringFacts.app_assoc in E.
    apply (f_equal unescape) in E. rewrite !unescape_escape in E.
    injection E as -> E. f_equal. now apply IH.
Qed.

Lemma quote_inj (s s' t : string) : quote s ++ t = quote s' ++ t -> s = s'.
Proof.
  unfold quote. simpl. intros [= E].
  rewrite !StringFacts.app_assoc in E. now apply escape_all_inj in E.
Qed.

Lemma quote_injective (s s' : string) : quote s = quote s' -> s = s'.
Proof.
  intros E. apply (quote_inj s s' ""). now rewrite E.
Qed.

Lemma quote_length (s : string) : (2 <= String.length (quote s))%nat.
Proof.
  unfold quote. simpl. rewrite StringFacts.length_app. simpl. lia.
Qed.

(** *** The serialization of an object *)

Lemma join_cons (part : string) (parts : list string) :
  join "," (part :: parts) = part ++ trail parts.
Proof.
  revert part. induction parts as [|next parts IH]; intros part.
  - simpl. symmetry. apply StringFacts.app_nil_r.
  - change (join "," (part :: next :: parts))
      with (part ++ "," ++ join "," (next :: parts)).
    rewrite IH. reflexivity.
Qed.

Lemma join_middle (before : list string) (part : string) (after : list string) :
  join "," (before ++ part :: after) = lead before ++ part ++ trail after.
Proof.
  induction before as [|first before IH].
  - apply join_cons.
  - change ((first :: before) ++ part :: after)%list
      with (first :: (before ++ part :: after))%list.
    rewrite join_cons. simpl.
    destruct (before ++ part :: after)%list as [|next others] eqn:E.
    + now destruct before.
    + simpl. rewrite <- join_cons, IH, !StringFacts.app_assoc. reflexivity.
Qed.

Lemma trail_length (parts : list string) :
  String.length (trail parts) = (total_length parts + length parts)%nat.
Proof.
  induction parts as [|part parts IH]; [reflexivity |].
  change (trail (part :: parts)) with ("," ++ part ++ trail parts).
  rewrite !StringFacts.length_app, IH. simpl. lia.
Qed.

Lemma join_length (parts : list string) :
  String.length (join "," parts)
  = (total_length parts + (length parts - 1))%nat.
Proof.
  destruct parts as [|part parts]; [reflexivity |].
  rewrite join_cons, StringFacts.length_app, trail_length. simpl. lia.
Qed.

Lemma total_length_app (a b : list string) :
  total_length (a ++ b) = (total_length a + total_length b)%nat.
Proof. induction a as [|x a IH]; simpl; [reflexivity | rewrite IH; lia]. Qed.

Section Serialization.
Context `{Host}.

Lemma stringify_Obj (members : list (string * value)) :
  stringify (Obj members)
  = Some ("{" ++ join "," (stringify_members members) ++ "}").
Proof.
  reflexivity.
Qed.

Lemma stringify_object_eq (members : list (string * value)) :
  stringify_object members = "{" ++ join "," (stringify_members members) ++ "}".
Proof. unfold stringify_object. now rewrite stringify_Obj. Qed.

Lemma stringify_members_app (a b : list (string * value)) :
  stringify_members (a ++ b) = (stringify_members a ++ stringify_members b)%list.
Proof.
  induction a as [|[k v] a IH]; [reflexivity |].
  simpl. destruct (stringify v); simpl; now rewrite IH.
Qed.

(** Replacing the value of one member changes the serialization of the
    object exactly when it changes the serialization of that member. *)
Lemma member_mutation (pre : list (string * value)) (key : string)
    (v v' : value) (post : list (string * value)) :
  stringify_object (pre ++ (key, v') :: post)
  = stringify_object (pre ++ (key, v) :: post)
  <-> stringify v' = stringify v.
Proof.
  rewrite !stringify_object_eq, !stringify_members_app. simpl. split.
  - intros E. injection E as E.
    destruct (stringify v') as [s'|] eqn:Hv', (stringify v) as [s|] eqn:Hv.
    + rewrite !join_middle, !StringFacts.app_assoc in E.
      apply (StringFacts.app_inv_head (lead (stringify_members pre))) in E.
      apply (StringFacts.app_inv_head (quote key)) in E.
      injection E as E.
      apply (StringFacts.app_inv_tail _ _ (trail (stringify_members post) ++ "}"))
        in E.
      now subst.
    + exfalso. apply (StringFacts.app_inv_tail _ _ "}") in E.
      apply (f_equal String.length) in E.
      rewrite !join_length, !total_length_app, !length_app in E. simpl in E.
      rewrite !StringFacts.length_app in E. simpl in E.
      pose proof (quote_length key). lia.
    + exfalso. apply (StringFacts.app_inv_tail _ _ "}") in E.
      apply (f_equal String.length) in E.
      rewrite !join_length, !total_length_app, !length_app in E. simpl in E.
      rewrite !StringFacts.length_app in E. simpl in E.
      pose proof (quote_length key). lia.
    + reflexivity.
  - intros ->. reflexivity.
Qed.

Lemma nested_mutation (pre : list (string * value)) (key : string)
    (v v' : value) (post : list (string * value)) :
  stringify (Obj (pre ++ (key, v') :: post))
  = stringify (Obj (pre ++ (key, v) :: post))
  <-> stringify v' = stringify v.
Proof.
  split; intros E.
  - apply (member_mutation pre key v v' post). unfold stringify_object.
    now rewrite E.
  - apply (member_mutation pre key v v' post) in E.
    rewrite !stringify_Obj, <- !stringify_object_eq. now rewrite E.
Qed.

Lemma stringify_string_inj (s s' : string) :
  stringify (Prim (JStr s')) = stringify (Prim (JStr s)) -> s' = s.
Proof.
  change (Some (quote s') = Some (quote s) -> s' = s).
  intros E. apply quote_injective. congruence.
Qed.

Lemma integer_rendering (x : float) (z : Z) :
  integer_value x = Some z -> Z.abs z < 2 ^ 53 ->
  stringify (Prim (JNum x)) = Some (pretty z).
Proof.
  intros Hz Hsmall. simpl. unfold finite, number_to_string. rewrite Hz.
  unfold integer_value in Hz.
  destruct (Prim2SF x) as [s|s| |s m e]; try discriminate;
    now rewrite (proj2 (Z.ltb_lt _ _) Hsmall).
Qed.

Lemma stringify_integer_inj (x x' : float) (z z' : Z) :
  integer_value x = Some z -> integer_value x' = Some z' ->
  Z.abs z < 2 ^ 53 -> Z.abs z' < 2 ^ 53 ->
  stringify (Prim (JNum x')) = stringify (Prim (JNum x)) -> z' = z.
Proof.
  intros Hz Hz' Hs Hs'.
  rewrite (integer_rendering x z), (integer_rendering x' z') by assumption.
  intros [= E]. now apply pretty_Z_inj in E.
Qed.

End Serialization.

(** *** Proofs *)

Section Proofs.
Context `{Host}.
Variable this : Engine.
Variable sha256 : string -> string.
Variable now : Z.

Hypothesis configured : algorithm this = "sha256".

Lemma hashProof_sha256 (data : list (string * value)) :
  hashProof this sha256 data = Returned (sha256 (stringify_object data)).
Proof. unfold hashProof. now rewrite configured. Qed.

Lemma verifyProof_iff (proof : Proof.t) :
  verifyProof this sha256 proof
  = Returned (String.eqb (sha256 (stringify_object (Proof.data proof)))
                         (Proof.hash proof)).
Proof.
  unfold verifyProof. rewrite hashProof_sha256. simpl.
  destruct (String.eqb _ _); [| reflexivity]. simpl.
  destruct (Proof.signature proof) as [signature|]; [| reflexivity].
  destruct (string_truthy signature); reflexivity.
Qed.

(** The proof [generateProof] returns when the proof store, if there is
    one, accepts it. *)
Lemma generateProof_returns (transaction : Transaction) (log : list event) :
  (forall store proof, proofStorage this = Some store -> store proof = Returned tt) ->
  exists proof log',
    generateProof this sha256 now transaction log = (Returned proof, log')
    /\ Proof.data proof = snapshot transaction
    /\ Proof.hash proof = sha256 (stringify_object (snapshot transaction))
    /\ (value_truthy (signer transaction) = true ->
        Proof.signature proof
        = Some ("sig_" ++ substring 0 16 (Proof.hash proof)))
    /\ (value_truthy (signer transaction) = false ->
        Proof.signature proof = None).
Proof.
  intros Hstore. unfold generateProof, andThen, await, pure, perform, signProof.
  rewrite !hashProof_sha256. simpl.
  destruct (value_truthy (signer transaction)); simpl;
    (destruct (proofStorage this) as [store|] eqn:Hs; simpl;
     [rewrite (Hstore store _ eq_refl) |];
     eexists _, _; (split; [reflexivity |]); simpl;
     repeat split; try reflexivity; discriminate).
Qed.

(** C5, as amended: on an engine configured for ['sha256'] whose proof
    store, if any, accepts the proof, [generateProof] returns for every
    transaction, with or without a signer, a proof on which [verifyProof]
    is [true] while its snapshot is untouched.  Once the snapshot is
    replaced, [verifyProof] is [false] whenever the serialization of the
    snapshot changed, the hash not colliding on the two serializations;
    replacing the value of one member, of the snapshot or of an object
    nested in it, changes the serialization exactly when it changes the
    serialization of that member, which every change of a string to
    another string and of a safe integer to another one does.  A
    replacement that [JSON.stringify] writes in the same way is not
    noticed. *)
Theorem proof_round_trip_and_tamper (transaction : Transaction) (log : list event) :
  (forall store proof, proofStorage this = Some store -> store proof = Returned tt) ->
  exists proof log',
    generateProof this sha256 now transaction log = (Returned proof, log')
    /\ Proof.data proof = snapshot transaction
    /\ verifyProof this sha256 proof = Returned true
    /\ (forall data',
          collision_free sha256 (stringify_object data')
                         (stringify_object (Proof.data proof)) ->
          stringify_object data' <> stringify_object (Proof.data proof) ->
          verifyProof this sha256 (with_data proof data') = Returned false)
    /\ (forall pre key v v' post,
          Proof.data proof = (pre ++ (key, v) :: post)%list ->
          let data' := (pre ++ (key, v') :: post)%list in
          (stringify v' <> stringify v ->
           stringify_object data' <> stringify_object (Proof.data proof))
          /\ (stringify v' = stringify v ->
              verifyProof this sha256 (with_data proof data') = Returned true))
    /\ (forall pre key v v' post,
          stringify (Obj (pre ++ (key, v') :: post))
          = stringify (Obj (pre ++ (key, v) :: post))
          <-> stringify v' = stringify v)
    /\ (forall s s', s' <> s ->
          stringify (Prim (JStr s')) <> stringify (Prim (JStr s)))
    /\ (forall x x' z z',
          integer_value x = Some z -> integer_value x' = Some z' ->
          Z.abs z < 2 ^ 53 -> Z.abs z' < 2 ^ 53 -> z' <> z ->
          stringify (Prim (JNum x')) <> stringify (Prim (JNum x))).
Proof.
  intros Hstore.
  destruct (generateProof_returns transaction log Hstore)
    as (proof & log' & Hrun & Hdata & Hhash & _).
  exists proof, log'. split; [exact Hrun |]. split; [exact Hdata |].
  split; [| split; [| split; [| split; [| split]]]].
  - rewrite verifyProof_iff, Hdata, Hhash. now rewrite String.eqb_refl.
  - intros data' Hfree Hchanged. rewrite verifyProof_iff. simpl.
    rewrite Hhash, <- Hdata. f_equal. apply String.eqb_neq.
    intros E. apply Hchanged, Hfree, E.
  - intros pre key v v' post Hshape data'. split.
    + intros Hv E. apply Hv. rewrite Hshape in E.
      now apply member_mutation in E.
    + intros Hv. rewrite verifyProof_iff. simpl. rewrite Hhash, <- Hdata, Hshape.
      unfold data'. rewrite (proj2 (member_mutation pre key v v' post) Hv).
      now rewrite String.eqb_refl.
  - intros pre key v v' post. apply nested_mutation.
  - intros s s' Hs E. apply Hs. now apply stringify_string_inj.
  - intros x x' z z' Hz Hz' Hsmall Hsmall' Hne E. apply Hne.
    now apply (stringify_integer_inj x x' z z').
Qed.

End Proofs.

Lemma toy_hash_injective (a b : string) : toy_hash a = toy_hash b -> a = b.
Proof. unfold toy_hash. now intros [= E]. Qed.

(** The proof of a signed transaction carries a signature and
    verifies. *)
Lemma proof_round_trip_and_tamper_witness :
  algorithm default_engine = "sha256"
  /\ (forall store proof,
        proofStorage default_engine = Some store -> store proof = Returned tt)
  /\ exists proof,
       generateProof (H := plain_host) default_engine toy_hash 1700000000001
                     example_transaction []
       = (Returned proof, [])
       /\ Proof.signature proof <> None
       /\ verifyProof (H := plain_host) default_engine toy_hash proof
          = Returned true.
Proof.
  split; [reflexivity |]. split; [intros store proof [=] |].
  destruct (proof_round_trip_and_tamper (H := plain_host) default_engine toy_hash
              1700000000001 eq_refl example_transaction []
              ltac:(intros store proof [=]))
    as (proof & log' & Hrun & _ & Hverify & _).
  exists proof. vm_compute in Hrun. injection Hrun as <- <-.
  split; [vm_compute; reflexivity |]. split; [discriminate | exact Hverify].
Defined.

(** C5 as stated fails on a transaction whose amount is [NaN]: replacing
    the amount of the snapshot by [Infinity] changes the field and leaves
    [verifyProof] at [true], although the hash is injective:
    [JSON.stringify] writes both as [null]. *)
Lemma nan_amount_mutation_counterexample :
  (forall a b, toy_hash a = toy_hash b -> a = b)
  /\ exists proof,
       generateProof (H := plain_host) default_engine toy_hash 1700000000001
                     malformed_transaction []
       = (Returned proof, [])
       /\ member "amount" (Proof.data proof) = Prim (JNum nan)
       /\ Prim (JNum infinity) <> Prim (JNum nan)
       /\ verifyProof (H := plain_host) default_engine toy_hash
            (with_data proof
               (assign "amount" (Prim (JNum infinity)) (Proof.data proof)))
          = Returned true.
Proof.
  split; [exact toy_hash_injective |].
  eexists. split; [vm_compute; reflexivity |].
  split; [reflexivity |]. split.
  - intros E. assert (Hnan : is_nan infinity = is_nan nan) by congruence.
    vm_compute in Hnan. discriminate.
  - vm_compute. reflexivity.
Qed.

(** *** Audit summaries *)

(** C9: [generateAuditSummary([])] returns the summary it starts from:
    no transactions, a total amount of 0, no key in the per-asset totals
    nor in the per-service counts, and the time range [{start: Infinity,
    end: 0}], which is empty: its end lies before its start and no number
    lies between them. *)
Theorem generateAuditSummary_empty `{Host} :
  generateAuditSummary [] =
    {| Summary.totalTransactions := 0;
       Summary.totalAmount := 0%float;
       Summary.assets := ∅;
       Summary.services := ∅;
       Summary.timeRange :=
         {| TimeRange.start := Prim (JNum infinity);
            TimeRange.end_ := Prim (JNum 0%float) |} |}
  /\ dom (Summary.assets (generateAuditSummary [])) = ∅
  /\ dom (Summary.services (generateAuditSummary [])) = ∅
  /\ less_than
       (to_primitive (TimeRange.end_ (Summary.timeRange (generateAuditSummary []))))
       (to_primitive (TimeRange.start (Summary.timeRange (generateAuditSummary []))))
     = true
  /\ forall t : float,
       ~ (PrimFloat.leb infinity t = true /\ PrimFloat.leb t 0 = true).
Proof.
  split; [reflexivity |]. split; [apply dom_empty_L |].
  split; [apply dom_empty_L |]. split; [vm_compute; reflexivity |].
  intros t [Hstart Hend]. rewrite FloatAxioms.leb_spec in Hstart, Hend.
  change (Prim2SF infinity) with (S754_infinity false) in Hstart.
  change (Prim2SF 0) with (S754_zero false) in Hend.
  unfold SFleb, SFcompare in Hstart, Hend.
  destruct (Prim2SF t) as [s|[]| |s m e]; discriminate.
Qed.

End ProofEngineFacts.

(* ===================================================================== *)
(** ** Numbers: [NaN] in arithmetic and comparisons *)
(* ===================================================================== *)

Module FloatFacts.

Lemma is_nan_Prim2SF (x : float) : is_nan x = true <-> Prim2SF x = S754_nan.
Proof.
  unfold is_nan. rewrite FloatAxioms.eqb_spec. unfold SFeqb, SFcompare.
  destruct (Prim2SF x) as [[]|[]| |[] m e]; simpl;
    rewrite ?Z.compare_refl, ?Pos.compare_cont_refl; simpl;
    split; try discriminate; try reflexivity.
Qed.

Lemma add_nan_l (x y : float) : is_nan x = true -> is_nan (x + y) = true.
Proof.
  rewrite !is_nan_Prim2SF, FloatAxioms.add_spec. intros ->.
  destruct (Prim2SF y); reflexivity.
Qed.

Lemma add_nan_r (x y : float) : is_nan y = true -> is_nan (x + y) = true.
Proof.
  rewrite !is_nan_Prim2SF, FloatAxioms.add_spec. intros ->.
  destruct (Prim2SF x) as [[]|[]| |[] m e]; reflexivity.
Qed.

Lemma sub_nan_r (x y : float) : is_nan y = true -> is_nan (x - y) = true.
Proof.
  rewrite !is_nan_Prim2SF, FloatAxioms.sub_spec. intros ->.
  destruct (Prim2SF x) as [[]|[]| |[] m e]; reflexivity.
Qed.

Lemma ltb_nan_l (x y : float) : is_nan x = true -> PrimFloat.ltb x y = false.
Proof.
  rewrite is_nan_Prim2SF, FloatAxioms.ltb_spec. intros ->. reflexivity.
Qed.

Lemma ltb_nan_r (x y : float) : is_nan y = true -> PrimFloat.ltb x y = false.
Proof.
  rewrite is_nan_Prim2SF, FloatAxioms.ltb_spec. intros ->.
  unfold SFltb, SFcompare. destruct (Prim2SF x) as [[]|[]| |[] m e]; reflexivity.
Qed.

Lemma eqb_nan_l (x y : float) : is_nan x = true -> PrimFloat.eqb x y = false.
Proof.
  rewrite is_nan_Prim2SF, FloatAxioms.eqb_spec. intros ->. reflexivity.
Qed.

Lemma leb_nan_r (x y : float) : is_nan y = true -> PrimFloat.leb x y = false.
Proof.
  rewrite is_nan_Prim2SF, FloatAxioms.leb_spec. intros ->.
  unfold SFleb, SFcompare. destruct (Prim2SF x) as [[]|[]| |[] m e]; reflexivity.
Qed.

Lemma SFltb_leb_trans a b c :
  SFltb a b = true -> SFleb b c = true -> SFltb a c = true.
Proof.
  unfold SFltb, SFleb, SFcompare.
  destruct a as [[]|[]| |[] ma ea], b as [[]|[]| |[] mb eb],
    c as [[]|[]| |[] mc ec];
    simpl; try discriminate; try reflexivity;
    rewrite ?Pos.compare_cont_spec; simpl; intros Hab Hbc; NumberFacts.order_cases.
Qed.

Lemma ltb_leb_trans (x y z : float) :
  PrimFloat.ltb x y = true -> PrimFloat.leb y z = true -> PrimFloat.ltb x z = true.
Proof. rewrite !FloatAxioms.ltb_spec, FloatAxioms.leb_spec. apply SFltb_leb_trans. Qed.

End FloatFacts.

(* ===================================================================== *)
(** ** AgentMesh.splitPayment: shares that are not numbers *)
(* ===================================================================== *)

Module SharesFacts.
Import AgentMesh AgentMeshSpec SharesSpec.

Section Shares.
Context `{Host}.

Lemma add_spoilt (sum share : jsval) : spoilt sum -> spoilt (add sum share).
Proof.
  destruct sum as [| | |x|s]; simpl; try contradiction; intros Hx.
  - destruct share; simpl; try exact I; now apply FloatFacts.add_nan_l.
  - exact I.
Qed.

Lemma add_unusable (sum share : jsval) : unusable share -> spoilt (add sum share).
Proof.
  intros [-> | [(s & ->) | (x & -> & Hx)]].
  - destruct sum; simpl; try exact I; try reflexivity;
      now apply FloatFacts.add_nan_r.
  - destruct sum; exact I.
  - destruct sum; simpl; try exact I; now apply FloatFacts.add_nan_r.
Qed.

Lemma fold_spoilt (recipients : list (gmap string jsval)) : forall sum,
  spoilt sum ->
  spoilt (fold_left (fun sum r => add sum (get r "share")) recipients sum).
Proof.
  induction recipients as [|r recipients IH]; intros sum Hs; [exact Hs |].
  simpl. apply IH. now apply add_spoilt.
Qed.

Lemma totalShares_spoilt (recipients : list (gmap string jsval)) r :
  In r recipients -> unusable (get r "share") -> spoilt (totalShares recipients).
Proof.
  unfold totalShares. generalize (JNum 0).
  induction recipients as [|r' recipients IH]; intros sum; [contradiction |].
  intros [-> | Hin] Hu; simpl.
  - apply fold_spoilt. now apply add_unusable.
  - now apply IH.
Qed.

Lemma spoilt_not_100 (sum : jsval) : spoilt sum -> strict_eq sum (JNum 100) = false.
Proof.
  destruct sum; simpl; try reflexivity; try contradiction.
  apply FloatFacts.eqb_nan_l.
Qed.

Variable now : Z.

(** X1: [splitPayment] raises ['Payment shares must total 100%'] and
    executes no transfer as soon as one recipient has no [share], a
    [share] that is a string, or a [NaN] one, whatever the other shares
    are: the sum [recipients.reduce((sum, r) => sum + r.share, 0)] is
    then a string or [NaN] and is not [=== 100]. *)
Theorem splitPayment_unusable_share
    (payment : Payment) (recipients : list (gmap string jsval))
    (log : list event) (r : gmap string jsval) :
  In r recipients -> unusable (get r "share") ->
  splitPayment now payment recipients log
  = (Thrown "Payment shares must total 100%", log).
Proof.
  intros Hin Hu. unfold splitPayment.
  now rewrite (spoilt_not_100 _ (totalShares_spoilt recipients r Hin Hu)).
Qed.

End Shares.

(** Shares written as the strings ["60"] and ["40"] are refused. *)
Lemma splitPayment_unusable_share_witness :
  splitPayment (H := plain_host) 1700000000000 example_payment quoted_recipients []
  = (Thrown "Payment shares must total 100%", []).
Proof.
  apply (splitPayment_unusable_share (H := plain_host) 1700000000000 example_payment
           quoted_recipients [] {[ "address" := JStr "A"; "share" := JStr "60" ]}).
  - left. reflexivity.
  - right. left. exists "60". vm_compute. reflexivity.
Defined.

End SharesFacts.

(* ===================================================================== *)
(** ** AgentMesh.selectNode: the load-based policy *)
(* ===================================================================== *)

Module LoadRoutingFacts.
Import AgentMesh AgentMeshSpec.

(** The [reduce] of the load-based policy, from a node [acc] that beats
    all of [before] and that none of [between] undercuts. *)
Lemma fold_pick_first (rest : list AgentNode) : forall before acc between,
  Forall (fun n => is_nan (load n) = false) (before ++ acc :: between ++ rest) ->
  (forall n, In n before -> PrimFloat.ltb (load acc) (load n) = true) ->
  (forall n, In n between -> PrimFloat.ltb (load n) (load acc) = false) ->
  exists before' after',
    (before ++ acc :: between ++ rest = before' ++ fold_left pick rest acc :: after')%list
    /\ (forall n, In n before' ->
          PrimFloat.ltb (load (fold_left pick rest acc)) (load n) = true)
    /\ (forall n, In n after' ->
          PrimFloat.ltb (load n) (load (fold_left pick rest acc)) = false).
Proof.
  induction rest as [|curr rest IH]; intros before acc between Hnum Hbefore Hbetween.
  - exists before, between. rewrite app_nil_r. repeat split; assumption.
  - simpl.
    destruct (PrimFloat.ltb (load curr) (load acc)) eqn:Hlt;
      [assert (Hp : pick acc curr = curr) by (unfold pick; now rewrite Hlt)
      |assert (Hp : pick acc curr = acc) by (unfold pick; now rewrite Hlt)];
      rewrite Hp.
    + destruct (IH (before ++ acc :: between)%list curr []) as (b' & a' & Heq & Hb & Ha).
      * simpl. rewrite <- app_assoc. simpl. exact Hnum.
      * intros n Hn. apply in_app_or in Hn as [Hn | [<- | Hn]].
        -- eapply NumberFacts.ltb_trans; [exact Hlt | now apply Hbefore].
        -- exact Hlt.
        -- eapply FloatFacts.ltb_leb_trans; [exact Hlt |].
           rewrite List.Forall_forall in Hnum.
           apply NumberFacts.ltb_false_leb.
           ++ apply Hnum. apply in_or_app. right. right. apply in_or_app. now left.
           ++ apply Hnum. apply in_or_app. right. apply in_eq.
           ++ now apply Hbetween.
      * intros n [].
      * exists b', a'. split; [| split; assumption].
        rewrite <- Heq. simpl. rewrite <- app_assoc. reflexivity.
    + destruct (IH before acc (between ++ [curr])%list) as (b' & a' & Heq & Hb & Ha).
      * rewrite <- app_assoc. exact Hnum.
      * exact Hbefore.
      * intros n Hn. apply in_app_or in Hn as [Hn | [<- | []]];
          [now apply Hbetween | exact Hlt].
      * exists b', a'. split; [| split; assumption].
        rewrite <- Heq, <- app_assoc. reflexivity.
Qed.

Section Routing.
Context `{Host}.
Variable this : Mesh.
Variable random : float.

(** X2: under ['load-based'], when every load is a number, the node
    selected is the first of the configured nodes that carries the least
    load: every node before it carries strictly more, no node after it
    carries less.  Among nodes of equal least load the earliest
    wins. *)
Theorem selectNode_first_least (task : gmap string jsval) :
  routingStrategy this = "load-based" ->
  networkNodes this <> [] ->
  Forall (fun n => is_nan (load n) = false) (networkNodes this) ->
  exists before node after,
    selectNode this random task = Some node
    /\ networkNodes this = (before ++ node :: after)%list
    /\ (forall n, In n before -> PrimFloat.ltb (load node) (load n) = true)
    /\ (forall n, In n after -> PrimFloat.ltb (load n) (load node) = false).
Proof.
  intros Hs Hne Hnum. unfold selectNode. rewrite Hs. simpl.
  destruct (networkNodes this) as [|first rest]; [contradiction |].
  destruct (fold_pick_first rest [] first [] Hnum) as (b & a & Heq & Hb & Ha);
    try (intros n []).
  exists b, (fold_left pick rest first), a. repeat split; assumption.
Qed.

(** X3: under ['load-based'], a first node whose load is [NaN] is the one
    selected, whatever the loads of the others: no load compares below
    [NaN]. *)
Theorem selectNode_nan_head (task : gmap string jsval) first rest :
  routingStrategy this = "load-based" ->
  networkNodes this = first :: rest ->
  is_nan (load first) = true ->
  selectNode this random task = Some first.
Proof.
  intros Hs Hn Hnan. unfold selectNode. rewrite Hs, Hn. simpl. f_equal.
  unfold reduce. clear Hn. induction rest as [|curr rest IH]; [reflexivity |].
  simpl. assert (Hp : pick first curr = first)
    by (unfold pick; now rewrite (FloatFacts.ltb_nan_r _ _ Hnan)).
  now rewrite Hp.
Qed.

End Routing.
End LoadRoutingFacts.

(* ===================================================================== *)
(** ** AgentMesh.coordinateTask *)
(* ===================================================================== *)

Module CoordinationFacts.
Import AgentMesh AgentMeshSpec CoordinationSpec.

Section Facts.
Context `{Host}.
Variable this : Mesh.
Variable random : nat -> float.
Variable sendTaskToNode : gmap string jsval -> AgentNode -> outcome jsval.

Lemma routeTask_run (r : float) (task : gmap string jsval) (log : list event) :
  routeTask this r sendTaskToNode task log
  = (routed this sendTaskToNode r task,
     (log ++ option_list (sent this r task))%list).
Proof.
  unfold routeTask, routed, sent.
  destruct (selectNode this r task) as [node|]; simpl.
  - unfold andThen, perform, await, pure. simpl.
    destruct (sendTaskToNode task node); reflexivity.
  - unfold throw. now rewrite app_nil_r.
Qed.

Variable task : gmap string jsval.
Variable budget : float.

#[local] Abbreviation route :=
  (fun '(index, agent) =>
     routeTask this (random index) sendTaskToNode (subtask task budget index agent)).

Lemma all_route_log (l : list (nat * gmap string jsval)) : forall log,
  (all route l log).2
  = (log ++ omap (fun '(index, agent) =>
                    sent this (random index) (subtask task budget index agent)) l)%list.
Proof.
  induction l as [|[i a] l IH]; intros log; simpl.
  - now rewrite app_nil_r.
  - rewrite routeTask_run.
    specialize (IH (log ++ option_list (sent this (random i) (subtask task budget i a)))%list).
    destruct (all route l _) as [ys log2]. simpl in *. rewrite IH, <- app_assoc.
    destruct (sent this (random i) (subtask task budget i a)); reflexivity.
Qed.

Lemma all_route_returned (l : list (nat * gmap string jsval)) : forall log results,
  (all route l log).1 = Returned results <->
  Forall2 (fun '(index, agent) r =>
             routed this sendTaskToNode (random index)
                    (subtask task budget index agent) = Returned r) l results.
Proof.
  induction l as [|[i a] l IH]; intros log results; simpl.
  - split.
    + intros [= <-]. constructor.
    + intros Hall. inversion Hall. reflexivity.
  - rewrite routeTask_run.
    specialize (IH (log ++ option_list (sent this (random i) (subtask task budget i a)))%list).
    destruct (all route l _) as [ys log2]. simpl in *.
    destruct (routed this sendTaskToNode (random i) (subtask task budget i a))
      as [y|message] eqn:Hy.
    + destruct ys as [ys|message].
      * split.
        -- intros [= <-]. constructor; [exact Hy | now apply IH].
        -- intros Hall. inversion Hall as [|? r ? rs Hr Hrs]; subst.
           apply IH in Hrs. injection Hrs as <-. congruence.
      * split; [discriminate |].
        intros Hall. inversion Hall as [|? r ? rs Hr Hrs]; subst.
        apply IH in Hrs. discriminate.
    + split; [discriminate |].
      intros Hall. inversion Hall as [|? r ? rs Hr Hrs]; subst. congruence.
Qed.

End Facts.

Lemma omap_imap_pair {A B} (g : nat -> A -> B) (l : list A) :
  omap (fun '(i, a) => Some (g i a)) (imap pair l) = imap g l.
Proof.
  enough (Hgen : forall p : nat -> nat,
            omap (fun '(i, a) => Some (g i a)) (imap (fun i a => (p i, a)) l)
            = imap (fun i => g (p i)) l) by apply (Hgen (fun i => i)).
  induction l as [|x l IH]; intros p; [reflexivity |].
  rewrite !imap_cons. simpl. f_equal. apply (IH (fun i => p (S i))).
Qed.

Section Coordinate.
Context `{Host}.
Variable this : Mesh.
Variable random : nat -> float.
Variable sendTaskToNode : gmap string jsval -> AgentNode -> outcome jsval.
Variable task : gmap string jsval.
Variable agents : list (gmap string jsval).

#[local] Abbreviation piece index agent :=
  (subtask task (agentBudget task agents) index agent).
#[local] Abbreviation run log :=
  (coordinateTask this random sendTaskToNode task agents log).

(** X4: [coordinateTask] builds one subtask per agent, in the order of
    the agents: the task with [agentId] set to the agent's id, [step] to
    the agent's index plus one and [budget] to [budget / agents.length],
    every other property being the task's.  Each subtask for which a node
    is selected is sent, in that order, whether or not an earlier one
    failed; the call returns exactly when every subtask is routed and
    answered, and then lists the routings in the order of the agents
    under [completed: true]. *)
Lemma coordinateTask_log (log : list event) :
  (run log).2
  = (log ++ omap (fun '(index, agent) =>
                    sent this (random index) (piece index agent))
                 (imap pair agents))%list.
Proof.
  unfold coordinateTask, andThen, pure.
  pose proof (all_route_log this random sendTaskToNode task
                (agentBudget task agents) (imap pair agents) log) as Hlog.
  destruct (all _ (imap pair agents) log) as [[results|message] log'];
    simpl in *; exact Hlog.
Qed.

Theorem coordinateTask_dispatch (log : list event) :
  (run log).2
  = (log ++ omap (fun '(index, agent) =>
                    sent this (random index) (piece index agent))
                 (imap pair agents))%list
  /\ (forall result,
        (run log).1 = Returned result <->
        Coordination.taskId result = get task "id"
        /\ Coordination.workflow result = get task "workflow"
        /\ Coordination.completed result = true
        /\ Forall2 (fun '(index, agent) r =>
                      routed this sendTaskToNode (random index)
                             (piece index agent) = Returned r)
                   (imap pair agents) (Coordination.agents result))
  /\ (forall index agent,
        piece index agent !! "agentId" = Some (get agent "id")
        /\ piece index agent !! "step" = Some (JNum (of_nat index + 1))
        /\ piece index agent !! "budget"
           = Some (JNum (div (get task "budget") (JNum (of_nat (length agents)))))
        /\ forall key, key <> "agentId" -> key <> "step" -> key <> "budget" ->
             piece index agent !! key = task !! key).
Proof.
  split; [apply coordinateTask_log | split].
  - intros result. unfold coordinateTask, andThen, pure.
    pose proof (all_route_returned this random sendTaskToNode task
                  (agentBudget task agents) (imap pair agents) log) as Hret.
    destruct (all _ (imap pair agents) log) as [[results|message] log'];
      simpl in *.
    + split.
      * intros [= <-]. simpl. repeat split. now apply Hret.
      * intros (Hid & Hw & Hc & Hall). apply Hret in Hall.
        injection Hall as ->. destruct result; simpl in *. congruence.
    + split; [discriminate |].
      intros (_ & _ & _ & Hall). apply Hret in Hall. discriminate.
  - intros index agent. unfold subtask, agentBudget. repeat split.
    + rewrite !lookup_insert_ne by discriminate. apply lookup_insert_eq.
    + rewrite lookup_insert_ne by discriminate. apply lookup_insert_eq.
    + apply lookup_insert_eq.
    + intros key Ha Hs Hb. now rewrite !lookup_insert_ne by congruence.
Qed.

(** X5: under every strategy but ['round-robin'], a mesh with nodes
    sends all the subtasks of a coordination to one and the same node:
    the selection depends neither on the subtask nor on what was sent
    before. *)
Theorem coordinateTask_single_node (log : list event) :
  routingStrategy this <> "round-robin" ->
  networkNodes this <> [] ->
  exists node,
    In node (networkNodes this)
    /\ (run log).2
       = (log ++ imap (fun index agent => TaskSent (piece index agent) node)
                      agents)%list.
Proof.
  intros Hrr Hne.
  assert (Hnode : exists node, In node (networkNodes this)
                    /\ forall r t, selectNode this r t = Some node).
  { unfold selectNode. apply String.eqb_neq in Hrr. rewrite Hrr.
    destruct (networkNodes this) as [|first rest]; [contradiction |].
    destruct (String.eqb (routingStrategy this) "load-based").
    - exists (reduce pick first rest). split; [| reflexivity].
      unfold reduce. destruct (AgentMeshFacts.fold_pick rest first) as ([-> | Hin] & _);
        [left; reflexivity | right; exact Hin].
    - exists first. split; [left; reflexivity | reflexivity]. }
  destruct Hnode as (node & Hin & Hsel). exists node. split; [exact Hin |].
  rewrite coordinateTask_log. f_equal.
  rewrite <- (omap_imap_pair (fun index agent => TaskSent (piece index agent) node)).
  apply list_omap_ext. apply Forall2_same_length_lookup_2; [reflexivity |].
  intros i [index agent] [index' agent'] Hl Hl'. rewrite Hl in Hl'.
  injection Hl' as <- <-. unfold sent. now rewrite Hsel.
Qed.

(** X6: without agents [coordinateTask] completes without contacting any
    node, whatever the mesh, even one without nodes; with agents and no
    node it raises ['No available nodes for task routing'] and contacts
    nobody. *)
Theorem coordinateTask_nothing_to_route (log : list event) :
  (agents = [] ->
   run log = (Returned {| Coordination.taskId := get task "id";
                          Coordination.workflow := get task "workflow";
                          Coordination.agents := [];
                          Coordination.completed := true |}, log))
  /\ (agents <> [] -> networkNodes this = [] ->
      run log = (Thrown "No available nodes for task routing", log)).
Proof.
  split.
  - intros ->. reflexivity.
  - intros Hne Hnodes.
    assert (Hroute : forall r t log',
              routeTask this r sendTaskToNode t log'
              = (Thrown "No available nodes for task routing", log')).
    { intros r t log'. unfold routeTask, selectNode. now rewrite Hnodes. }
    unfold coordinateTask, andThen, pure.
    generalize (agentBudget task agents). intros b.
    enough (Hall : forall l : list (nat * gmap string jsval), l <> [] ->
              all (fun '(index, agent) =>
                     routeTask this (random index) sendTaskToNode
                               (subtask task b index agent)) l log
              = (Thrown "No available nodes for task routing", log)).
    { rewrite Hall; [reflexivity |].
      destruct agents; [contradiction | discriminate]. }
    clear Hne. intros l Hl. induction l as [|[i a] l IH]; [contradiction |].
    simpl. rewrite Hroute. destruct l as [|p l]; [reflexivity |].
    rewrite IH by discriminate. reflexivity.
Qed.

End Coordinate.
End CoordinationFacts.

(** *** Concrete runs *)

Module MeshWitnesses.
Import AgentMesh AgentMeshSpec MeshExamples CoordinationSpec.

(** Of two nodes of load 10 the earlier one is selected. *)
Lemma selectNode_first_least_witness :
  selectNode tied_mesh 0.5 ∅ = Some idle_node.
Proof.
  destruct (LoadRoutingFacts.selectNode_first_least tied_mesh 0.5 ∅ eq_refl
              ltac:(discriminate)
              ltac:(repeat constructor))
    as (before & node & after & Hselected & _).
  rewrite Hselected. vm_compute in Hselected. now injection Hselected as <-.
Defined.

Lemma selectNode_nan_head_witness :
  selectNode silent_mesh 0.5 ∅ = Some silent_node.
Proof.
  apply (LoadRoutingFacts.selectNode_nan_head silent_mesh 0.5 ∅ silent_node [idle_node]);
    reflexivity.
Defined.

(** Two agents on a mesh routed by load: both subtasks go to the idle
    node, with steps 1 and 2 and half of the budget each. *)
Lemma coordinateTask_dispatch_witness :
  (coordinateTask (H := plain_host) loaded_mesh (fun _ => 0.5%float) echo
                  example_task example_agents []).1
  = Returned {| Coordination.taskId := JStr "task-1";
                Coordination.workflow := JStr "render-then-publish";
                Coordination.agents :=
                  [ {| Routing.nodeId := "node-2"; Routing.taskId := JStr "task-1";
                       Routing.result := JNum 1 |};
                    {| Routing.nodeId := "node-2"; Routing.taskId := JStr "task-1";
                       Routing.result := JNum 2 |} ];
                Coordination.completed := true |}
  /\ subtask example_task (agentBudget (H := plain_host) example_task example_agents) 1
             {[ "id" := JStr "agent-b" ]} !! "budget" = Some (JNum 5).
Proof.
  destruct (CoordinationFacts.coordinateTask_dispatch (H := plain_host) loaded_mesh
              (fun _ => 0.5%float) echo example_task example_agents [])
    as (_ & Hreturns & Hpiece).
  split.
  - apply Hreturns. simpl. repeat split. repeat constructor.
  - destruct (Hpiece 1%nat {[ "id" := JStr "agent-b" ]}) as (_ & _ & -> & _).
    vm_compute. reflexivity.
Defined.

Lemma coordinateTask_single_node_witness :
  exists node,
    In node (networkNodes loaded_mesh)
    /\ (coordinateTask (H := plain_host) loaded_mesh (fun _ => 0.5%float) echo
                       example_task example_agents []).2
       = [ TaskSent (subtask example_task
                       (agentBudget (H := plain_host) example_task example_agents)
                       0 {[ "id" := JStr "agent-a" ]}) node;
           TaskSent (subtask example_task
                       (agentBudget (H := plain_host) example_task example_agents)
                       1 {[ "id" := JStr "agent-b" ]}) node ].
Proof.
  apply (CoordinationFacts.coordinateTask_single_node (H := plain_host) loaded_mesh
           (fun _ => 0.5%float) echo example_task example_agents []); discriminate.
Defined.

Lemma coordinateTask_nothing_to_route_witness :
  coordinateTask (H := plain_host) empty_mesh (fun _ => 0.5%float) echo example_task [] []
  = (Returned {| Coordination.taskId := JStr "task-1";
                 Coordination.workflow := JStr "render-then-publish";
                 Coordination.agents := [];
                 Coordination.completed := true |}, [])
  /\ coordinateTask (H := plain_host) empty_mesh (fun _ => 0.5%float) echo example_task
                    example_agents []
     = (Thrown "No available nodes for task routing", []).
Proof.
  split.
  - apply (proj1 (CoordinationFacts.coordinateTask_nothing_to_route (H := plain_host)
                    empty_mesh (fun _ => 0.5%float) echo example_task [] [])).
    reflexivity.
  - apply (proj2 (CoordinationFacts.coordinateTask_nothing_to_route (H := plain_host)
                    empty_mesh (fun _ => 0.5%float) echo example_task example_agents [])).
    + discriminate.
    + reflexivity.
Defined.

End MeshWitnesses.

(* ===================================================================== *)
(** ** PaymentVerifier: the time window and the placeholder ledger *)
(* ===================================================================== *)

Module TimeWindowFacts.
Import PaymentVerifier.

(** X7: a receipt that carries neither a [timestamp] nor a [blockTime]
    is never within the time window, however wide the window, the
    default one and an infinite one included: its age is [NaN], which
    compares below nothing. *)
Theorem isWithinTimeWindow_undated `{Host} (now : float)
    (receipt : gmap string jsval) (windowMs : jsval) :
  receipt !! "timestamp" = None -> receipt !! "blockTime" = None ->
  isWithinTimeWindow now receipt windowMs = false.
Proof.
  intros Ht Hb. unfold isWithinTimeWindow, get. rewrite Ht, Hb. simpl.
  unfold sub. simpl.
  assert (Hnan : is_nan (now - nan) = true) by (now apply FloatFacts.sub_nan_r).
  destruct windowMs; simpl; now apply FloatFacts.ltb_nan_l.
Qed.

Lemma isWithinTimeWindow_undated_witness :
  isWithinTimeWindow (H := plain_host) 1700000000000
    {[ "txHash" := JStr "0xabc"; "amount" := JStr "0.5" ]} (JNum infinity) = false.
Proof.
  apply (isWithinTimeWindow_undated (H := plain_host)); reflexivity.
Defined.

End TimeWindowFacts.

Module PlaceholderLedgerFacts.
Import PaymentVerifier PaymentVerifierSpec.

Lemma placeholder_verdict (now : Z) (options : VerifyOptions) :
  verify placeholder_ledger now options
  = Returned
      (if negb (String.eqb "0.5" (expectedAmount options)) then
         AmountMismatch (expectedAmount options) "0.5"
       else if negb (String.eqb "USDC" (expectedAsset options)) then
         AssetMismatch (expectedAsset options) "USDC"
       else Valid (txHash options) "0.5" "USDC" "0x..." "0x..." 12345678
                  (JStr "datafeed") (Some ∅) JNull).
Proof.
  now rewrite (PaymentVerifierFacts.verify_found placeholder_ledger now options _
                 eq_refl).
Qed.

(** X8: with the [fetchTransactionReceipt] of the source, which answers
    every hash with the same receipt, [verify] accepts every transaction
    hash at every time exactly when the expected amount is ['0.5'] and
    the expected asset is ['USDC'], and then passes the receipt of the
    placeholder through; any other expected amount is an amount mismatch
    and, the amount matching, any other expected asset an asset
    mismatch. *)
Theorem verify_placeholder_ledger (now : Z) (options : VerifyOptions) :
  ((exists r, verify placeholder_ledger now options = Returned r /\ valid r = true)
   <-> expectedAmount options = "0.5" /\ expectedAsset options = "USDC")
  /\ (expectedAmount options = "0.5" -> expectedAsset options = "USDC" ->
      verify placeholder_ledger now options
      = Returned (Valid (txHash options) "0.5" "USDC" "0x..." "0x..." 12345678
                        (JStr "datafeed") (Some ∅) JNull))
  /\ (expectedAmount options <> "0.5" ->
      verify placeholder_ledger now options
      = Returned (AmountMismatch (expectedAmount options) "0.5"))
  /\ (expectedAmount options = "0.5" -> expectedAsset options <> "USDC" ->
      verify placeholder_ledger now options
      = Returned (AssetMismatch (expectedAsset options) "USDC")).
Proof.
  rewrite placeholder_verdict.
  destruct (String.eqb_spec "0.5" (expectedAmount options)) as [Ha | Ha];
    [destruct (String.eqb_spec "USDC" (expectedAsset options)) as [Hs | Hs] |];
    cbn [negb].
  - split; [| repeat split; congruence].
    split; [now split | intros _; eexists; split; reflexivity].
  - split; [| repeat split; congruence].
    split; [intros (r & Hr & Hv) | intros [_ Hu]; congruence].
    injection Hr as <-. discriminate.
  - split; [| repeat split; congruence].
    split; [intros (r & Hr & Hv) | intros [Hu _]; congruence].
    injection Hr as <-. discriminate.
Qed.

Lemma verify_placeholder_ledger_witness :
  verify placeholder_ledger 1700000000000 example_options
  = Returned (Valid "0xabc" "0.5" "USDC" "0x..." "0x..." 12345678
                    (JStr "datafeed") (Some ∅) JNull).
Proof.
  apply (proj1 (proj2 (verify_placeholder_ledger 1700000000000 example_options)));
    reflexivity.
Defined.

End PlaceholderLedgerFacts.

(* ===================================================================== *)
(** ** PaymentProcessor: when a job is run, and how an attempt fails *)
(* ===================================================================== *)

Module ProcessingFacts.
Import PaymentProcessor PaymentProcessorSpec ProcessingSpec.

Section Facts.
Context `{Host}.
Variable verify : PaymentVerifier.VerifyOptions -> outcome PaymentVerifier.Receipt.
Variable getJob : jsval -> outcome (option Job).
Variable timeout : Z.
Variables startTime auditTime : Z.
Variable txHash : string.
Variable jobConfig : JobConfig.

#[local] Abbreviation options := (verifyOptions timeout txHash jobConfig).
#[local] Abbreviation attempt :=
  (JS.run (processPaymentRequest verify getJob timeout startTime auditTime
          txHash jobConfig)).

(** The actions of an attempt and its completion, by cases on the answers
    of the verifier, the registry and the job. *)
Lemma processPaymentRequest_run :
  attempt =
    match verify options with
    | Thrown message =>
      (Thrown message, [Verified options; Audited (failure txHash message)])
    | Returned receipt =>
      if negb (PaymentVerifier.valid receipt) then
        (Returned {| Result.success := false; Result.jobId := None;
                     Result.result := None;
                     Result.error := PaymentVerifier.reason receipt |},
         [Verified options])
      else if negb (truthy (job_of receipt)) then
        (Thrown "No job ID found in payment metadata",
         [Verified options;
          Audited (failure txHash "No job ID found in payment metadata")])
      else
        let j := job_of receipt in
        match getJob j with
        | Thrown message =>
          (Thrown message,
           [Verified options; JobFetched j; Audited (failure txHash message)])
        | Returned None =>
          (Thrown ("Job " ++ to_string j ++ " not found"),
           [Verified options; JobFetched j;
            Audited (failure txHash ("Job " ++ to_string j ++ " not found"))])
        | Returned (Some job) =>
          match race job with
          | Thrown message =>
            (Thrown message,
             [Verified options; JobFetched j; ContextSet j jobConfig startTime;
              JobRun j; Audited (failure txHash message)])
          | Returned result =>
            (Returned {| Result.success := true; Result.jobId := Some j;
                         Result.result := Some result; Result.error := None |},
             [Verified options; JobFetched j; ContextSet j jobConfig startTime;
              JobRun j;
              Audited (completion txHash j auditTime result)])
          end
        end
    end.
Proof.
  unfold JS.run, processPaymentRequest, catch, andThen, perform, await, throw,
    logAudit, pure, failure, completion.
  simpl. destruct (verify options) as [receipt|message]; simpl; [| reflexivity].
  destruct (PaymentVerifier.valid receipt); simpl; [| reflexivity].
  fold (job_of receipt). destruct (truthy (job_of receipt)); simpl; [| reflexivity].
  unfold executeJob, andThen, perform, await, throw, pure. simpl.
  destruct (getJob (job_of receipt)) as [[job|]|message]; simpl; try reflexivity.
  destruct (race job); reflexivity.
Qed.

(** X9: a job is looked up only for a payment whose verification
    returned a valid receipt, and it is the job
    [receipt.metadata?.jobId || receipt.jobId], a truthy value: the job id
    of the metadata wins over the one of the receipt.  A job is run only
    if the registry knows it, and right after its context was set. *)
Theorem job_only_for_verified_payment (j : jsval) :
  (In (JobFetched j) attempt.2 ->
   exists receipt,
     verify options = Returned receipt
     /\ PaymentVerifier.valid receipt = true
     /\ j = job_of receipt /\ truthy j = true)
  /\ (In (JobRun j) attempt.2 ->
      exists receipt job,
        verify options = Returned receipt
        /\ PaymentVerifier.valid receipt = true
        /\ j = job_of receipt /\ truthy j = true
        /\ getJob j = Returned (Some job)
        /\ exists before after,
             attempt.2 = (before ++ ContextSet j jobConfig startTime :: JobRun j
                                 :: after)%list).
Proof.
  rewrite processPaymentRequest_run.
  destruct (verify options) as [receipt|message] eqn:Hv.
  2: { split; simpl; intros [[=] | [[=] | []]]. }
  destruct (PaymentVerifier.valid receipt) eqn:Hvalid; simpl.
  2: { split; simpl; intros [[=] | []]. }
  destruct (truthy (job_of receipt)) eqn:Hj; simpl.
  2: { split; simpl; intros [[=] | [[=] | []]]. }
  destruct (getJob (job_of receipt)) as [[job|]|message] eqn:Hg; simpl.
  - destruct (race job); simpl; split.
    all: intros Hin;
      repeat (destruct Hin as [Hin | Hin]; [try discriminate |]); try contradiction.
    all: injection Hin as <-.
    all: try (exists receipt; repeat split; assumption).
    all: exists receipt, job; repeat split; try assumption.
    all: eexists [_; _], [_]; reflexivity.
  - split; intros Hin;
      repeat (destruct Hin as [Hin | Hin]; [try discriminate |]); try contradiction.
    injection Hin as <-. exists receipt. repeat split; assumption.
  - split; intros Hin;
      repeat (destruct Hin as [Hin | Hin]; [try discriminate |]); try contradiction.
    injection Hin as <-. exists receipt. repeat split; assumption.
Qed.

(** X10: when [processPaymentRequest] succeeds.  It resolves to
    [{ success: true, ... }] only if the verification returned a valid
    receipt that names a job, the registry knows that job, and the run
    of the job completed within its limit of 300000 ms; and it does so
    whenever all that holds with the run completed before the limit.
    The answer carries that job id and the result of the run. *)
Theorem processPaymentRequest_success (r : Result.t) :
  (attempt.1 = Returned r -> Result.success r = true ->
   exists receipt job elapsed result,
     verify options = Returned receipt
     /\ PaymentVerifier.valid receipt = true
     /\ truthy (job_of receipt) = true
     /\ getJob (job_of receipt) = Returned (Some job)
     /\ run job = Some (elapsed, Returned result)
     /\ elapsed <= 300000
     /\ r = {| Result.success := true; Result.jobId := Some (job_of receipt);
               Result.result := Some result; Result.error := None |})
  /\ (forall receipt job elapsed result,
        verify options = Returned receipt ->
        PaymentVerifier.valid receipt = true ->
        truthy (job_of receipt) = true ->
        getJob (job_of receipt) = Returned (Some job) ->
        run job = Some (elapsed, Returned result) ->
        elapsed < 300000 ->
        attempt.1
        = Returned {| Result.success := true; Result.jobId := Some (job_of receipt);
                      Result.result := Some result; Result.error := None |}).
Proof.
  rewrite processPaymentRequest_run. split.
  - intros Hr Hs.
    destruct (verify options) as [receipt|message] eqn:Hv; [| discriminate].
    destruct (PaymentVerifier.valid receipt) eqn:Hvalid; simpl in Hr;
      [| injection Hr as <-; discriminate].
    destruct (truthy (job_of receipt)) eqn:Hj; simpl in Hr; [| discriminate].
    destruct (getJob (job_of receipt)) as [[job|]|message] eqn:Hg;
      try discriminate.
    unfold race in Hr.
    destruct (run job) as [[elapsed [result|message]]|] eqn:Hrun;
      try (destruct (elapsed <? 300000); discriminate); try discriminate.
    destruct (elapsed <? 300000) eqn:Ht; [| discriminate].
    injection Hr as <-. exists receipt, job, elapsed, result.
    apply Z.ltb_lt in Ht. repeat split; try assumption. lia.
  - intros receipt job elapsed result Hv Hvalid Hj Hg Hrun Ht.
    rewrite Hv, Hvalid, Hj. simpl. rewrite Hg. unfold race. rewrite Hrun.
    apply Z.ltb_lt in Ht. now rewrite Ht.
Qed.

(** X11: how a verified payment fails.  Without a job id in the receipt
    the attempt raises ['No job ID found in payment metadata'] before the
    registry is asked; for a job the registry does not know it raises
    ['Job <id> not found'] without setting a context or running
    anything; for a job whose run takes more than 300000 ms, or never
    settles, it raises ['Job timeout'].  Each failure is audited with
    status ['failed'] and its message, as the last action. *)
Theorem processPaymentRequest_failures (receipt : PaymentVerifier.Receipt) :
  verify options = Returned receipt ->
  PaymentVerifier.valid receipt = true ->
  let j := job_of receipt in
  (truthy j = false ->
   attempt = (Thrown "No job ID found in payment metadata",
              [Verified options;
               Audited (failure txHash "No job ID found in payment metadata")]))
  /\ (truthy j = true -> getJob j = Returned None ->
      attempt = (Thrown ("Job " ++ to_string j ++ " not found"),
                 [Verified options; JobFetched j;
                  Audited (failure txHash ("Job " ++ to_string j ++ " not found"))]))
  /\ (forall job, truthy j = true -> getJob j = Returned (Some job) ->
      overdue job ->
      attempt = (Thrown "Job timeout",
                 [Verified options; JobFetched j; ContextSet j jobConfig startTime;
                  JobRun j; Audited (failure txHash "Job timeout")])).
Proof.
  intros Hv Hvalid j. rewrite processPaymentRequest_run, Hv, Hvalid. simpl.
  fold j. repeat split.
  - intros ->. reflexivity.
  - intros -> ->. reflexivity.
  - intros job -> -> Hover. simpl. unfold race. unfold overdue in Hover.
    destruct (run job) as [[elapsed completion]|]; [| reflexivity].
    assert (Hlate : (elapsed <? 300000) = false) by (apply Z.ltb_ge; lia).
    rewrite Hlate. reflexivity.
Qed.

End Facts.

(** X12: the processor on top of the verifier and the registry of the
    source.  The receipt of the placeholder ledger names no job (its
    metadata is empty and its [jobId] is [null]), so that no request
    reaches the registry or returns a success: a request for ['0.5']
    ['USDC'] raises ['No job ID found in payment metadata'] and audits the
    failure, every other request is answered with an amount or an asset
    mismatch. *)
Theorem processPaymentRequest_placeholders `{Host}
    (now timeout startTime auditTime : Z) (txHash : string) (jobConfig : JobConfig) :
  let options := verifyOptions timeout txHash jobConfig in
  let attempt :=
    JS.run (processPaymentRequest (PaymentVerifier.verify
                                     PaymentVerifier.placeholder_ledger now)
              placeholder_registry timeout startTime auditTime txHash jobConfig) in
  (amount jobConfig = "0.5" ->
   PaymentVerifier.expectedAsset options = "USDC" ->
   attempt = (Thrown "No job ID found in payment metadata",
              [Verified options;
               Audited (failure txHash "No job ID found in payment metadata")]))
  /\ (amount jobConfig <> "0.5" ->
      attempt = (Returned {| Result.success := false; Result.jobId := None;
                             Result.result := None;
                             Result.error := Some "Amount mismatch" |},
                 [Verified options]))
  /\ (amount jobConfig = "0.5" ->
      PaymentVerifier.expectedAsset options <> "USDC" ->
      attempt = (Returned {| Result.success := false; Result.jobId := None;
                             Result.result := None;
                             Result.error := Some "Asset mismatch" |},
                 [Verified options]))
  /\ (forall j, ~ In (JobFetched j) attempt.2)
  /\ (forall r, attempt.1 = Returned r -> Result.success r = false).
Proof.
  intros options attempt.
  assert (Hrun := processPaymentRequest_run
                    (PaymentVerifier.verify PaymentVerifier.placeholder_ledger now)
                    placeholder_registry timeout startTime auditTime txHash jobConfig).
  fold options in Hrun. fold attempt in Hrun.
  rewrite PlaceholderLedgerFacts.placeholder_verdict in Hrun.
  change (PaymentVerifier.expectedAmount options) with (amount jobConfig) in Hrun.
  destruct (String.eqb_spec "0.5" (amount jobConfig)) as [Ha | Ha];
    [destruct (String.eqb_spec "USDC" (PaymentVerifier.expectedAsset options))
       as [Hs | Hs] |];
    cbn [negb] in Hrun; simpl in Hrun; rewrite Hrun.
  - repeat split; try congruence.
    + intros j [[=] | [[=] | []]].
    + discriminate.
  - repeat split; try congruence.
    + intros j [[=] | []].
    + intros r [= <-]. reflexivity.
  - repeat split; try congruence.
    + intros j [[=] | []].
    + intros r [= <-]. reflexivity.
Qed.

End ProcessingFacts.

(** *** Concrete runs *)

Module ProcessingWitnesses.
Import PaymentProcessor PaymentProcessorSpec ProcessingSpec.

(** The job of an accepted payment is run, and it is the job the
    metadata of the receipt names. *)
Lemma job_only_for_verified_payment_witness :
  exists receipt job,
    accepting_verifier (verifyOptions 60000 "0xabc" example_config) = Returned receipt
    /\ PaymentVerifier.valid receipt = true
    /\ JStr "job-1" = job_of receipt
    /\ quick_registry (JStr "job-1") = Returned (Some job).
Proof.
  destruct (proj2 (ProcessingFacts.job_only_for_verified_payment (H := plain_host)
                     accepting_verifier quick_registry 60000 0 1 "0xabc"
                     example_config (JStr "job-1")))
    as (receipt & job & Hv & Hvalid & Hj & _ & Hg & _).
  - vm_compute. auto.
  - exists receipt, job. auto.
Defined.

Lemma processPaymentRequest_success_witness :
  (JS.run (processPaymentRequest (H := plain_host) accepting_verifier quick_registry
             60000 0 1 "0xabc" example_config)).1
  = Returned {| Result.success := true; Result.jobId := Some (JStr "job-1");
                Result.result := Some (JStr "done"); Result.error := None |}.
Proof.
  exact (proj2 (ProcessingFacts.processPaymentRequest_success (H := plain_host)
                  accepting_verifier quick_registry 60000 0 1 "0xabc" example_config
                  {| Result.success := true; Result.jobId := None;
                     Result.result := None; Result.error := None |})
               (PaymentVerifier.Valid "0xabc" "0.5" "USDC" "0xfrom" "0xto" 12345678
                  (JStr "datafeed") (Some {[ "jobId" := JStr "job-1" ]}) JNull)
               {| run := Some (1000, Returned (JStr "done")) |} 1000 (JStr "done")
               eq_refl eq_refl eq_refl eq_refl eq_refl eq_refl).
Defined.

(** A job that never settles is given up after its time limit and the
    failure is audited. *)
Lemma processPaymentRequest_failures_witness :
  JS.run (processPaymentRequest (H := plain_host) accepting_verifier stuck_registry
            60000 0 1 "0xabc" example_config)
  = (Thrown "Job timeout",
     [Verified (verifyOptions 60000 "0xabc" example_config);
      JobFetched (JStr "job-1");
      ContextSet (JStr "job-1") example_config 0;
      JobRun (JStr "job-1");
      Audited (failure "0xabc" "Job timeout")]).
Proof.
  destruct (ProcessingFacts.processPaymentRequest_failures (H := plain_host)
              accepting_verifier stuck_registry 60000 0 1 "0xabc" example_config
              _ eq_refl eq_refl) as (_ & _ & Hlate).
  apply (Hlate {| run := None |}); [reflexivity | reflexivity | exact I].
Defined.

Lemma processPaymentRequest_placeholders_witness :
  JS.run (processPaymentRequest (H := plain_host)
            (PaymentVerifier.verify PaymentVerifier.placeholder_ledger 1700000000000)
            placeholder_registry 60000 0 1 "0xabc" example_config)
  = (Thrown "No job ID found in payment metadata",
     [Verified (verifyOptions 60000 "0xabc" example_config);
      Audited (failure "0xabc" "No job ID found in payment metadata")]).
Proof.
  apply (ProcessingFacts.processPaymentRequest_placeholders (H := plain_host)
           1700000000000 60000 0 1 "0xabc" example_config); reflexivity.
Defined.

End ProcessingWitnesses.

(* ===================================================================== *)
(** ** AgentWallet.waitForConfirmation: how the wait fails *)
(* ===================================================================== *)

Module WaitFacts.
Import AgentWallet AgentWalletSpec.

Section Facts.
Context `{Host}.
Variable getTransactionReceipt : string -> Z -> outcome (option (gmap string jsval)).
Variable lag : Z -> N.
Variable txHash : string.

#[local] Abbreviation answer t := (getTransactionReceipt txHash t).
#[local] Abbreviation poll' := (poll getTransactionReceipt lag txHash).

Lemma poll_time_lower (t : Z) (n : nat) :
  t + 2000 * Z.of_nat n <= poll_time lag t n.
Proof. induction n as [|n IH]; simpl poll_time; lia. Qed.

(** The loop gives up at the first instant past the window when the
    answers before were pending. *)
Lemma poll_gives_up required maxWait startTime (n : nat) : forall t,
  (forall i, (i < n)%nat -> pending required (answer (poll_time lag t i))) ->
  maxWait <= poll_time lag t n - startTime ->
  poll' required maxWait startTime t = Thrown "Transaction confirmation timeout".
Proof.
  induction n as [|n IH]; intros t Hpending Hlate;
    rewrite AgentWalletFacts.poll_unfold.
  - simpl in Hlate. apply Z.ltb_ge in Hlate. now rewrite Hlate.
  - destruct (t - startTime <? maxWait) eqn:Hin; [| reflexivity].
    assert (Hnext : poll' required maxWait startTime (t + 2000 + Z.of_N (lag t))
                    = Thrown "Transaction confirmation timeout").
    { apply IH.
      - intros i Hi. rewrite <- AgentWalletFacts.poll_time_shift.
        apply Hpending. lia.
      - now rewrite <- AgentWalletFacts.poll_time_shift. }
    destruct (Hpending O ltac:(lia)) as [Hnone | (receipt & Hsome & Hfew)];
      simpl in *.
    + now rewrite Hnone.
    + now rewrite Hsome, Hfew.
Qed.

Lemma poll_thrown required maxWait startTime now message :
  poll' required maxWait startTime now = Thrown message ->
  exists n : nat,
    (forall i, (i < n)%nat -> pending required (answer (poll_time lag now i)))
    /\ ((poll_time lag now n - startTime < maxWait
         /\ answer (poll_time lag now n) = Thrown message)
        \/ (maxWait <= poll_time lag now n - startTime
            /\ message = "Transaction confirmation timeout")).
Proof.
  funelim (poll getTransactionReceipt lag txHash required maxWait startTime now);
    try discriminate; intros Hr;
    try (match goal with
         | IH : forall _, _ = Thrown _ -> _ |- _ =>
           destruct (IH _ Hr) as (k & Hpending & Hcase)
         end;
         exists (S k); rewrite AgentWalletFacts.poll_time_shift;
         split; [| exact Hcase];
         intros [|i] Hi;
         [first [left; assumption | right; eauto]
         |rewrite AgentWalletFacts.poll_time_shift; apply Hpending; lia]).
  all: injection Hr as <-; exists O; (split; [intros i Hi; lia |]); simpl.
  all: first [left; split; [lia | assumption] | right; split; [lia | reflexivity]].
Qed.

(** The first instant of the loop that lies past the window. *)
Lemma first_late_instant (startTime maxWait : Z) :
  exists n : nat,
    maxWait <= poll_time lag startTime n - startTime
    /\ (forall i, (i < n)%nat -> poll_time lag startTime i - startTime < maxWait)
    /\ Z.of_nat n <= Z.max 0 maxWait / 2000 + 1.
Proof.
  set (bound := Z.to_nat (Z.max 0 maxWait / 2000 + 1)).
  assert (Hb : Z.of_nat bound = Z.max 0 maxWait / 2000 + 1).
  { unfold bound. rewrite Z2Nat.id; [reflexivity |].
    assert (0 <= Z.max 0 maxWait / 2000) by (apply Z.div_pos; lia). lia. }
  assert (Hlate : maxWait <= poll_time lag startTime bound - startTime).
  { pose proof (poll_time_lower startTime bound) as Hlow.
    pose proof (Z.mul_succ_div_gt (Z.max 0 maxWait) 2000 ltac:(lia)). lia. }
  enough (Hfirst : forall k, maxWait <= poll_time lag startTime k - startTime ->
            exists n, (n <= k)%nat
              /\ maxWait <= poll_time lag startTime n - startTime
              /\ forall i, (i < n)%nat ->
                   poll_time lag startTime i - startTime < maxWait).
  { destruct (Hfirst bound Hlate) as (n & Hn & Hlate' & Hbefore).
    exists n. repeat split; [assumption | assumption | lia]. }
  induction k as [|k IH]; intros Hk.
  - exists O. split; [lia |]. split; [exact Hk |]. intros i Hi. lia.
  - destruct (Z_lt_dec (poll_time lag startTime k - startTime) maxWait)
      as [Hin | Hout].
    + exists (S k). split; [lia |]. split; [exact Hk |].
      intros i Hi.
      pose proof (AgentWalletFacts.poll_time_increasing lag startTime i k
                    ltac:(lia)). lia.
    + destruct (IH ltac:(lia)) as (n & Hn & Hlate' & Hbefore).
      exists n. split; [lia |]. split; assumption.
Qed.

(** A ledger that never has the confirmations asked for lets the loop
    run into its timeout. *)
Lemma poll_never_confirmed required maxWait startTime :
  (forall t, pending required (answer t)) ->
  poll' required maxWait startTime startTime
  = Thrown "Transaction confirmation timeout".
Proof.
  intros Hpending.
  destruct (first_late_instant startTime maxWait) as (n & Hlate & _).
  apply (poll_gives_up _ _ _ n); [| exact Hlate]. intros i _. apply Hpending.
Qed.

Variable startTime : Z.
Variable options : WaitOptions.

#[local] Abbreviation required := (requiredConfirmations options).
#[local] Abbreviation waiting :=
  (waitForConfirmation getTransactionReceipt lag startTime txHash options).

(** X13: [waitForConfirmation] raises exactly in two ways.  It raises
    the error of the ledger when a poll made within the window, all polls
    before it being pending, is rejected: a ledger fault ends the wait at
    once and is not retried.  It raises ['Transaction confirmation
    timeout'] when, all polls before being pending, the next instant of
    the loop lies [maxWait] ms or more after the start. *)
Theorem waitForConfirmation_raises (message : string) :
  waiting = Thrown message <->
  exists n : nat,
    (forall i, (i < n)%nat ->
               pending required (answer (poll_time lag startTime i)))
    /\ ((poll_time lag startTime n - startTime < maxWait options
         /\ answer (poll_time lag startTime n) = Thrown message)
        \/ (maxWait options <= poll_time lag startTime n - startTime
            /\ message = "Transaction confirmation timeout")).
Proof.
  unfold waitForConfirmation. split; [apply poll_thrown |].
  intros (n & Hpending & [[Hin Hfault] | [Hlate ->]]).
  - rewrite (AgentWalletFacts.poll_skip _ _ _ _ _ _ _ n) by assumption.
    rewrite AgentWalletFacts.poll_unfold. apply Z.ltb_lt in Hin.
    now rewrite Hin, Hfault.
  - now apply (poll_gives_up _ _ _ n).
Qed.

(** X14: the wait ends.  When every poll made within the window is
    pending (no receipt yet, or too few confirmations),
    [waitForConfirmation] raises ['Transaction confirmation timeout'],
    and the instant at which it gives up, the first one of the loop that
    lies past the window, comes after at most [maxWait / 2000 + 1]
    rounds, whatever the lag of the rounds. *)
Theorem waitForConfirmation_gives_up :
  (forall n : nat,
     poll_time lag startTime n - startTime < maxWait options ->
     pending required (answer (poll_time lag startTime n))) ->
  waiting = Thrown "Transaction confirmation timeout"
  /\ exists n : nat,
       maxWait options <= poll_time lag startTime n - startTime
       /\ (forall i, (i < n)%nat ->
             poll_time lag startTime i - startTime < maxWait options)
       /\ Z.of_nat n <= Z.max 0 (maxWait options) / 2000 + 1.
Proof.
  intros Hpending.
  destruct (first_late_instant startTime (maxWait options))
    as (n & Hlate & Hbefore & Hbound).
  split; [| exists n; repeat split; assumption].
  unfold waitForConfirmation. apply (poll_gives_up _ _ _ n); [| exact Hlate].
  intros i Hi. apply Hpending, Hbefore, Hi.
Qed.

End Facts.
End WaitFacts.

Module PlaceholderWalletFacts.
Import AgentWallet AgentWalletSpec WalletPayments.

Lemma spread_placeholder (txHash : string) :
  spread_over_confirmed
    {[ "hash" := JStr txHash; "confirmations" := JNum 1;
       "blockNumber" := JNum 12345678; "status" := JStr "confirmed" ]}
  = {[ "hash" := JStr txHash; "confirmations" := JNum 1;
       "blockNumber" := JNum 12345678; "status" := JStr "confirmed" ]}.
Proof.
  apply map_eq. intros key.
  destruct (AgentWalletFacts.spread_status
              {[ "hash" := JStr txHash; "confirmations" := JNum 1;
                 "blockNumber" := JNum 12345678; "status" := JStr "confirmed" ]})
    as (Hown & _ & Hother).
  destruct (decide (key = "status")) as [-> | Hne]; [| now apply Hother].
  rewrite (Hown (JStr "confirmed")); reflexivity.
Qed.

Section Facts.
Context `{Host}.
Variable lag : Z -> N.
Variable startTime : Z.
Variable txHash : string.
Variable options : WaitOptions.

Lemma wait_placeholder :
  waitForConfirmation placeholder_ledger lag startTime txHash options
  = if 0 <? maxWait options then
      if PrimFloat.leb (requiredConfirmations options) 1 then
        Returned {[ "hash" := JStr txHash; "confirmations" := JNum 1;
                    "blockNumber" := JNum 12345678;
                    "status" := JStr "confirmed" ]}
      else Thrown "Transaction confirmation timeout"
    else Thrown "Transaction confirmation timeout".
Proof.
  unfold waitForConfirmation.
  destruct (PrimFloat.leb (requiredConfirmations options) 1) eqn:Hc.
  - rewrite AgentWalletFacts.poll_unfold. rewrite Z.sub_diag.
    destruct (0 <? maxWait options); [| reflexivity].
    unfold placeholder_ledger at 1.
    change (at_least (get _ "confirmations") (JNum (requiredConfirmations options)))
      with (PrimFloat.leb (requiredConfirmations options) 1).
    rewrite Hc. now rewrite spread_placeholder.
  - rewrite WaitFacts.poll_never_confirmed; [now destruct (0 <? maxWait options) |].
    intros t. right. eexists. split; [reflexivity |]. exact Hc.
Qed.

(** X15: the wallet on the ledger of the source, which reports one
    confirmation whenever it is asked.  A wait for at most one
    confirmation returns the receipt of the placeholder at the first
    poll; a wait for more than one never sees enough confirmations and
    raises ['Transaction confirmation timeout'].  Without a
    [confirmations] option one confirmation is asked for. *)
Theorem waitForConfirmation_placeholder :
  (PrimFloat.leb (requiredConfirmations options) 1 = true ->
   0 < maxWait options ->
   waitForConfirmation placeholder_ledger lag startTime txHash options
   = Returned {[ "hash" := JStr txHash; "confirmations" := JNum 1;
                 "blockNumber" := JNum 12345678;
                 "status" := JStr "confirmed" ]})
  /\ (PrimFloat.leb (requiredConfirmations options) 1 = false ->
      waitForConfirmation placeholder_ledger lag startTime txHash options
      = Thrown "Transaction confirmation timeout")
  /\ (confirmations options = None -> requiredConfirmations options = 1%float)
  /\ (confirmations options = Some 2%float -> requiredConfirmations options = 2%float).
Proof.
  rewrite wait_placeholder. repeat split.
  - intros -> Hw. apply Z.ltb_lt in Hw. now rewrite Hw.
  - intros ->. now destruct (0 <? maxWait options).
  - unfold requiredConfirmations. now intros ->.
  - unfold requiredConfirmations. now intros ->.
Qed.

End Facts.
End PlaceholderWalletFacts.

(* ===================================================================== *)
(** ** TaskOrchestrator on an AgentWallet *)
(* ===================================================================== *)

Module WalletOrchestratorFacts.
Import AgentWallet WalletPayments TaskOrchestrator.

Section Facts.
Context `{Host}.
Variable privateKey : string.
Variable lag : Z -> N.
Variable payTime : float.
Variable waitTime : Z.
Variable broadcastUUID : string.
Variable defaultConfirmations : float.
Variable randomUUID : string.
Variable fetch : Notification.t -> outcome Response.
Variable config : RenderConfig.t.

#[local] Abbreviation pay :=
  (wallet_pay privateKey placeholder_ledger lag payTime waitTime broadcastUUID).
#[local] Abbreviation request := (renderPayment randomUUID config).
#[local] Abbreviation attempt :=
  (JS.run (requestRenderService pay defaultConfirmations randomUUID fetch config)).

Lemma wallet_pay_returns :
  exists paymentTx,
    pay request = Returned paymentTx
    /\ TaskOrchestrator.hash paymentTx = JStr ("0x" ++ strip_dashes broadcastUUID)
    /\ get (TaskOrchestrator.metadata paymentTx) "jobId" = JStr randomUUID
    /\ TaskOrchestrator.wait paymentTx defaultConfirmations
       = waitForConfirmation placeholder_ledger lag waitTime
           ("0x" ++ strip_dashes broadcastUUID)
           {| confirmations := Some defaultConfirmations; timeout := None |}.
Proof.
  eexists. split; [reflexivity |]. repeat split.
Qed.

(** X17: [requestRenderService] on an [AgentWallet] with the ledger of
    the source.  Asking for more than one confirmation, as the
    orchestrator does by default with 2, the payment is made, the wait
    raises ['Transaction confirmation timeout'] and no agent is notified.
    Asking for at most one, the agent is notified once, with the hash the
    wallet gave the transaction and the job id the orchestrator drew. *)
Theorem requestRenderService_with_wallet :
  number_truthy defaultConfirmations = true ->
  (PrimFloat.leb defaultConfirmations 1 = false ->
   attempt = (Thrown "Transaction confirmation timeout",
              [Paid request; Waited defaultConfirmations]))
  /\ (PrimFloat.leb defaultConfirmations 1 = true ->
      notifications attempt.2
      = [ {| Notification.txHash := JStr ("0x" ++ strip_dashes broadcastUUID);
             Notification.jobId := JStr randomUUID;
             Notification.data := RenderConfig.data config;
             Notification.chartType := RenderConfig.chartType config;
             Notification.format := RenderConfig.format config |} ]).
Proof.
  intros Htruthy.
  rewrite TaskOrchestratorFacts.requestRenderService_run.
  destruct wallet_pay_returns as (paymentTx & -> & Hhash & Hjob & ->).
  rewrite PlaceholderWalletFacts.wait_placeholder.
  unfold requiredConfirmations, maxWait. simpl. rewrite Htruthy.
  split; intros ->; [reflexivity |].
  change (strict_eq (get _ "status") (JStr "confirmed")) with true. simpl.
  unfold notification. rewrite Hhash, Hjob. reflexivity.
Qed.

End Facts.
End WalletOrchestratorFacts.

Module AddressFacts.
Import WalletPayments ProofEngine.



End AddressFacts.

(* ===================================================================== *)
(** ** TaskOrchestrator: data processing and failed notifications *)
(* ===================================================================== *)

Module DataProcessingFacts.
Import TaskOrchestrator.

Section Facts.
Context `{Host}.
Variable pay : DataProcessing.PaymentRequest -> outcome PaymentTx.
Variable defaultConfirmations : float.
Variable randomUUID : string.
Variable config : DataProcessing.Config.t.

#[local] Abbreviation request := (DataProcessing.processingPayment randomUUID config).
#[local] Abbreviation attempt :=
  (JS.run (DataProcessing.requestDataProcessing pay defaultConfirmations randomUUID
             config)).

Lemma requestDataProcessing_run :
  attempt =
    match pay request with
    | Thrown message => (Thrown message, [DataProcessing.Paid request])
    | Returned paymentTx =>
      match wait paymentTx defaultConfirmations with
      | Thrown message =>
        (Thrown message,
         [DataProcessing.Paid request; DataProcessing.Waited defaultConfirmations])
      | Returned receipt =>
        (if strict_eq (get receipt "status") (JStr "confirmed") then
           Returned {| Result.success := true;
                       Result.txHash := hash paymentTx;
                       Result.jobId := get (metadata paymentTx) "jobId" |}
         else Thrown "Processing payment failed",
         [DataProcessing.Paid request; DataProcessing.Waited defaultConfirmations])
      end
    end.
Proof.
  unfold JS.run, DataProcessing.requestDataProcessing, andThen, perform, await,
    throw, pure.
  simpl. destruct (pay request) as [paymentTx|message]; simpl; [| reflexivity].
  destruct (wait paymentTx defaultConfirmations) as [receipt|message]; simpl;
    [| reflexivity].
  destruct (strict_eq (get receipt "status") (JStr "confirmed")); reflexivity.
Qed.

(** X18: [requestDataProcessing] returns exactly when the payment was
    made and its confirmation wait returned a receipt whose status is
    ['confirmed'], with the hash of the transaction and the job id of its
    metadata; on any other status it raises ['Processing payment
    failed'].  It asks the wallet for one payment, of ['2.0'] ['USDC'] to
    ['forge.network/process'], waits at most once for its confirmation
    and does nothing else. *)
Theorem requestDataProcessing_success (r : Result.t) :
  (attempt.1 = Returned r <->
   exists paymentTx receipt,
     pay request = Returned paymentTx
     /\ wait paymentTx defaultConfirmations = Returned receipt
     /\ get receipt "status" = JStr "confirmed"
     /\ r = {| Result.success := true;
               Result.txHash := hash paymentTx;
               Result.jobId := get (metadata paymentTx) "jobId" |})
  /\ (forall paymentTx receipt,
        pay request = Returned paymentTx ->
        wait paymentTx defaultConfirmations = Returned receipt ->
        get receipt "status" <> JStr "confirmed" ->
        attempt.1 = Thrown "Processing payment failed")
  /\ (attempt.2 = [DataProcessing.Paid request]
      \/ attempt.2 = [DataProcessing.Paid request;
                      DataProcessing.Waited defaultConfirmations])
  /\ DataProcessing.to request = "forge.network/process"
  /\ DataProcessing.amount request = "2.0"
  /\ DataProcessing.asset request = "USDC".
Proof.
  rewrite requestDataProcessing_run.
  split; [| split; [| split; [| repeat split]]].
  - destruct (pay request) as [paymentTx|message] eqn:Hpay.
    + destruct (wait paymentTx defaultConfirmations) as [receipt|message] eqn:Hwait.
      * simpl. destruct (strict_eq (get receipt "status") (JStr "confirmed")) eqn:Hs.
        -- apply TaskOrchestratorFacts.strict_eq_string in Hs. split.
           ++ intros [= <-]. exists paymentTx, receipt. repeat split; assumption.
           ++ intros (tx & rc & [= <-] & Hw & _ & ->). reflexivity.
        -- split; [discriminate |].
           intros (tx & rc & [= <-] & Hw & Hc & _).
           rewrite Hwait in Hw. injection Hw as <-.
           apply TaskOrchestratorFacts.strict_eq_string in Hc. congruence.
      * split; [discriminate |].
        intros (tx & rc & [= <-] & Hw & _). congruence.
    + split; [discriminate |]. intros (tx & rc & [=] & _).
  - intros paymentTx receipt -> -> Hs. simpl.
    destruct (strict_eq (get receipt "status") (JStr "confirmed")) eqn:Hc;
      [| reflexivity].
    apply TaskOrchestratorFacts.strict_eq_string in Hc. contradiction.
  - destruct (pay request) as [paymentTx|message];
      [destruct (wait paymentTx defaultConfirmations) |]; auto.
Qed.

End Facts.
End DataProcessingFacts.

Module NotificationFacts.
Import TaskOrchestrator TaskOrchestratorSpec.

Section Facts.
Context `{Host}.
Variable pay : PaymentRequest -> outcome PaymentTx.
Variable defaultConfirmations : float.
Variable randomUUID : string.
Variable fetch : Notification.t -> outcome Response.
Variable config : RenderConfig.t.

#[local] Abbreviation request := (renderPayment randomUUID config).
#[local] Abbreviation attempt :=
  (JS.run (requestRenderService pay defaultConfirmations randomUUID fetch config)).

(** X19: once the payment of a render request is confirmed, the agent
    is notified once, and a notification that fails makes the request
    raise with the payment made and nothing undoing it: the error of the
    network, ['Agent notification failed: <statusText>'] for a response
    that is not [ok], or the error of reading its body.  Only a
    notification answered [ok] with a readable body lets the request
    return. *)
Theorem notification_failure_after_payment paymentTx receipt :
  pay request = Returned paymentTx ->
  wait paymentTx defaultConfirmations = Returned receipt ->
  get receipt "status" = JStr "confirmed" ->
  let payload := notification paymentTx config in
  attempt.2 = [Paid request; Waited defaultConfirmations; Notified payload]
  /\ (forall message, fetch payload = Thrown message ->
                      attempt.1 = Thrown message)
  /\ (forall response, fetch payload = Returned response -> ok response = false ->
        attempt.1 = Thrown ("Agent notification failed: " ++ statusText response))
  /\ (forall response message,
        fetch payload = Returned response -> ok response = true ->
        json response = Thrown message -> attempt.1 = Thrown message)
  /\ (forall response body,
        fetch payload = Returned response -> ok response = true ->
        json response = Returned body ->
        attempt.1 = Returned {| Result.success := true;
                                Result.txHash := hash paymentTx;
                                Result.jobId := get (metadata paymentTx) "jobId" |}).
Proof.
  intros Hpay Hwait Hstatus payload.
  rewrite TaskOrchestratorFacts.requestRenderService_run, Hpay, Hwait, Hstatus.
  change (strict_eq (JStr "confirmed") (JStr "confirmed")) with true.
  fold payload. cbn [fst snd]. repeat split.
  - intros message Hf. now rewrite Hf.
  - intros response Hf Hok. rewrite Hf. simpl. now rewrite Hok.
  - intros response message Hf Hok Hbody. rewrite Hf. simpl.
    now rewrite Hok, Hbody.
  - intros response body Hf Hok Hbody. rewrite Hf. simpl.
    now rewrite Hok, Hbody.
Qed.

End Facts.
End NotificationFacts.

(** *** Concrete runs *)

Module WaitWitnesses.
Import AgentWallet AgentWalletSpec WalletPayments WalletSpec.

Lemma waitForConfirmation_raises_witness :
  waitForConfirmation (H := plain_host) (failing_ledger 1700000000000) (fun _ => 5%N)
    1700000000000 "0xabc" default_options
  = Thrown "ledger unavailable".
Proof.
  apply (WaitFacts.waitForConfirmation_raises (H := plain_host)).
  exists 1%nat. split.
  - intros [|i] Hi; [left; reflexivity | lia].
  - left. split; [vm_compute; reflexivity | reflexivity].
Defined.

Lemma waitForConfirmation_gives_up_witness :
  waitForConfirmation (H := plain_host) (fun _ _ => Returned None) (fun _ => 5%N)
    1700000000000 "0xabc" default_options
  = Thrown "Transaction confirmation timeout".
Proof.
  apply (WaitFacts.waitForConfirmation_gives_up (H := plain_host)).
  intros n _. left. reflexivity.
Defined.

End WaitWitnesses.

Module OrchestratorWitnesses.
Import AgentWallet AgentWalletSpec WalletPayments WalletSpec.
Import TaskOrchestrator TaskOrchestratorSpec OrchestratorExamples.

(** Asked for two confirmations, the wallet of the source never
    confirms. *)
Lemma waitForConfirmation_placeholder_witness :
  waitForConfirmation (H := plain_host) placeholder_ledger (fun _ => 5%N)
    1700000000000 "0xabc" two_confirmations
  = Thrown "Transaction confirmation timeout".
Proof.
  apply (PlaceholderWalletFacts.waitForConfirmation_placeholder (H := plain_host)).
  reflexivity.
Defined.

(** With the default of two confirmations the render request runs into
    the timeout of the wallet and the agent hears nothing. *)
Lemma requestRenderService_with_wallet_witness :
  JS.run (requestRenderService (H := plain_host)
            (wallet_pay (H := plain_host) "0123456789abcdef" placeholder_ledger
                        (fun _ => 5%N) 1700000000000 1700000000001
                        "1b4e28ba-2fa1-11d2-883f-0016d3cca427")
            2 "uuid-1" accepting_agent example_config)
  = (Thrown "Transaction confirmation timeout",
     [Paid (renderPayment (H := plain_host) "uuid-1" example_config); Waited 2]).
Proof.
  apply (WalletOrchestratorFacts.requestRenderService_with_wallet (H := plain_host));
    reflexivity.
Defined.

Lemma requestDataProcessing_success_witness :
  (JS.run (DataProcessing.requestDataProcessing (H := plain_host)
             prompt_processing_wallet 2 "uuid-2" processing_config)).1
  = Returned {| Result.success := true; Result.txHash := JStr "0xfeed";
                Result.jobId := JStr "uuid-2" |}.
Proof.
  apply (proj1 (DataProcessingFacts.requestDataProcessing_success (H := plain_host)
                  prompt_processing_wallet 2 "uuid-2" processing_config _)).
  eexists _, _. repeat split; reflexivity.
Defined.

(** The payment is confirmed and the agent refuses the notification: the
    request raises, and the payment stays made. *)
Lemma notification_failure_after_payment_witness :
  JS.run (requestRenderService (H := plain_host) prompt_wallet 2 "uuid-1"
            refusing_agent example_config)
  = (Thrown "Agent notification failed: Service Unavailable",
     [Paid (renderPayment (H := plain_host) "uuid-1" example_config);
      Waited 2;
      Notified (notification (confirmed_tx "uuid-1") example_config)]).
Proof.
  destruct (NotificationFacts.notification_failure_after_payment (H := plain_host)
              prompt_wallet 2 "uuid-1" refusing_agent example_config
              (confirmed_tx "uuid-1") {[ "status" := JStr "confirmed" ]}
              eq_refl eq_refl eq_refl) as (Hlog & _ & Hrefused & _).
  apply injective_projections; [| exact Hlog].
  apply (Hrefused _ eq_refl eq_refl).
Defined.

End OrchestratorWitnesses.

(* ===================================================================== *)
(** ** x402Client: headers, timeouts and job lookups *)
(* ===================================================================== *)

Module ClientFacts.
Import x402Client ClientSpec.

Section Facts.
Context `{Host}.
Variable this : Client.
Variable network : Request.t -> option (Z * outcome Response).
Variables now tokenTime : Z.

#[local] Abbreviation sent url options :=
  (Request.headers (request_of this now tokenTime url options)).

Lemma authorized_headers (h : gmap string jsval) :
  match wallet this with
  | Some wallet =>
    if truthy (get wallet "address")
    then <["Authorization" := JStr ("Bearer " ++ getAuthToken tokenTime)]> h
    else h
  | None => h
  end
  = if authorized this
    then <["Authorization" := JStr ("Bearer " ++ getAuthToken tokenTime)]> h
    else h.
Proof. unfold authorized. destruct (wallet this); reflexivity. Qed.

(** X20: the headers [fetch] sends.  [Content-Type] is
    ['application/json'] whatever the caller passed.  With a truthy
    [payment], [X-402-Payment] is that payment and [X-402-Deadline] is
    the given deadline as a string or, the deadline being absent or
    falsy (0 included), the current time plus 30000; without one, the
    two headers are the caller's and a given deadline is ignored.
    [Authorization] is the bearer token of the moment when the client
    has a wallet with an address, the caller's otherwise.  Every other
    header of the caller is passed on unchanged. *)
Theorem fetch_headers (url : string) (options : Options) :
  sent url options !! "Content-Type" = Some (JStr "application/json")
  /\ (truthy (payment options) = true ->
      sent url options !! "X-402-Payment" = Some (payment options)
      /\ sent url options !! "X-402-Deadline"
         = Some (JStr (if truthy (deadline options)
                       then to_string (deadline options)
                       else pretty (now + 30000))))
  /\ (truthy (payment options) = false ->
      sent url options !! "X-402-Payment" = given options !! "X-402-Payment"
      /\ sent url options !! "X-402-Deadline" = given options !! "X-402-Deadline")
  /\ sent url options !! "Authorization"
     = (if authorized this
        then Some (JStr ("Bearer auth_token_" ++ pretty tokenTime))
        else given options !! "Authorization")
  /\ (forall key,
        key <> "Content-Type" -> key <> "X-402-Payment" ->
        key <> "X-402-Deadline" -> key <> "Authorization" ->
        sent url options !! key = given options !! key).
Proof.
  unfold request_of, build_headers, given. cbn [Request.headers].
  rewrite authorized_headers. unfold getAuthToken.
  destruct (authorized this), (truthy (payment options));
    (split; [| split; [| split; [| split]]]); intros; try discriminate;
    try split;
    repeat first [ rewrite lookup_insert_eq | rewrite lookup_insert_ne by congruence ];
    reflexivity.
Qed.

(** X21: [getJob] asks for [baseURL/jobs/<id>] with [GET] and without a
    payment header.  It raises ['Request timeout'] when the server takes
    more than [defaultTimeout] ms or never answers, the error of the
    network when the request fails earlier, and ['Failed to get job:
    <statusText>'] on a response that is not [ok].  Otherwise it returns
    the job described by the body, whose [run] posts to
    [baseURL/jobs/<id>/run] and returns the body of the answer without
    looking at its status. *)
Theorem getJob_outcomes (jobId : jsval) :
  let lookup :=
    {| Request.url := baseURL this ++ "/jobs/" ++ to_string jobId;
       Request.method := JStr "GET"; Request.body := JUndefined;
       Request.headers := build_headers this now tokenTime (plain "GET" JUndefined) |} in
  let start :=
    {| Request.url := baseURL this ++ "/jobs/" ++ to_string jobId ++ "/run";
       Request.method := JStr "POST"; Request.body := JUndefined;
       Request.headers := build_headers this now tokenTime (plain "POST" JUndefined) |} in
  Request.headers lookup !! "X-402-Payment" = None
  /\ (match network lookup with
      | Some (elapsed, _) => defaultTimeout this < elapsed
      | None => True
      end ->
      getJob this network now tokenTime jobId = Thrown "Request timeout")
  /\ (forall elapsed message,
        network lookup = Some (elapsed, Thrown message) ->
        elapsed < defaultTimeout this ->
        getJob this network now tokenTime jobId = Thrown message)
  /\ (forall elapsed response,
        network lookup = Some (elapsed, Returned response) ->
        elapsed < defaultTimeout this -> ok response = false ->
        getJob this network now tokenTime jobId
        = Thrown ("Failed to get job: " ++ statusText response))
  /\ (forall elapsed response jobData,
        network lookup = Some (elapsed, Returned response) ->
        elapsed < defaultTimeout this -> ok response = true ->
        json response = Returned jobData ->
        exists job,
          getJob this network now tokenTime jobId = Returned job
          /\ id job = get jobData "id" /\ status job = get jobData "status"
          /\ forall elapsed' answer,
               network start = Some (elapsed', Returned answer) ->
               elapsed' < defaultTimeout this ->
               run job = json answer).
Proof.
  intros lookup start. unfold getJob, fetch.
  change (request_of this now tokenTime (baseURL this ++ "/jobs/" ++ to_string jobId)
            (plain "GET" JUndefined)) with lookup.
  change (request_of this now tokenTime
            (baseURL this ++ "/jobs/" ++ to_string jobId ++ "/run")
            (plain "POST" JUndefined)) with start.
  split; [| split; [| split; [| split]]].
  - unfold lookup, build_headers. cbn [Request.headers plain payment headers truthy].
    rewrite authorized_headers. destruct (authorized this);
      repeat rewrite lookup_insert_ne by discriminate; apply lookup_empty.
  - destruct (network lookup) as [[elapsed completion]|]; [| reflexivity].
    intros Hlate.
    assert (Hout : (elapsed <? defaultTimeout this) = false)
      by (apply Z.ltb_ge; lia).
    now rewrite Hout.
  - intros elapsed message -> Hin. apply Z.ltb_lt in Hin. now rewrite Hin.
  - intros elapsed response -> Hin Hok. apply Z.ltb_lt in Hin. rewrite Hin.
    simpl. now rewrite Hok.
  - intros elapsed response jobData -> Hin Hok Hbody. apply Z.ltb_lt in Hin.
    rewrite Hin. simpl. rewrite Hok, Hbody. simpl.
    eexists. split; [reflexivity |]. repeat split.
    intros elapsed' answer -> Hin'. apply Z.ltb_lt in Hin'. cbn [run].
    now rewrite Hin'.
Qed.

End Facts.
End ClientFacts.

(* ===================================================================== *)
(** ** BridgeLayer: payment headers, request verification, settlement *)
(* ===================================================================== *)

Module SplitFacts.
Import BridgeSpec.

Lemma split_not_nil (separator : ascii) (s : string) : split separator s <> [].
Proof.
  destruct s as [|c s]; simpl; [discriminate |].
  destruct (Ascii.eqb c separator); [discriminate |].
  destruct (split separator s); discriminate.
Qed.

Lemma split_spaceless (s : string) : spaceless s = true -> split " " s = [s].
Proof.
  induction s as [|c s IH]; simpl; [reflexivity |].
  intros [Hc Hs]%andb_true_iff. apply negb_true_iff in Hc. rewrite Hc.
  now rewrite (IH Hs).
Qed.

Lemma split_first (a rest : string) :
  spaceless a = true -> split " " (a ++ String " " rest) = a :: split " " rest.
Proof.
  induction a as [|c a IH]; intros Ha.
  - reflexivity.
  - simpl in Ha. apply andb_true_iff in Ha as [Hc Ha]. apply negb_true_iff in Hc.
    change (String c a ++ String " " rest) with (String c (a ++ String " " rest)).
    simpl. rewrite Hc. now rewrite (IH Ha).
Qed.

End SplitFacts.

Module BridgeFacts.
Import BridgeLayer BridgeSpec.

Section Facts.
Context `{Host}.
Variable now : float.

Lemma parse_two_words (amount asset tail : string) :
  spaceless amount = true -> spaceless asset = true ->
  tail = "" \/ (exists rest, tail = String " " rest) ->
  parsePaymentHeader now (amount ++ String " " (asset ++ tail))
  = denoted now amount asset.
Proof.
  intros Ha Hs Htail. unfold parsePaymentHeader, denoted.
  rewrite (SplitFacts.split_first amount _ Ha).
  assert (Hsecond : exists more, split " " (asset ++ tail) = asset :: more).
  { destruct Htail as [-> | (rest & ->)].
    - exists []. rewrite StringFacts.app_nil_r. now apply SplitFacts.split_spaceless.
    - eexists. now apply SplitFacts.split_first. }
  destruct Hsecond as (more & ->). unfold element. simpl.
  unfold or_else. simpl. destruct asset; reflexivity.
Qed.

(** X22: [parsePaymentHeader] reads the first two words of the header,
    words being separated by single spaces: the amount is [parseFloat] of
    the first, the asset is the second, or ['USDC'] when there is no
    second word or it is empty (as after two spaces in a row); whatever
    follows the second word is ignored.  The asset of the parsed payment
    is never empty, and the payment never has a [requiresMultiSig]
    property. *)
Theorem parsePaymentHeader_words (header : string) :
  (forall amount asset,
     spaceless amount = true -> spaceless asset = true ->
     header = amount ++ String " " asset ->
     parsePaymentHeader now header = denoted now amount asset)
  /\ (forall amount asset rest,
        spaceless amount = true -> spaceless asset = true ->
        header = amount ++ String " " (asset ++ String " " rest) ->
        parsePaymentHeader now header = denoted now amount asset)
  /\ (spaceless header = true ->
      parsePaymentHeader now header = denoted now header "")
  /\ (exists asset,
        parsePaymentHeader now header !! "asset" = Some (JStr asset)
        /\ asset <> "")
  /\ parsePaymentHeader now header !! "requiresMultiSig" = None.
Proof.
  split; [| split; [| split; [| split]]].
  - intros amount asset Ha Hs ->.
    rewrite <- (StringFacts.app_nil_r asset) at 1.
    apply parse_two_words; auto.
  - intros amount asset rest Ha Hs ->. apply parse_two_words; eauto.
  - intros Hh. unfold parsePaymentHeader, denoted.
    now rewrite (SplitFacts.split_spaceless header Hh).
  - unfold parsePaymentHeader.
    rewrite lookup_insert_ne by discriminate. rewrite lookup_insert_eq.
    unfold element, or_else.
    destruct (split " " header !! 1%nat) as [[|c asset]|]; simpl.
    + exists "USDC". split; [reflexivity | discriminate].
    + exists (String c asset). split; [reflexivity | discriminate].
    + exists "USDC". split; [reflexivity | discriminate].
  - unfold parsePaymentHeader.
    repeat rewrite lookup_insert_ne by discriminate.
    now apply lookup_singleton_ne.
Qed.

Variable verifyOnChain : gmap string jsval -> outcome (gmap string jsval).
Variable verifyMultiSig : gmap string jsval -> outcome bool.

#[local] Abbreviation verifying headers log :=
  (verifyRequest now verifyOnChain verifyMultiSig headers log).

Lemma verifyRequest_string (headers : gmap string jsval) (header : string)
    (log : list event) :
  get headers "X-402-Payment" = JStr header -> header <> "" ->
  verifying headers log
  = (verification ← verifyOnChain (parsePaymentHeader now header);
     Returned (if truthy (get verification "valid")
               then Accepted (parsePaymentHeader now header) verification
               else Refused verification),
     (log ++ [OnChainVerified (parsePaymentHeader now header)])%list).
Proof.
  intros Hh Hne. unfold verifyRequest. rewrite Hh.
  destruct header as [|c header]; [contradiction |]. simpl.
  unfold andThen, perform, await, pure. simpl.
  destruct (verifyOnChain _) as [verification|message]; simpl; [| reflexivity].
  destruct (truthy (get verification "valid")); simpl; [| reflexivity].
  assert (Hms : get (parsePaymentHeader now (String c header)) "requiresMultiSig"
                = JUndefined).
  { unfold get, parsePaymentHeader.
    repeat rewrite lookup_insert_ne by discriminate.
    now rewrite lookup_singleton_ne by discriminate. }
  rewrite Hms. reflexivity.
Qed.

(** X23: [verifyRequest] answers [{ valid: false, reason: 'Missing
    X-402-Payment header' }] without asking the chain when the header is
    absent or falsy.  For a header that is a non-empty string it asks the
    chain once, about the parsed payment, and answers with the
    verification of the chain itself when that is not valid, with
    [{ valid: true, payment, verification }] when it is, an error of the
    chain being passed on.  The multi-signature check is never made, the
    parsed payment having no [requiresMultiSig]; and no header but
    [X-402-Payment] is read, the deadline in particular. *)
Theorem verifyRequest_checks (headers : gmap string jsval) (log : list event) :
  (truthy (get headers "X-402-Payment") = false ->
   verifying headers log = (Returned MissingHeader, log))
  /\ (forall header,
        get headers "X-402-Payment" = JStr header -> header <> "" ->
        (verifying headers log).2
        = (log ++ [OnChainVerified (parsePaymentHeader now header)])%list
        /\ (forall verification,
              verifyOnChain (parsePaymentHeader now header) = Returned verification ->
              (verifying headers log).1
              = Returned (if truthy (get verification "valid")
                          then Accepted (parsePaymentHeader now header) verification
                          else Refused verification))
        /\ (forall message,
              verifyOnChain (parsePaymentHeader now header) = Thrown message ->
              (verifying headers log).1 = Thrown message))
  /\ (forall payment, ~ In (MultiSigVerified payment) log ->
                      ~ In (MultiSigVerified payment) (verifying headers log).2)
  /\ (forall headers',
        get headers' "X-402-Payment" = get headers "X-402-Payment" ->
        verifying headers' log = verifying headers log).
Proof.
  split; [| split; [| split]].
  - intros Hf. unfold verifyRequest. now rewrite Hf.
  - intros header Hh Hne. rewrite (verifyRequest_string headers header log Hh Hne).
    split; [reflexivity |]. split.
    + intros verification ->. reflexivity.
    + intros message ->. reflexivity.
  - intros payment Hlog.
    destruct (get headers "X-402-Payment") as [| | b | x | header] eqn:Hh.
    1-4: unfold verifyRequest; rewrite Hh; simpl;
      repeat match goal with |- context [if ?b then _ else _] => destruct b end;
      exact Hlog.
    destruct header as [|c header].
    + unfold verifyRequest. rewrite Hh. exact Hlog.
    + rewrite (verifyRequest_string headers _ log Hh ltac:(discriminate)).
      simpl. intros Hin. apply in_app_or in Hin as [Hin | [[=] | []]].
      contradiction.
  - intros headers' Hsame. unfold verifyRequest. now rewrite Hsame.
Qed.

End Facts.
End BridgeFacts.

Module SettlementFacts.
Import BridgeLayer BridgeSpec.

Section Facts.
Context `{Host}.
Variable now : float.
Variable verifyOnChain : gmap string jsval -> outcome (gmap string jsval).
Variable verifyMultiSig : gmap string jsval -> outcome bool.
Variable gasOptimizer : option (gmap string jsval -> outcome jsval).
Variables executionTime confirmationTime : float.
Variable payment : gmap string jsval.

#[local] Abbreviation settling log :=
  (automateSettlement gasOptimizer executionTime confirmationTime payment log).

(** X25: [automateSettlement] executes a settlement only after the gas
    optimizer returned an estimate for the payment, and the settlement is
    the payment with that estimate.  Without an optimizer it raises and
    does nothing; when the estimate fails it raises that error and
    executes nothing.  Otherwise it executes the settlement, waits for
    it and reports the hash and the receipt of the placeholders with the
    latency [receipt.timestamp - payment.timestamp]. *)
Theorem automateSettlement_stages (log : list event) :
  (gasOptimizer = None ->
   raised (settling log).1 = true /\ (settling log).2 = log)
  /\ (forall estimate message,
        gasOptimizer = Some estimate -> estimate payment = Thrown message ->
        settling log = (Thrown message, (log ++ [GasEstimated payment])%list))
  /\ (forall estimate gasEstimate,
        gasOptimizer = Some estimate -> estimate payment = Returned gasEstimate ->
        settling log
        = (Returned
             {| Settlement.success := true;
                Settlement.txHash := JStr "0x...";
                Settlement.receipt :=
                  {[ "hash" := JStr "0x..."; "confirmed" := JBool true;
                     "timestamp" := JNum confirmationTime ]};
                Settlement.latency :=
                  (confirmationTime - to_number (get payment "timestamp"))%float |},
           (log ++ [GasEstimated payment;
                    SettlementExecuted (<["gasEstimate" := gasEstimate]> payment);
                    SettlementAwaited (JStr "0x...")])%list))
  /\ (forall settlement,
        ~ In (SettlementExecuted settlement) log ->
        In (SettlementExecuted settlement) (settling log).2 ->
        exists estimate gasEstimate,
          gasOptimizer = Some estimate
          /\ estimate payment = Returned gasEstimate
          /\ settlement = <["gasEstimate" := gasEstimate]> payment).
Proof.
  unfold automateSettlement, catch, andThen, perform, await, throw, pure,
    executeSettlement, waitForSettlement.
  destruct gasOptimizer as [estimate|]; simpl.
  - destruct (estimate payment) as [gasEstimate|message] eqn:He; simpl;
      (split; [discriminate |]); (split; [| split]).
    + intros e m [= <-]. congruence.
    + intros e g [= <-] Hg. rewrite He in Hg. injection Hg as <-.
      rewrite <- !app_assoc. reflexivity.
    + intros settlement Hlog Hin.
      repeat (apply in_app_or in Hin as [Hin | Hin]);
        try contradiction; simpl in Hin;
        repeat (destruct Hin as [Hin | Hin]; try discriminate; try contradiction).
      injection Hin as <-. eauto.
    + intros e m [= <-] Hm. rewrite He in Hm. injection Hm as <-. reflexivity.
    + intros e g [= <-]. congruence.
    + intros settlement Hlog Hin.
      apply in_app_or in Hin as [Hin | [[=] | []]]. contradiction.
  - split; [intros _; split; reflexivity |].
    split; [discriminate |]. split; [discriminate |].
    intros settlement Hlog Hin. contradiction.
Qed.

End Facts.
End SettlementFacts.

Module ClientBridgeFacts.
Import x402Client BridgeLayer BridgeSpec.

(** X24: what the client sends the bridge reads.  For a [payment]
    option made of an amount and an asset separated by a space, the
    headers [fetch] builds are accepted by the [verifyRequest] of a
    bridge on the chain of the source, as the payment of that amount
    ([parseFloat] of it) in that asset (['USDC'] when empty), after one
    query of the chain, whatever the deadline and the other options. *)
Theorem paid_request_accepted `{Host} (this : Client) (clientTime tokenTime : Z)
    (bridgeTime : float) (url : string) (options : Options)
    (amount asset : string) (log : list event) :
  spaceless amount = true -> spaceless asset = true ->
  payment options = JStr (amount ++ String " " asset) ->
  let request := request_of this clientTime tokenTime url options in
  verifyRequest bridgeTime placeholder_chain placeholder_multisig
                (Request.headers request) log
  = (Returned (Accepted (denoted bridgeTime amount asset) {[ "valid" := JBool true ]}),
     (log ++ [OnChainVerified (denoted bridgeTime amount asset)])%list).
Proof.
  intros Ha Hs Hp request.
  assert (Hheader : get (Request.headers request) "X-402-Payment"
                    = JStr (amount ++ String " " asset)).
  { unfold request, request_of, build_headers, get. cbn [Request.headers].
    rewrite ClientFacts.authorized_headers, Hp.
    assert (Ht : truthy (JStr (amount ++ String " " asset)) = true)
      by (destruct amount; reflexivity).
    rewrite Ht.
    destruct (ClientSpec.authorized this);
      repeat first [ rewrite lookup_insert_eq
                   | rewrite lookup_insert_ne by discriminate ];
      reflexivity. }
  rewrite (BridgeFacts.verifyRequest_string bridgeTime placeholder_chain
             placeholder_multisig _ _ log Hheader)
    by (destruct amount; discriminate).
  assert (Hparse : parsePaymentHeader bridgeTime (amount ++ String " " asset)
                   = denoted bridgeTime amount asset).
  { pose proof (BridgeFacts.parse_two_words bridgeTime amount asset "" Ha Hs
                  (or_introl eq_refl)) as Hp'.
    now rewrite StringFacts.app_nil_r in Hp'. }
  rewrite Hparse. reflexivity.
Qed.

End ClientBridgeFacts.

(** *** Concrete runs *)

Module ClientBridgeWitnesses.
Import x402Client ClientSpec BridgeLayer BridgeSpec.

(** The singleton client sends a paid request: its content type is
    forced, the deadline is thirty seconds away, the caller's other
    header is kept and there is no authorization. *)
Lemma fetch_headers_witness :
  let sent :=
    Request.headers (request_of (H := plain_host) x402 1700000000000 1700000000001
                       "https://api.datafeed.ai/v1/streams" paid_options) in
  sent !! "Content-Type" = Some (JStr "application/json")
  /\ sent !! "X-402-Payment" = Some (JStr "0.5 USDC")
  /\ sent !! "X-402-Deadline" = Some (JStr "1700000030000")
  /\ sent !! "Accept" = Some (JStr "application/json")
  /\ sent !! "Authorization" = None.
Proof.
  intros sent.
  destruct (ClientFacts.fetch_headers (H := plain_host) x402 1700000000000
              1700000000001 "https://api.datafeed.ai/v1/streams" paid_options)
    as (Htype & Hpaid & _ & Hauth & Hother).
  destruct (Hpaid eq_refl) as [Hpayment Hdeadline].
  split; [exact Htype |]. split; [exact Hpayment |].
  split; [| split].
  - unfold sent. rewrite Hdeadline. vm_compute. reflexivity.
  - unfold sent. rewrite Hother by discriminate. reflexivity.
  - unfold sent. rewrite Hauth. reflexivity.
Defined.

(** A job the server does not know. *)
Lemma getJob_outcomes_witness :
  getJob (H := plain_host) x402 missing_job 1700000000000 1700000000001 (JStr "job-1")
  = Thrown "Failed to get job: Not Found".
Proof.
  destruct (ClientFacts.getJob_outcomes (H := plain_host) x402 missing_job
              1700000000000 1700000000001 (JStr "job-1"))
    as (_ & _ & _ & Hrefused & _).
  apply (Hrefused 120 {| ok := false; statusText := "Not Found";
                         json := Returned ∅ |}); reflexivity.
Defined.

(** The header of the examples, and one with two spaces, whose asset is
    not read. *)
Lemma parsePaymentHeader_words_witness :
  parsePaymentHeader (H := reading_host) 1700000000000 "0.5 USDC"
  = {[ "amount" := JNum 0.5; "asset" := JStr "USDC";
       "timestamp" := JNum 1700000000000 ]}
  /\ parsePaymentHeader (H := reading_host) 1700000000000 "0.5  ETH"
     = {[ "amount" := JNum 0.5; "asset" := JStr "USDC";
          "timestamp" := JNum 1700000000000 ]}.
Proof.
  split.
  - apply (proj1 (BridgeFacts.parsePaymentHeader_words (H := reading_host)
                    1700000000000 "0.5 USDC") "0.5" "USDC"); reflexivity.
  - apply (proj1 (proj2 (BridgeFacts.parsePaymentHeader_words (H := reading_host)
                           1700000000000 "0.5  ETH")) "0.5" "" "ETH");
      reflexivity.
Defined.

(** A request without the payment header is refused before the chain is
    asked. *)
Lemma verifyRequest_checks_witness :
  verifyRequest (H := plain_host) 1700000000000 placeholder_chain placeholder_multisig
                {[ "Content-Type" := JStr "application/json" ]} []
  = (Returned MissingHeader, []).
Proof.
  apply (proj1 (BridgeFacts.verifyRequest_checks (H := plain_host) 1700000000000
                  placeholder_chain placeholder_multisig
                  {[ "Content-Type" := JStr "application/json" ]} [])).
  reflexivity.
Defined.

(** What the client sends for ["0.5 USDC"] the bridge accepts as 0.5
    USDC. *)
Lemma paid_request_accepted_witness :
  verifyRequest (H := reading_host) 1700000000500 placeholder_chain
    placeholder_multisig
    (Request.headers (request_of (H := reading_host) x402 1700000000000
                        1700000000001 "https://api.datafeed.ai/v1/streams"
                        paid_options)) []
  = (Returned (Accepted {[ "amount" := JNum 0.5; "asset" := JStr "USDC";
                           "timestamp" := JNum 1700000000500 ]}
                        {[ "valid" := JBool true ]}),
     [OnChainVerified {[ "amount" := JNum 0.5; "asset" := JStr "USDC";
                         "timestamp" := JNum 1700000000500 ]}]).
Proof.
  apply (ClientBridgeFacts.paid_request_accepted (H := reading_host) x402
           1700000000000 1700000000001 1700000000500
           "https://api.datafeed.ai/v1/streams" paid_options "0.5" "USDC" []);
    reflexivity.
Defined.

(** No settlement is executed when the gas cannot be estimated. *)
Lemma automateSettlement_stages_witness :
  automateSettlement (H := plain_host) (Some failing_optimizer) 1700000000100
    1700000000200 (denoted (H := plain_host) 1700000000000 "0.5" "USDC") []
  = (Thrown "gas price unavailable",
     [GasEstimated (denoted (H := plain_host) 1700000000000 "0.5" "USDC")]).
Proof.
  destruct (SettlementFacts.automateSettlement_stages (H := plain_host)
              (Some failing_optimizer) 1700000000100 1700000000200
              (denoted (H := plain_host) 1700000000000 "0.5" "USDC") [])
    as (_ & Hfails & _).
  apply (Hfails failing_optimizer); reflexivity.
Defined.

End ClientBridgeWitnesses.

(* ===================================================================== *)
(** ** ProofEngine: algorithms, signatures, the proof store *)
(* ===================================================================== *)

Module EngineFacts.
Import ProofEngine ProofEngineSpec EngineSpec.

Section Facts.
Context `{Host}.
Variable this : Engine.
Variable sha256 : string -> string.
Variable now : Z.

(** X26: an engine configured for an algorithm other than ['sha256']
    can neither generate nor verify: [generateProof] raises ['Unsupported
    algorithm: <algorithm>'] for every transaction, before anything is
    handed to the proof store, and [verifyProof] raises the same error
    for every proof instead of answering [false]. *)
Theorem unsupported_algorithm (transaction : Transaction) (proof : Proof.t)
    (log : list event) :
  algorithm this <> "sha256" ->
  generateProof this sha256 now transaction log
  = (Thrown ("Unsupported algorithm: " ++ algorithm this), log)
  /\ verifyProof this sha256 proof
     = Thrown ("Unsupported algorithm: " ++ algorithm this).
Proof.
  intros Ha. apply String.eqb_neq in Ha.
  unfold generateProof, verifyProof, hashProof, andThen, await. rewrite Ha.
  split; reflexivity.
Qed.

(** X27: the signature of a proof binds nothing.  [verifyProof] gives
    the same verdict whatever the signature, the algorithm and the
    timestamp of the proof are: only the data and the hash count, and a
    forged or removed signature goes unnoticed.  The signature
    [generateProof] writes for a signed transaction is ['sig_'] followed
    by the first 16 characters of the hash of the proof, whoever the
    signer is. *)
Theorem signature_not_verified (proof : Proof.t) :
  algorithm this = "sha256" ->
  (forall signature algorithm' timestamp,
     verifyProof this sha256 (relabelled proof signature algorithm' timestamp)
     = verifyProof this sha256 proof)
  /\ (forall transaction log generatedProof log',
        generateProof this sha256 now transaction log = (Returned generatedProof, log') ->
        value_truthy (signer transaction) = true ->
        Proof.signature generatedProof
        = Some ("sig_" ++ substring 0 16 (Proof.hash generatedProof))
        /\ Proof.hash generatedProof = sha256 (stringify_object (snapshot transaction))).
Proof.
  intros Ha. split.
  - intros signature algorithm' timestamp.
    now rewrite !(ProofEngineFacts.verifyProof_iff this sha256 Ha).
  - intros transaction log generatedProof log'.
    unfold generateProof, andThen, await, pure, perform, signProof.
    rewrite !(ProofEngineFacts.hashProof_sha256 this sha256 Ha). simpl.
    intros Hrun Hs. rewrite Hs in Hrun. simpl in Hrun.
    destruct (proofStorage this) as [store|]; simpl in Hrun.
    + destruct (store _); [| discriminate]. injection Hrun as <- _.
      split; reflexivity.
    + injection Hrun as <- _. split; reflexivity.
Qed.

(** X28: [generateProof] and the proof store.  Without a store nothing
    is stored and the proof is returned.  With a store, the proof of the
    snapshot is handed to it exactly once, as the last action, and
    [generateProof] returns that very proof when the store accepts it
    and raises the error of the store, returning no proof, when it does
    not. *)
Theorem generateProof_storage (transaction : Transaction) (log : list event) :
  algorithm this = "sha256" ->
  (proofStorage this = None ->
   exists proof,
     generateProof this sha256 now transaction log = (Returned proof, log))
  /\ (forall store, proofStorage this = Some store ->
      exists proof,
        (generateProof this sha256 now transaction log).2
        = (log ++ [Stored proof])%list
        /\ Proof.data proof = snapshot transaction
        /\ (generateProof this sha256 now transaction log).1
           = (_ ← store proof; Returned proof)).
Proof.
  intros Ha. unfold generateProof, andThen, await, pure, perform, signProof.
  rewrite !(ProofEngineFacts.hashProof_sha256 this sha256 Ha). simpl.
  split.
  - intros ->. destruct (value_truthy (signer transaction)); simpl;
      eexists; reflexivity.
  - intros store ->. destruct (value_truthy (signer transaction)); simpl;
      match goal with
      | |- context [store ?p] =>
        exists p; destruct (store p) as [[]|message]; simpl;
        repeat split; reflexivity
      end.
Qed.

End Facts.
End EngineFacts.

(* ===================================================================== *)
(** ** ProofEngine.generateAuditSummary: tallies *)
(* ===================================================================== *)

Module SummaryFacts.
Import ProofEngine ProofEngineSpec EngineSpec.

Section Facts.
Context `{Host}.






(** *** Amounts that do not parse *)





End Facts.
End SummaryFacts.

(** *** Concrete runs *)

Module EngineWitnesses.
Import ProofEngine ProofEngineSpec EngineSpec EngineExamples.

Lemma unsupported_algorithm_witness :
  generateProof (H := plain_host) md5_engine toy_hash 1700000000001
                example_transaction []
  = (Thrown "Unsupported algorithm: md5", [])
  /\ verifyProof (H := plain_host) md5_engine toy_hash example_proof
     = Thrown "Unsupported algorithm: md5".
Proof.
  apply (EngineFacts.unsupported_algorithm (H := plain_host) md5_engine toy_hash
           1700000000001 example_transaction example_proof []).
  discriminate.
Defined.

(** A forged signature changes nothing to the verdict. *)
Lemma signature_not_verified_witness :
  verifyProof (H := plain_host) default_engine toy_hash
    (relabelled example_proof (Some "sig_forged") "none" 0)
  = verifyProof (H := plain_host) default_engine toy_hash example_proof.
Proof.
  apply (proj1 (EngineFacts.signature_not_verified (H := plain_host) default_engine
                  toy_hash 1700000000001 example_proof eq_refl)).
Defined.

(** The store refuses the proof: it was handed over, and the caller gets
    the error of the store instead of the proof. *)
Lemma generateProof_storage_witness :
  (generateProof (H := plain_host) storing_engine toy_hash 1700000000001
                 example_transaction []).1
  = Thrown "store is full".
Proof.
  destruct (proj2 (EngineFacts.generateProof_storage (H := plain_host) storing_engine
                     toy_hash 1700000000001 example_transaction [] eq_refl)
                  full_store eq_refl)
    as (proof & _ & _ & ->).
  reflexivity.
Defined.



End EngineWitnesses.
